(** * Certificate engine: a shallow embedding of
    [services/certificate_engine.py] and the properties of its value
    transformer, device classifier, validator, number allocator, field
    assembler and orchestrator.

    Conventions of the embedding.
    - Python [str] is Rocq [string]; the alphabet is ASCII (code points
      below 128), so case conversion touches [A-Z]/[a-z] only, the
      white-space class is the ASCII part of [str.isspace] and the digits
      are [0-9].  On a text that is not ASCII ([Str.is_ascii]) the methods
      of [str], the classes [\d] and [\s] and [float] do more than their
      embeddings; a property of the case, the white space or the digits of
      a text is stated for ASCII text.
    - JSON values handed over by the CRM are [PyVal]: null, booleans,
      integers, strings and arrays.  Objects occur only as property bags
      ([gmap string PyVal]).
    - A [dict] used as a map is a [gmap]; a [dict] whose iteration order is
      observed ([type_rules], [grouped]) is an association list.
    - Exceptions are the [Err] side of [Result]; effects on the CRM are
      threaded through the state-and-error monad [M]. *)

From Stdlib Require Import ZArith Ascii String List Lia Bool.
From stdpp Require Import base option list gmap strings pretty sorting.

Local Open Scope Z_scope.

(** ** Python values *)

#[warnings="-register-all"]
Inductive PyVal : Type :=
| VNone
| VBool (b : bool)
| VInt (n : Z)
| VStr (s : string)
| VList (l : list PyVal).

(** Exceptions the engine can raise; messages are kept where the code
    builds them. *)
Inductive PyExc : Type :=
| AttributeError
| TypeError
| KeyError (k : string)
| ValueError (msg : string)
| OverflowError
| Exception_ (msg : string).

Inductive Result (A : Type) : Type :=
| Ok (a : A)
| Err (e : PyExc).
Arguments Ok {A} a.
Arguments Err {A} e.

Definition rbind {A B} (r : Result A) (f : A -> Result B) : Result B :=
  match r with
  | Ok a => f a
  | Err e => Err e
  end.

Notation "x <-? r ; k" := (rbind r (fun x => k))
  (at level 100, r at next level, right associativity).

Definition is_err {A} (r : Result A) : bool :=
  match r with Ok _ => false | Err _ => true end.

(** ** Strings *)

Module Str.

Definition code (c : ascii) : N := N_of_ascii c.

(** The class [\d] on ASCII text: [0-9]. *)
Definition is_digit (c : ascii) : bool :=
  ((48 <=? code c) && (code c <=? 57))%N.

Definition is_upper (c : ascii) : bool :=
  ((65 <=? code c) && (code c <=? 90))%N.

Definition is_lower (c : ascii) : bool :=
  ((97 <=? code c) && (code c <=? 122))%N.

(** [str.isspace] on ASCII: TAB, LF, VT, FF, CR, FS, GS, RS, US, space. *)
Definition is_space (c : ascii) : bool :=
  (((9 <=? code c) && (code c <=? 13))
   || ((28 <=? code c) && (code c <=? 32)))%N.

Definition lower_char (c : ascii) : ascii :=
  if is_upper c then ascii_of_N (code c + 32) else c.

Definition upper_char (c : ascii) : ascii :=
  if is_lower c then ascii_of_N (code c - 32) else c.

Fixpoint map (f : ascii -> ascii) (s : string) : string :=
  match s with
  | EmptyString => EmptyString
  | String c s' => String (f c) (map f s')
  end.

(** [s.lower()], [s.upper()] on ASCII text. *)
Definition lower : string -> string := map lower_char.
Definition upper : string -> string := map upper_char.

(** [s.isascii()]: every code point is below 128. *)
Fixpoint is_ascii (s : string) : bool :=
  match s with
  | EmptyString => true
  | String c s' => (code c <? 128)%N && is_ascii s'
  end.

Fixpoint drop_while (p : ascii -> bool) (s : string) : string :=
  match s with
  | EmptyString => EmptyString
  | String c s' => if p c then drop_while p s' else s
  end.

Fixpoint take_while (p : ascii -> bool) (s : string) : string :=
  match s with
  | EmptyString => EmptyString
  | String c s' => if p c then String c (take_while p s') else EmptyString
  end.

(** Drops the longest suffix whose characters satisfy [p]. *)
Fixpoint drop_while_end (p : ascii -> bool) (s : string) : string :=
  match s with
  | EmptyString => EmptyString
  | String c s' =>
      match drop_while_end p s' with
      | EmptyString => if p c then EmptyString else String c EmptyString
      | r => String c r
      end
  end.

(** [s.strip()], [s.lstrip('0')] *)
Definition strip (s : string) : string :=
  drop_while_end is_space (drop_while is_space s).

Definition lstrip_char (c : ascii) (s : string) : string :=
  drop_while (Ascii.eqb c) s.

(** [sub in s] *)
Fixpoint contains (sub s : string) : bool :=
  String.prefix sub s
  || match s with
     | EmptyString => false
     | String _ s' => contains sub s'
     end.

(** [s.replace(old, new)] for a non-empty [old]: non-overlapping
    occurrences, left to right. *)
Fixpoint replace_go (fuel : nat) (old new s : string) : string :=
  match fuel with
  | O => s
  | S fuel' =>
      if String.prefix old s
      then new +:+ replace_go fuel' old new
                   (String.substring (String.length old)
                      (String.length s - String.length old) s)
      else match s with
           | EmptyString => EmptyString
           | String c s' => String c (replace_go fuel' old new s')
           end
  end.

Definition replace (old new s : string) : string :=
  replace_go (S (String.length s)) old new s.

(** [sep.join(l)] *)
Fixpoint join (sep : string) (l : list string) : string :=
  match l with
  | [] => EmptyString
  | [x] => x
  | x :: rest => x +:+ sep +:+ join sep rest
  end.

(** Comparison of [str] values: lexicographic on code points. *)
Definition le (a b : string) : bool :=
  match String.compare a b with
  | Gt => false
  | _ => true
  end.

Definition of_Z (n : Z) : string := pretty n.

(** [f"{n:03d}"]: sign-aware zero padding to width three. *)
Definition format_03d (n : Z) : string :=
  let digits := pretty (Z.abs_N n) in
  let sign := if n <? 0 then "-" else EmptyString in
  let width := (String.length sign + String.length digits)%nat in
  sign +:+ String.string_of_list_ascii (List.repeat "0"%char (3 - width))
       +:+ digits.

(** Zero padding of a non-negative number to [width] digits, as
    [strftime] does for [%d], [%I] and [%M]. *)
Definition zero_pad (width : nat) (n : Z) : string :=
  let digits := pretty (Z.abs_N n) in
  String.string_of_list_ascii
    (List.repeat "0"%char (width - String.length digits)) +:+ digits.

Definition non_empty (s : string) : bool :=
  match s with EmptyString => false | _ => true end.

Definition dquote : ascii := ascii_of_N 34.
Definition squote : ascii := ascii_of_N 39.
Definition backslash : ascii := ascii_of_N 92.
Definition newline : ascii := ascii_of_N 10.

Definition hex_digit (n : N) : ascii :=
  (if n <? 10 then ascii_of_N (48 + n) else ascii_of_N (87 + n))%N.

(** One character of [repr(s)] for the chosen quote. *)
Definition repr_char (quote c : ascii) : string :=
  if Ascii.eqb c quote || Ascii.eqb c backslash
  then String backslash (String c EmptyString)
  else if (code c =? 9)%N then String backslash "t"
  else if (code c =? 10)%N then String backslash "n"
  else if (code c =? 13)%N then String backslash "r"
  else if ((code c <? 32) || (code c =? 127))%N
  then String backslash
         (String "x" (String (hex_digit (code c / 16))
                        (String (hex_digit (code c mod 16)) EmptyString)))
  else String c EmptyString.

Fixpoint concat_map (f : ascii -> string) (s : string) : string :=
  match s with
  | EmptyString => EmptyString
  | String c s' => f c +:+ concat_map f s'
  end.

Definition mem (c : ascii) (s : string) : bool :=
  contains (String c EmptyString) s.

(** [repr(s)] of a [str]: single quotes unless the text has a single
    quote and no double quote. *)
Definition repr (s : string) : string :=
  let quote := if mem squote s && negb (mem dquote s)
               then dquote else squote in
  String quote (concat_map (repr_char quote) s +:+ String quote EmptyString).

End Str.

(** ** Built-in conversions *)

(** [repr(v)] *)
Fixpoint py_repr (v : PyVal) : string :=
  match v with
  | VNone => "None"
  | VBool true => "True"
  | VBool false => "False"
  | VInt n => Str.of_Z n
  | VStr s => Str.repr s
  | VList l => "[" +:+ Str.join ", " (List.map py_repr l) +:+ "]"
  end.

(** [str(v)] *)
Definition py_str (v : PyVal) : string :=
  match v with
  | VStr s => s
  | _ => py_repr v
  end.

(** Truth value of a list. *)
Definition truthy_list {A} (l : list A) : bool :=
  match l with [] => false | _ => true end.

(** Truth value of [v], as [if v], [not v] and [or] test it. *)
Definition truthy (v : PyVal) : bool :=
  match v with
  | VNone => false
  | VBool b => b
  | VInt n => negb (n =? 0)
  | VStr s => Str.non_empty s
  | VList l => truthy_list l
  end.

(** [a or b] *)
Definition py_or (a b : PyVal) : PyVal := if truthy a then a else b.

(** A CRM property bag, and [bag.get(key)], [bag.get(key, default)]. *)
Abbreviation Props := (gmap string PyVal).

Definition get (bag : Props) (key : string) : PyVal :=
  default VNone (bag !! key).

Definition get_or (bag : Props) (key : string) (dflt : PyVal) : PyVal :=
  default dflt (bag !! key).

(** ** The three regular expressions of the engine *)

Module Re.

(** [re.sub(r'^\d+\s+', '', s)]: a leading run of digits followed by at
    least one white-space character is removed together with the whole
    white-space run. *)
Definition strip_leading_number (s : string) : string :=
  let after_digits := Str.drop_while Str.is_digit s in
  match Str.take_while Str.is_digit s, after_digits with
  | String _ _, String c _ =>
      if Str.is_space c then Str.drop_while Str.is_space after_digits else s
  | _, _ => s
  end.

(** The pattern [\[(\d+)\]] anchored at the head of [s]: the captured
    digits. *)
Definition bracket_number_at (s : string) : option (string * string) :=
  match s with
  | String "[" rest =>
      match Str.take_while Str.is_digit rest,
            Str.drop_while Str.is_digit rest with
      | String d ds, String "]" tail => Some (String d ds, tail)
      | _, _ => None
      end
  | _ => None
  end.

(** [re.search(r'\[(\d+)\]', s)], returning [match.group(1)]. *)
Fixpoint search_bracket_number (s : string) : option string :=
  match bracket_number_at s with
  | Some (digits, _) => Some digits
  | None =>
      match s with
      | EmptyString => None
      | String _ s' => search_bracket_number s'
      end
  end.

Definition not_newline (c : ascii) : bool :=
  negb (Ascii.eqb c Str.newline).

(** The pattern [\s*\[\d+\].*$] anchored at the head of [s]; on a match
    the result is what the match leaves behind: nothing, or the final
    line break that [$] stops in front of. *)
Definition bracket_suffix_at (s : string) : option string :=
  match bracket_number_at (Str.drop_while Str.is_space s) with
  | Some (_, tail) =>
      match Str.drop_while not_newline tail with
      | EmptyString => Some EmptyString
      | String c EmptyString => Some (String c EmptyString)
      | _ => None
      end
  | None => None
  end.

(** [re.sub(r'\s*\[\d+\].*$', '', s)] *)
Fixpoint remove_bracket_suffix (s : string) : string :=
  match bracket_suffix_at s with
  | Some rest => rest
  | None =>
      match s with
      | EmptyString => EmptyString
      | String c s' => String c (remove_bracket_suffix s')
      end
  end.

End Re.

(** ** Dates and the run-time environment *)

(** The fields of a [datetime] the engine looks at. *)
Record DateTime : Type := {
  year : Z;
  month : Z;
  day : Z;
  hour : Z;
  minute : Z;
  second : Z
}.

Definition month_names : list string :=
  ["January"; "February"; "March"; "April"; "May"; "June"; "July";
   "August"; "September"; "October"; "November"; "December"].

(** One [strftime] directive in the C locale.  [%Y] is the year as the C
    library prints it: without padding, so the year 99 is [99]. *)
Definition strftime_directive (d : ascii) (dt : DateTime) : string :=
  match d with
  | "B"%char => nth (Z.to_nat (month dt - 1)) month_names EmptyString
  | "d"%char => Str.zero_pad 2 (day dt)
  | "Y"%char => Str.of_Z (year dt)
  | "I"%char => Str.zero_pad 2 ((hour dt + 11) mod 12 + 1)
  | "M"%char => Str.zero_pad 2 (minute dt)
  | "p"%char => if hour dt <? 12 then "AM" else "PM"
  | _ => String "%" (String d EmptyString)
  end.

(** [dt.strftime(fmt)] for the directives above. *)
Fixpoint strftime (fmt : string) (dt : DateTime) : string :=
  match fmt with
  | EmptyString => EmptyString
  | String "%" (String d rest) => strftime_directive d dt +:+ strftime rest dt
  | String c rest => String c (strftime rest dt)
  end.

(** What the engine takes from its run-time environment: the ISO-8601
    parser of the standard library ([None] when it raises) and the two
    clock readings, [datetime.now()] and [datetime.now(pst)]. *)
Record Runtime : Type := {
  fromisoformat : string -> option DateTime;
  now_naive : DateTime;
  now_pst : DateTime
}.

(** ** Value transformer: [transform_value] *)

Definition code_mappings : list (string * string) :=
  [("01", "BLINK mesh radio"); ("02", "cellular via Alarmnet");
   ("03", "cellular via DSC Integration Bridge");
   ("04", "analog telephone line");
   ("05", "cellular connection"); ("06", "cellular via alarm.com");
   ("07", "internet via Alarmnet"); ("08", "internet via DSC");
   ("09", "BLINK mesh radio"); ("13", "BLINK mesh radio")].

(** [table[key]] / [key in table] on a literal dict. *)
Fixpoint assoc {A} (key : string) (table : list (string * A)) : option A :=
  match table with
  | [] => None
  | (k, v) :: rest => if String.eqb key k then Some v else assoc key rest
  end.

Definition wireless : list string := ["blink"; "gsm"; "cellular"].

(** [any(w in path for w in wireless)] *)
Definition is_wireless (path : string) : bool :=
  existsb (fun w => Str.contains w path) wireless.

(** The ordinal suffix chosen in the TIMESTAMP_FORMAT branch. *)
Definition timestamp_format_suffix (d : Z) : string :=
  if (10 <=? d mod 100) && (d mod 100 <=? 20) then "th"
  else match d mod 10 with
       | 1 => "st"
       | 2 => "nd"
       | 3 => "rd"
       | _ => "th"
       end.

Definition transform_value (rt : Runtime) (value : PyVal) (transform : string)
  : PyVal :=
  match value with
  | VNone => VStr EmptyString
  | _ =>
  if String.eqb transform "NONE" then VStr (py_str value)
  else if String.eqb transform "CONCAT_SPACE" then
    match value with
    | VList l => VStr (Str.join " " (List.map py_str (List.filter truthy l)))
    | _ => VStr (py_str value)
    end
  else if String.eqb transform "UPPER" then VStr (Str.upper (py_str value))
  else if String.eqb transform "DATETIME_FORMAT" then
    match value with
    | VStr s =>
        match fromisoformat rt (Str.replace "Z" "+00:00" s) with
        | Some dt =>
            VStr (Str.replace " 0" " " (strftime "%B %d, %Y %I:%M %p" dt))
        | None => VStr (py_str value)
        end
    | _ => VStr (py_str value)
    end
  else if String.eqb transform "TIMESTAMP_FORMAT" then
    let dt := now_naive rt in
    let suffix := timestamp_format_suffix (day dt) in
    let month_name := strftime "%B" dt in
    let time_str :=
      Str.lower (Str.lstrip_char "0" (strftime "%I:%M%p" dt)) in
    VStr (month_name +:+ " " +:+ Str.of_Z (day dt) +:+ suffix +:+ ", "
          +:+ Str.of_Z (year dt) +:+ " at " +:+ time_str)
  else if String.eqb transform "DEVICE_COUNT" then
    match value with
    | VList l => VInt (Z.of_nat (length l))
    | _ => VInt 0
    end
  else if String.eqb transform "EXTRACT_ITEM_NUMBER" then
    match Re.search_bracket_number (py_str value) with
    | Some digits => VStr digits
    | None => VStr EmptyString
    end
  else if String.eqb transform "EXTRACT_NAME" then
    VStr (Str.strip (Re.remove_bracket_suffix (py_str value)))
  else if String.eqb transform "DEVICE_ARRAY" then
    match value with
    | VList _ => value
    | _ => VList []
    end
  else if String.eqb transform "COMM_PATH_LABEL" then
    if negb (truthy value) then VStr EmptyString
    else
      let value_str := Str.lower (Str.strip (py_str value)) in
      match assoc value_str code_mappings with
      | Some label => VStr label
      | None =>
          if Str.contains "blink" value_str then VStr "BLINK mesh radio"
          else if Str.contains "gsm" value_str
                  || Str.contains "cellular" value_str
          then VStr "cellular connection"
          else if Str.contains "phone" value_str
                  || Str.contains "telephone" value_str
          then VStr "analog telephone line"
          else VStr (py_str value)
      end
  else if String.eqb transform "COMM_PATH_PHRASE" then
    match value with
    | VList (v0 :: v1 :: _) =>
        let path1 := Str.lower (Str.strip (py_str (py_or v0 (VStr EmptyString)))) in
        let path2 := Str.lower (Str.strip (py_str (py_or v1 (VStr EmptyString)))) in
        if negb (Str.non_empty path1) && negb (Str.non_empty path2)
        then VStr EmptyString
        else
          let path1_wireless := is_wireless path1 in
          let path2_wireless := is_wireless path2 in
          if path1_wireless && path2_wireless then VStr "Redundant Wireless"
          else if path1_wireless || path2_wireless then VStr "GSM Only"
          else VStr EmptyString
    | _ => VStr EmptyString
    end
  else VStr (py_str value)
  end.

(** ** Device classifier: [group_devices] *)

Abbreviation Device := (gmap string PyVal).

(** The [grouped] dict, in insertion order. *)
Abbreviation Grouped := (list (string * list Device)).

Definition categories : list string :=
  ["Perimeter"; "Motion"; "Glassbreak"; "ShockVibration"; "PanicAlert";
   "Tamper"; "NonRelaySmoke"; "Sprinkler"; "Heat"; "CO"; "Flood"; "Sump";
   "120vSmoke"; "Gas"; "Humidity"; "IntegratedEnvironmental"; "Temperature";
   "Waterflow"].

Definition type_rules : list (string * list string) :=
  [("Perimeter", ["1"]); ("Motion", ["2"]); ("Glassbreak", ["19"]);
   ("ShockVibration", ["54"]); ("PanicAlert", ["9"; "34"; "104"]);
   ("Tamper", ["124"]); ("NonRelaySmoke", ["5"; "53"]); ("Heat", ["8"]);
   ("CO", ["6"]); ("Flood", ["16"])].

Definition subtype_map : list (string * string) :=
  [("318", "Sump"); ("438", "Sump"); ("439", "Sump");
   ("197", "Sprinkler"); ("198", "Sprinkler"); ("322", "Sprinkler");
   ("119", "Flood"); ("120", "Flood");
   ("187", "Heat"); ("188", "Heat");
   ("108", "Glassbreak"); ("109", "Glassbreak");
   ("110", "Perimeter"); ("111", "Perimeter"); ("194", "Perimeter");
   ("195", "Perimeter"); ("222", "Perimeter"); ("223", "Perimeter");
   ("221", "Perimeter"); ("225", "Perimeter"); ("224", "Perimeter");
   ("167", "CO"); ("159", "CO")].

(** [{cat: [] for cat in categories}] *)
Definition empty_grouped : Grouped :=
  List.map (fun cat => (cat, [])) categories.

(** [category in grouped] *)
Definition has_key (category : string) (grouped : Grouped) : bool :=
  existsb (fun entry => String.eqb category (fst entry)) grouped.

(** [grouped[category]], for a key that is present. *)
Definition members (category : string) (grouped : Grouped) : list Device :=
  default [] (assoc category grouped).

(** [grouped[category].append(device)] *)
Fixpoint append_to (category : string) (device : Device) (grouped : Grouped)
  : Result Grouped :=
  match grouped with
  | [] => Err (KeyError category)
  | (cat, devices) :: rest =>
      if String.eqb category cat
      then Ok ((cat, devices ++ [device]) :: rest)
      else rest' <-? append_to category device rest;
           Ok ((cat, devices) :: rest')
  end.

(** [v.lower()]: only a [str] has the method. *)
Definition lower_method (v : PyVal) : Result string :=
  match v with
  | VStr s => Ok (Str.lower s)
  | _ => Err AttributeError
  end.

(** [str(device.get(key, ''))] *)
Definition str_prop (device : Device) (key : string) : string :=
  py_str (get_or device key (VStr EmptyString)).

(** The [for category, types in type_rules.items()] loop of one device,
    with its [continue] and [break]; the flag is [matched]. *)
Fixpoint type_rules_loop (rules : list (string * list string))
  (device : Device) (equipment_type : string) (grouped : Grouped)
  : Result (Grouped * bool) :=
  match rules with
  | [] => Ok (grouped, false)
  | (category, types) :: rest =>
      if existsb (String.eqb equipment_type) types then
        excluded <-?
          (if String.eqb category "NonRelaySmoke" then
             desc <-? lower_method
                        (get_or device "alarm_com_description"
                           (VStr EmptyString));
             let sensor_group := str_prop device "alarm_com_sensor_group" in
             Ok (Str.contains "relay" desc || Str.contains "120v" desc
                 || String.eqb sensor_group "48")
           else Ok false);
        if excluded then type_rules_loop rest device equipment_type grouped
        else if String.eqb category "Heat"
                && String.eqb (str_prop device "alarm_com_sensor_group") "48"
        then type_rules_loop rest device equipment_type grouped
        else grouped' <-? append_to category device grouped;
             Ok (grouped', true)
      else type_rules_loop rest device equipment_type grouped
  end.

(** The part of the loop body after the subtype check. *)
Definition group_by_type (grouped : Grouped) (device : Device)
  : Result Grouped :=
  let equipment_type := Str.strip (str_prop device "alarm_com_equipment_type") in
  r <-? type_rules_loop type_rules device equipment_type grouped;
  let '(grouped', matched) := r in
  if negb matched then
    if String.eqb (str_prop device "alarm_com_sensor_group") "48"
    then append_to "Sprinkler" device grouped'
    else Ok grouped'
  else Ok grouped'.

(** The body of [for device in devices]. *)
Definition group_device (grouped : Grouped) (device : Device)
  : Result Grouped :=
  let equipment_subtype := Str.strip (str_prop device "equipment_subtype") in
  match assoc equipment_subtype subtype_map with
  | Some category =>
      if has_key category grouped
      then append_to category device grouped
      else group_by_type grouped device
  | None => group_by_type grouped device
  end.

Fixpoint group_loop (grouped : Grouped) (devices : list Device)
  : Result Grouped :=
  match devices with
  | [] => Ok grouped
  | device :: rest =>
      grouped' <-? group_device grouped device;
      group_loop grouped' rest
  end.

(** The sort key [re.sub(r'^\d+\s+', '', d.get(description, '')).lower()];
    [re.sub] raises on anything but a [str]. *)
Definition sort_key (d : Device) : Result string :=
  match get_or d "alarm_com_description" (VStr EmptyString) with
  | VStr s => Ok (Str.lower (Re.strip_leading_number s))
  | _ => Err TypeError
  end.

(** [sorted] first computes the key of every element, in order. *)
Fixpoint with_keys (l : list Device) : Result (list (string * Device)) :=
  match l with
  | [] => Ok []
  | d :: rest =>
      k <-? sort_key d;
      rest' <-? with_keys rest;
      Ok ((k, d) :: rest')
  end.

(** Insertion in front of the first element whose key is not smaller:
    equal keys keep their order, as in Python's stable sort. *)
Fixpoint insert_keyed (x : string * Device) (l : list (string * Device))
  : list (string * Device) :=
  match l with
  | [] => [x]
  | y :: rest =>
      if Str.le (fst x) (fst y) then x :: l else y :: insert_keyed x rest
  end.

Definition sort_keyed (l : list (string * Device)) : list (string * Device) :=
  foldr insert_keyed [] l.

(** [sorted(l, key=...)] *)
Definition sorted_by_description (l : list Device) : Result (list Device) :=
  keyed <-? with_keys l;
  Ok (List.map snd (sort_keyed keyed)).

(** [for category in grouped: grouped[category] = sorted(...)] *)
Fixpoint sort_categories (grouped : Grouped) : Result Grouped :=
  match grouped with
  | [] => Ok []
  | (category, devices) :: rest =>
      devices' <-? sorted_by_description devices;
      rest' <-? sort_categories rest;
      Ok ((category, devices') :: rest')
  end.

Definition group_devices (devices : list Device) : Result Grouped :=
  grouped <-? group_loop empty_grouped devices;
  sort_categories grouped.

(** ** [float(x)] and [int(f)] *)

(** A binary64 value: [Finite m e] is [m * 2^e]. *)
Inductive PyFloat : Type :=
| Finite (m e : Z)
| Inf (negative : bool)
| NaN.

Module Float.

(** [num / den] with the binary exponent [e] taken out:
    [num / (den * 2^e)] as a fraction of integers. *)
Definition scale (num den e : Z) : Z * Z :=
  if 0 <=? e then (num, den * 2 ^ e) else (num * 2 ^ (- e), den).

(** The exponent of the double nearest to [num / den] (both positive):
    the one that leaves a 53-bit integer part, and at least the exponent
    of the subnormal numbers. *)
Definition exponent (num den : Z) : Z :=
  let e0 := Z.log2 num - Z.log2 den - 53 in
  let e1 := if fst (scale num den e0) / snd (scale num den e0) <? 2 ^ 53
            then e0 else e0 + 1 in
  Z.max e1 (-1074).

(** The double nearest to [num / den] (both positive), ties to even;
    beyond the largest double the result is an infinity. *)
Definition round (negative : bool) (num den : Z) : PyFloat :=
  if num =? 0 then Finite 0 0
  else
    let e := exponent num den in
    let n := fst (scale num den e) in
    let d := snd (scale num den e) in
    let q := n / d in
    let r := n mod d in
    let q' := if (d <? 2 * r) || ((d =? 2 * r) && Z.odd q)
              then q + 1 else q in
    if (971 <? e) || ((e =? 971) && (2 ^ 53 <=? q')) then Inf negative
    else Finite (if negative then - q' else q') e.

Definition digit_value (c : ascii) : Z := Z.of_N (Str.code c) - 48.

(** The number a run of decimal digits denotes, continuing from [acc]. *)
Fixpoint digits_value (acc : Z) (s : string) : Z :=
  match s with
  | EmptyString => acc
  | String c s' => digits_value (10 * acc + digit_value c) s'
  end.

(** Underscores may stand between two digits only; they are removed. *)
Fixpoint remove_underscores (prev : ascii) (s : string) : option string :=
  match s with
  | EmptyString =>
      if Ascii.eqb prev "_" then None else Some EmptyString
  | String c s' =>
      if Ascii.eqb c "_" then
        if Str.is_digit prev then remove_underscores c s' else None
      else if Ascii.eqb prev "_" && negb (Str.is_digit c) then None
      else option_map (String c) (remove_underscores c s')
  end.

Definition split_sign (s : string) : bool * string :=
  match s with
  | String "-" s' => (true, s')
  | String "+" s' => (false, s')
  | _ => (false, s)
  end.

(** The exponent part: empty, or [e]/[E], an optional sign and digits. *)
Definition parse_exponent (s : string) : option Z :=
  match s with
  | EmptyString => Some 0
  | String c s' =>
      if Ascii.eqb c "e" || Ascii.eqb c "E" then
        let '(negative, digits) := split_sign s' in
        match digits, Str.drop_while Str.is_digit digits with
        | String _ _, EmptyString =>
            let x := digits_value 0 digits in
            Some (if negative then - x else x)
        | _, _ => None
        end
      else None
  end.

(** The white space that [float] skips around ASCII text: the [isspace]
    of C. *)
Definition is_c_space (c : ascii) : bool :=
  (((9 <=? Str.code c) && (Str.code c <=? 13)) || (Str.code c =? 32))%N.

Definition strip_c_spaces (s : string) : string :=
  Str.drop_while_end is_c_space (Str.drop_while is_c_space s).

(** [float(s)] for an ASCII [str]; [None] stands for [ValueError]. *)
Definition parse (s : string) : option PyFloat :=
  match remove_underscores "000" (strip_c_spaces s) with
  | None => None
  | Some text =>
      let '(negative, body) := split_sign text in
      let word := Str.lower body in
      if String.eqb word "inf" || String.eqb word "infinity"
      then Some (Inf negative)
      else if String.eqb word "nan" then Some NaN
      else
        let int_part := Str.take_while Str.is_digit body in
        let after_int := Str.drop_while Str.is_digit body in
        let '(frac_part, after_frac) :=
          match after_int with
          | String "." rest =>
              (Str.take_while Str.is_digit rest,
               Str.drop_while Str.is_digit rest)
          | _ => (EmptyString, after_int)
          end in
        match int_part +:+ frac_part, parse_exponent after_frac with
        | String _ _ as digits, Some exponent =>
            let mantissa := digits_value 0 digits in
            let exp10 := exponent - Z.of_nat (String.length frac_part) in
            Some (if 0 <=? exp10
                  then round negative (mantissa * 10 ^ exp10) 1
                  else round negative mantissa (10 ^ (- exp10)))
        | _, _ => None
        end
  end.

(** [float(v)] *)
Definition of_val (v : PyVal) : Result PyFloat :=
  match v with
  | VNone | VList _ => Err TypeError
  | VBool b => Ok (Finite (if b then 1 else 0) 0)
  | VInt n =>
      match round (n <? 0) (Z.abs n) 1 with
      | Inf _ => Err OverflowError
      | f => Ok f
      end
  | VStr s =>
      match parse s with
      | Some f => Ok f
      | None => Err (ValueError "could not convert string to float")
      end
  end.

(** [int(f)]: truncation toward zero. *)
Definition to_int (f : PyFloat) : Result Z :=
  match f with
  | Finite m e => Ok (if 0 <=? e then m * 2 ^ e else Z.quot m (2 ^ (- e)))
  | Inf _ => Err OverflowError
  | NaN => Err (ValueError "cannot convert float NaN to integer")
  end.

End Float.

(** [int(float(v))] *)
Definition int_of_float (v : PyVal) : Result Z :=
  f <-? Float.of_val v; Float.to_int f.

(** ** The CRM and the effects of the engine *)

(** Requests the engine sends, in the order sent. *)
Inductive Request : Type :=
| GET (url : string)
| PATCH (url : string) (properties : Props)
| POST (url : string) (system_id : string).

(** The CRM behind the HTTP interface.  [crm_objects] holds, under the URL
    of an object, the property bag the CRM serves for it; a read or an
    update of a URL that holds nothing is answered 404.  [crm_associations]
    holds the [toObjectId]s behind an associations URL and [crm_devices]
    the device bags associated to a system id. *)
Record World : Type := {
  crm_objects : gmap string Props;
  crm_associations : gmap string (list PyVal);
  crm_devices : gmap string (list Props);
  requests : list Request
}.

Definition log (r : Request) (w : World) : World :=
  {| crm_objects := crm_objects w;
     crm_associations := crm_associations w;
     crm_devices := crm_devices w;
     requests := requests w ++ [r] |}.

Definition set_objects (objects : gmap string Props) (w : World) : World :=
  {| crm_objects := objects;
     crm_associations := crm_associations w;
     crm_devices := crm_devices w;
     requests := requests w |}.

(** Computations that read and update the CRM and may raise; what was
    done before an exception stays done. *)
Definition M (A : Type) : Type := World -> Result A * World.

Definition ret {A} (a : A) : M A := fun w => (Ok a, w).

Definition raise {A} (e : PyExc) : M A := fun w => (Err e, w).

Definition bind {A B} (m : M A) (f : A -> M B) : M B :=
  fun w =>
    match m w with
    | (Ok a, w') => f a w'
    | (Err e, w') => (Err e, w')
    end.

Definition lift {A} (r : Result A) : M A := fun w => (r, w).

Notation "x <- m ;; k" := (bind m (fun x => k))
  (at level 100, m at next level, right associativity).

(** The answer to a request: [status_code] and the part of the JSON body
    the engine reads. *)
Record Response (A : Type) : Type := {
  status_code : Z;
  json : A
}.
Arguments status_code {A} _.
Arguments json {A} _.

(** [requests.get(url, ...)] on an object URL; [json] is the
    ['properties'] member of the body. *)
Definition requests_get (url : string) : M (Response Props) :=
  fun w =>
    (Ok match crm_objects w !! url with
        | Some bag => {| status_code := 200; json := bag |}
        | None => {| status_code := 404; json := ∅ |}
        end,
     log (GET url) w).

(** [requests.patch(url, json={'properties': properties})]: the named
    properties are overwritten, the others kept; [json] is
    [response.text].  The CRM of the embedding stores the update of every
    object it holds: an update that a CRM refuses although it served the
    object is outside the embedding, and what is proved of a run that
    updates is proved of a CRM that accepts the update. *)
Definition requests_patch (url : string) (properties : Props)
  : M (Response string) :=
  fun w =>
    match crm_objects w !! url with
    | Some bag =>
        (Ok {| status_code := 200; json := "OK" |},
         set_objects (<[url := properties ∪ bag]> (crm_objects w))
           (log (PATCH url properties) w))
    | None =>
        (Ok {| status_code := 404; json := "resource not found" |},
         log (PATCH url properties) w)
    end.

(** [requests.get] on an associations URL; [json] is the list of the
    [toObjectId]s of ['results']. *)
Definition requests_get_associations (url : string)
  : M (Response (list PyVal)) :=
  fun w =>
    (Ok match crm_associations w !! url with
        | Some ids => {| status_code := 200; json := ids |}
        | None => {| status_code := 404; json := [] |}
        end,
     log (GET url) w).

(** [requests.post(search_url, json=search_payload)] with the filter on
    [system_id] and [limit] 100; [json] is the list of the ['properties']
    of ['results']. *)
Definition requests_post_search (url : string) (system_id : string)
  : M (Response (list Props)) :=
  fun w =>
    (Ok match crm_devices w !! system_id with
        | Some devices => {| status_code := 200; json := take 100 devices |}
        | None => {| status_code := 400; json := [] |}
        end,
     log (POST url system_id) w).

(** The configuration of a [CertificateEngine] instance. *)
Record Engine : Type := {
  HUBSPOT_TOKEN : string;
  PORTAL_ID : string;
  SYSTEM_TYPE_ID : string;
  AGREEMENT_TYPE_ID : string
}.

Definition DEVICE_TYPE : string := "2-34947969".

Definition object_url (type_id id : string) : string :=
  "https://api.hubapi.com/crm/v3/objects/" +:+ type_id +:+ "/" +:+ id.

(** ** Certificate number allocator: [generate_certificate_number] *)

(** The [try]/[except (ValueError, TypeError)] around
    [int(float(current_counter))]. *)
Definition counter_of (current_counter : PyVal) : Result Z :=
  match int_of_float current_counter with
  | Ok n => Ok n
  | Err (ValueError _) | Err TypeError => Ok 0
  | Err e => Err e
  end.

Definition generate_certificate_number (eng : Engine)
  (site_id system_id : string) : M string :=
  let system_url := object_url (SYSTEM_TYPE_ID eng) system_id in
  response <- requests_get system_url ;;
  if negb (status_code response =? 200) then
    raise (Exception_ ("Failed to get system: "
                       +:+ Str.of_Z (status_code response)))
  else
    let current_counter :=
      get_or (json response) "certificate_counter" (VStr "0") in
    counter_int <- lift (counter_of current_counter) ;;
    let new_counter := counter_int + 1 in
    let cert_number := site_id +:+ "-" +:+ Str.format_03d new_counter in
    let update_url := object_url (SYSTEM_TYPE_ID eng) system_id in
    response <- requests_patch update_url
                  {[ "certificate_counter" := VInt new_counter ]} ;;
    if negb ((status_code response =? 200) || (status_code response =? 201))
    then raise (Exception_ ("Failed to update counter: " +:+ json response))
    else ret cert_number.

(** ** Data fetcher: [fetch_hubspot_data] *)

(** The [data] dict with its five entries. *)
Record Bundle : Type := {
  AGREEMENT : Props;
  SYSTEM : Props;
  SITE : Props;
  CUSTOMER : Props;
  DEVICES : list Device
}.

(** [response.json().get('properties', {}) if response.status_code == 200
    else {}] *)
Definition properties_if_ok (response : Response Props) : Props :=
  if status_code response =? 200 then json response else ∅.

Definition fetch_hubspot_data (eng : Engine)
  (agreement_id system_id site_id : string) : M Bundle :=
  response <- requests_get (object_url (AGREEMENT_TYPE_ID eng) agreement_id) ;;
  let agreement := properties_if_ok response in
  response <- requests_get (object_url (SYSTEM_TYPE_ID eng) system_id) ;;
  let system := properties_if_ok response in
  response <- requests_get (object_url "companies" site_id) ;;
  let site := properties_if_ok response in
  let customer_assoc_url :=
    "https://api.hubapi.com/crm/v4/objects/" +:+ AGREEMENT_TYPE_ID eng
    +:+ "/" +:+ agreement_id +:+ "/associations/contacts" in
  response <- requests_get_associations customer_assoc_url ;;
  customer <-
    (if status_code response =? 200 then
       match json response with
       | customer_id :: _ =>
           response <- requests_get
                         (object_url "contacts" (py_str customer_id)) ;;
           ret (properties_if_ok response)
       | [] => ret ∅
       end
     else ret ∅) ;;
  let search_url :=
    "https://api.hubapi.com/crm/v3/objects/" +:+ DEVICE_TYPE +:+ "/search" in
  response <- requests_post_search search_url system_id ;;
  let devices := if status_code response =? 200 then json response else [] in
  ret {| AGREEMENT := agreement; SYSTEM := system; SITE := site;
         CUSTOMER := customer; DEVICES := devices |}.

(** ** Validator: [validate_data] *)

(** [if not bag.get(key): errors.append(message)] *)
Definition check_present (bag : Props) (key message : string)
  : list string :=
  if negb (truthy (get bag key)) then [message] else [].

Definition validation_errors (data : Bundle) : list string :=
  check_present (SITE data) "address" "Site address is missing"
  ++ check_present (SITE data) "city" "Site city is missing"
  ++ check_present (SITE data) "state" "Site state is missing"
  ++ check_present (SITE data) "zip" "Site postal code is missing"
  ++ (if negb (truthy (get (CUSTOMER data) "firstname"))
         && negb (truthy (get (CUSTOMER data) "lastname"))
      then ["Customer name is missing"] else [])
  ++ (if negb (truthy_list (DEVICES data))
      then ["No devices found on system"] else []).

Definition validate_data (data : Bundle) : bool * list string :=
  let errors := validation_errors data in
  (Nat.eqb (length errors) 0, errors).

(** ** Field assembler: [assemble_certificate_fields] *)

(** One entry of a [Zones_*] list: [{'name': ..., 'zone': ...}]. *)
Record ZoneEntry : Type := {
  name : string;
  zone : PyVal
}.

(** A value of the field map: a scalar or a list of zone entries. *)
Inductive FieldVal : Type :=
| Scalar (v : PyVal)
| Zones (entries : list ZoneEntry).

Abbreviation FieldMap := (gmap string FieldVal).

(** The ordinal suffix chosen by the assembler. *)
Definition timestamp_suffix (d : Z) : string :=
  if (11 <=? d) && (d <=? 13) then "th"
  else match d mod 10 with
       | 1 => "st"
       | 2 => "nd"
       | 3 => "rd"
       | _ => "th"
       end.

Definition timestamp_str (timestamp_dt : DateTime) : string :=
  strftime "%B" timestamp_dt +:+ " " +:+ Str.of_Z (day timestamp_dt)
  +:+ timestamp_suffix (day timestamp_dt) +:+ ", "
  +:+ Str.of_Z (year timestamp_dt) +:+ " at "
  +:+ Str.lstrip_char "0" (Str.lower (strftime "%I:%M%p" timestamp_dt)).

Definition status_fields : list string :=
  ["15746"; "15747"; "14380"; "14385"; "14386"; "14387"; "14388"; "14399";
   "15082"; "14389"; "14390"; "14391"; "14401"; "14393"; "14394"; "14395";
   "14396"; "14397"; "14398"; "14726"; "15711"; "15787"; "15272"; "14920";
   "14631"; "15252"; "14372"; "15756"; "15753"; "15754"; "14366"; "14367"].

Definition status_prefixes : list string :=
  ["agreement_plan_communication_"; "agreement_plan_gateway_";
   "agreement_plan_intrusion_"; "agreement_plan_fire_";
   "agreement_plan_environmental_"; "agreement_plan_integratedsystems_";
   "agreement_plan_response_"; "agreement_plan_verify_";
   "agreement_plan_trespass_"].

(** The dict literal that starts [cert_data]; its keys are distinct. *)
Definition base_fields (rt : Runtime) (site customer agreement system : Props)
  (cert_number : string) (broker_email requestor_name : PyVal) : FieldMap :=
  let empty := VStr EmptyString in
  list_to_map
    [("provider_name", Scalar (VStr "Provident Security Corp"));
     ("provider_address", Scalar (VStr "9123 Bentley Street, Unit 118"));
     ("provider_city", Scalar (VStr "Vancouver"));
     ("provider_state", Scalar (VStr "B.C."));
     ("provider_zip", Scalar (VStr "V6E 2E9"));
     ("provider_phone", Scalar (VStr "(604) 254-9734"));
     ("CERTIFICATE_Number", Scalar (VStr cert_number));
     ("CERTIFICATE_TimeStamp", Scalar (VStr (timestamp_str (now_pst rt))));
     ("HSID", Scalar (get_or agreement "hs_object_id" empty));
     ("HSID_Site", Scalar (get_or site "hs_object_id" empty));
     ("HSID_System", Scalar (get_or system "hs_object_id" empty));
     ("SITE_Name",
       Scalar (py_or (get site "mas_site_name") (get_or site "name" empty)));
     ("SITE_Address1", Scalar (get_or site "address" empty));
     ("SITE_Address2", Scalar (get_or site "address2" empty));
     ("SITE_City", Scalar (get_or site "city" empty));
     ("SITE_Province", Scalar (get_or site "state" empty));
     ("SITE_PostalCode", Scalar (transform_value rt (get site "zip") "UPPER"));
     ("SITE_Type", Scalar (get_or site "site_type" empty));
     ("AGREEMENT_Customer_Name",
       Scalar (transform_value rt
                 (VList [get customer "firstname"; get customer "lastname"])
                 "CONCAT_SPACE"));
     ("AGREEMENT_Customer_Address1", Scalar (get_or customer "address" empty));
     ("AGREEMENT_Customer_City", Scalar (get_or customer "city" empty));
     ("AGREEMENT_Customer_Province", Scalar (get_or customer "state" empty));
     ("AGREEMENT_Customer_PostalCode",
       Scalar (transform_value rt (get customer "zip") "UPPER"));
     ("AGREEMENT_EffectiveDate",
       Scalar (transform_value rt
                 (get agreement "agreement_plan_effectivedate")
                 "DATETIME_FORMAT"));
     ("AGREEMENT_Plan_ItemNumber",
       Scalar (transform_value rt (get agreement "agreement_plan_name")
                 "EXTRACT_ITEM_NUMBER"));
     ("AGREEMENT_Plan_Supervision",
       Scalar (transform_value rt (get agreement "agreement_plan_supervision")
                 "EXTRACT_ITEM_NUMBER"));
     ("AGREEMENT_Response_Guarantee",
       Scalar (get_or agreement "agreement_plan_response_guarantee" empty));
     ("Path_Primary",
       Scalar (transform_value rt (get system "communication_path_1")
                 "COMM_PATH_LABEL"));
     ("Path_Secondary",
       Scalar (transform_value rt (get system "communication_path_2")
                 "COMM_PATH_LABEL"));
     ("Path_Phrase",
       Scalar (transform_value rt
                 (VList [get system "communication_path_1";
                         get system "communication_path_2"])
                 "COMM_PATH_PHRASE"));
     ("AGREEMENT_Partitions_Included",
       Scalar (get_or agreement "agreement_partitions_included" empty));
     ("AGREEMENT_Partitions_Additional",
       Scalar (get_or agreement "agreement_partitions_additional" empty));
     ("AGREEMENT_Partitions_Total",
       Scalar (get_or agreement "agreement_partitions_total" empty));
     ("Integrations_Gate_Fire",
       Scalar (get_or system "integrations_gate_fire" empty));
     ("CERTIFICATE_Recipient_Name", Scalar (py_or requestor_name empty));
     ("CERTIFICATE_Recipient_Company", Scalar (py_or broker_email empty))].

(** The inner [for prefix in [...]] loop with its [break]. *)
Fixpoint probe_status (agreement : Props) (field_num : string)
  (prefixes : list string) (cert_data : FieldMap) : FieldMap :=
  match prefixes with
  | [] => cert_data
  | prefix :: rest =>
      let prop_name := prefix +:+ field_num in
      if bool_decide (is_Some (agreement !! prop_name))
      then <["AGREEMENT_Status_" +:+ field_num :=
               Scalar (get_or agreement prop_name (VStr EmptyString))]>
             cert_data
      else probe_status agreement field_num rest cert_data
  end.

(** [for field_num in status_fields] *)
Definition add_status_fields (agreement : Props) (fields : list string)
  (cert_data : FieldMap) : FieldMap :=
  fold_left
    (fun acc field_num => probe_status agreement field_num status_prefixes acc)
    fields cert_data.

(** The entry built for one device of a category; [re.sub] raises on a
    description that is not a [str]. *)
Definition zone_entry (device : Device) : Result ZoneEntry :=
  match get_or device "alarm_com_description" (VStr "Unknown Device") with
  | VStr desc =>
      Ok {| name := Re.strip_leading_number desc;
            zone := py_or (get device "adc_deviceid")
                      (py_or (get device "zone__") (VStr EmptyString)) |}
  | _ => Err TypeError
  end.

Fixpoint zone_entries (devices : list Device) : Result (list ZoneEntry) :=
  match devices with
  | [] => Ok []
  | device :: rest =>
      entry <-? zone_entry device;
      rest' <-? zone_entries rest;
      Ok (entry :: rest')
  end.

(** [for category in grouped_devices.keys()] *)
Fixpoint add_device_fields (grouped_devices : Grouped)
  (keys : list string) (cert_data : FieldMap) : Result FieldMap :=
  match keys with
  | [] => Ok cert_data
  | category :: rest =>
      device_list <-? zone_entries (members category grouped_devices);
      add_device_fields grouped_devices rest
        (<["Count_" +:+ category :=
             Scalar (VInt (Z.of_nat (length device_list)))]>
           (<["Zones_" +:+ category := Zones device_list]> cert_data))
  end.

Definition assemble_certificate_fields (rt : Runtime) (hubspot_data : Bundle)
  (grouped_devices : Grouped) (cert_number : string)
  (broker_email requestor_name : PyVal) : Result FieldMap :=
  let site := SITE hubspot_data in
  let customer := CUSTOMER hubspot_data in
  let agreement := AGREEMENT hubspot_data in
  let system := SYSTEM hubspot_data in
  let cert_data :=
    base_fields rt site customer agreement system cert_number
      broker_email requestor_name in
  let cert_data := add_status_fields agreement status_fields cert_data in
  add_device_fields grouped_devices (List.map fst grouped_devices) cert_data.

(** ** Orchestrator: [generate_certificate_data] *)

Definition generate_certificate_data (eng : Engine) (rt : Runtime)
  (agreement_id system_id site_id : string)
  (broker_email requestor_name : PyVal) : M FieldMap :=
  hubspot_data <- fetch_hubspot_data eng agreement_id system_id site_id ;;
  let '(is_valid, errors) := validate_data hubspot_data in
  if negb is_valid then
    raise (ValueError ("Validation failed: " +:+ Str.join ", " errors))
  else
    cert_number <- generate_certificate_number eng site_id system_id ;;
    grouped_devices <- lift (group_devices (DEVICES hubspot_data)) ;;
    lift (assemble_certificate_fields rt hubspot_data grouped_devices
            cert_number broker_email requestor_name).

(** ** The decision taken for one device

    [category_of] names the category whose list the loop body of
    [group_devices] appends the device to; it is related to the loop by
    [group_device_category] below and is not part of the engine. *)

Fixpoint rule_category (rules : list (string * list string))
  (device : Device) (equipment_type : string) : Result (option string) :=
  match rules with
  | [] => Ok None
  | (category, types) :: rest =>
      if existsb (String.eqb equipment_type) types then
        excluded <-?
          (if String.eqb category "NonRelaySmoke" then
             desc <-? lower_method
                        (get_or device "alarm_com_description"
                           (VStr EmptyString));
             let sensor_group := str_prop device "alarm_com_sensor_group" in
             Ok (Str.contains "relay" desc || Str.contains "120v" desc
                 || String.eqb sensor_group "48")
           else Ok false);
        if excluded then rule_category rest device equipment_type
        else if String.eqb category "Heat"
                && String.eqb (str_prop device "alarm_com_sensor_group") "48"
        then rule_category rest device equipment_type
        else Ok (Some category)
      else rule_category rest device equipment_type
  end.

Definition subtype_code (device : Device) : string :=
  Str.strip (str_prop device "equipment_subtype").

Definition type_code (device : Device) : string :=
  Str.strip (str_prop device "alarm_com_equipment_type").

Definition category_of (device : Device) : Result (option string) :=
  match assoc (subtype_code device) subtype_map with
  | Some category => Ok (Some category)
  | None =>
      r <-? rule_category type_rules device (type_code device);
      match r with
      | Some category => Ok (Some category)
      | None =>
          if String.eqb (str_prop device "alarm_com_sensor_group") "48"
          then Ok (Some "Sprinkler")
          else Ok None
      end
  end.

(** The device is appended to the list of [category]. *)
Definition placed_in (category : string) (device : Device) : bool :=
  match category_of device with
  | Ok (Some c) => String.eqb c category
  | _ => false
  end.

(** The description, when present, is a [str]. *)
Definition description_is_str (device : Device) : Prop :=
  forall v, device !! "alarm_com_description" = Some v -> exists s, v = VStr s.

(** ** Concrete inputs used by the examples *)

Definition example_time : DateTime :=
  {| year := 2025; month := 11; day := 21; hour := 16; minute := 5;
     second := 9 |}.

(** A run-time environment whose ISO parser rejects everything. *)
Definition example_runtime : Runtime :=
  {| fromisoformat := fun _ => None;
     now_naive := example_time;
     now_pst := example_time |}.

(** The spec's notion of an absent value: null or empty. *)
Definition absent_value (v : PyVal) : bool :=
  match v with
  | VNone => true
  | VStr EmptyString => true
  | VList [] => true
  | _ => false
  end.

(** The label the COMM_PATH_LABEL branch gives a path code. *)
Definition label_of (rt : Runtime) (code : string) : PyVal :=
  transform_value rt (VStr code) "COMM_PATH_LABEL".

(** A device bag from its entries. *)
Definition device_of (entries : list (string * PyVal)) : Device :=
  list_to_map entries.

(** A 120 V smoke detector in sensor group 48. *)
Definition smoke_120v_group_48 : Device :=
  device_of [("alarm_com_equipment_type", VStr "5");
             ("alarm_com_description", VStr "Hall 120V Smoke");
             ("alarm_com_sensor_group", VStr "48")].

(** A 120 V smoke detector without a sensor group. *)
Definition smoke_120v : Device :=
  device_of [("alarm_com_equipment_type", VStr "53");
             ("alarm_com_description", VStr "Hall 120V Smoke")].

(** A sump sensor (subtype 318) that carries the motion type code. *)
Definition sump_typed_motion : Device :=
  device_of [("equipment_subtype", VStr "318");
             ("alarm_com_equipment_type", VStr "2");
             ("alarm_com_description", VStr "7 Sump Pit")].

(** A smoke detector whose description is null. *)
Definition smoke_null_description : Device :=
  device_of [("alarm_com_equipment_type", VStr "5");
             ("alarm_com_description", VNone)].

(** A door contact. *)
Definition front_door : Device :=
  device_of [("alarm_com_equipment_type", VStr "1");
             ("alarm_com_description", VStr "3 Front Door");
             ("zone__", VStr "7")].

Definition example_engine : Engine :=
  {| HUBSPOT_TOKEN := "token"; PORTAL_ID := "portal";
     SYSTEM_TYPE_ID := "2-100"; AGREEMENT_TYPE_ID := "2-200" |}.

(** The bag of system X with the counter as given. *)
Definition system_bag (counter : PyVal) : Props :=
  device_of [("certificate_counter", counter);
             ("communication_path_1", VStr "01")].

(** A CRM with agreement A, system X (counter as given), site 9999 (bag as
    given), one contact and one device. *)
Definition example_world (counter : PyVal) (site : Props) : World :=
  {| crm_objects :=
       list_to_map
         [(object_url "2-100" "X", system_bag counter);
          (object_url "2-200" "A",
            device_of [("agreement_plan_fire_14389", VStr "Yes")]);
          (object_url "companies" "9999", site);
          (object_url "contacts" "55", device_of [("firstname", VStr "Ann")])];
     crm_associations :=
       {[ "https://api.hubapi.com/crm/v4/objects/2-200/A/associations/contacts"
          := [VInt 55] ]};
     crm_devices := {[ "X" := [front_door] ]};
     requests := [] |}.

Definition complete_site : Props :=
  device_of [("address", VStr "1 Main Street"); ("city", VStr "Vancouver");
             ("state", VStr "BC"); ("zip", VStr "v6e 2e9")].

Definition site_without_zip : Props :=
  device_of [("address", VStr "1 Main Street"); ("city", VStr "Vancouver");
             ("state", VStr "BC")].

(** Requests that change the CRM. *)
Definition is_update (r : Request) : bool :=
  match r with
  | PATCH _ _ => true
  | _ => false
  end.

(** The six checks of the validator with their messages, in order; the
    flag says that the check is violated. *)
Definition validation_checks (data : Bundle) : list (bool * string) :=
  [(negb (truthy (get (SITE data) "address")), "Site address is missing");
   (negb (truthy (get (SITE data) "city")), "Site city is missing");
   (negb (truthy (get (SITE data) "state")), "Site state is missing");
   (negb (truthy (get (SITE data) "zip")), "Site postal code is missing");
   (negb (truthy (get (CUSTOMER data) "firstname"))
    && negb (truthy (get (CUSTOMER data) "lastname")),
    "Customer name is missing");
   (negb (truthy_list (DEVICES data)), "No devices found on system")].

(** Two clock readings that agree up to the minute. *)
Definition same_minute (a b : DateTime) : Prop :=
  year a = year b /\ month a = month b /\ day a = day b
  /\ hour a = hour b /\ minute a = minute b.

(** A bundle and a classification for the examples of the assembler. *)
Definition example_bundle : Bundle :=
  {| AGREEMENT := device_of [("agreement_plan_fire_14389", VStr "Yes")];
     SYSTEM := device_of [("communication_path_1", VStr "01")];
     SITE := complete_site;
     CUSTOMER := device_of [("firstname", VStr "Ann")];
     DEVICES := [front_door] |}.

Definition example_grouped : Grouped :=
  [("Perimeter", [front_door]); ("Motion", [])].

(** The same environment one second and one local clock later. *)
Definition later_runtime : Runtime :=
  {| fromisoformat := fun _ => None;
     now_naive := {| year := 2026; month := 1; day := 1; hour := 0;
                     minute := 0; second := 0 |};
     now_pst := {| year := 2025; month := 11; day := 21; hour := 16;
                   minute := 5; second := 10 |} |}.

(** The value of a computation that returned, [dflt] otherwise. *)
Definition result_or {A} (dflt : A) (r : Result A) : A :=
  match r with
  | Ok a => a
  | Err _ => dflt
  end.

(** What the classifier makes of some one-device inventories. *)
Definition front_door_grouped : Grouped :=
  result_or [] (group_devices [front_door]).

Definition smoke_120v_grouped : Grouped :=
  result_or [] (group_devices [smoke_120v]).

Definition sump_grouped : Grouped :=
  result_or [] (group_devices [sump_typed_motion]).

(** The CRM of the validation example, and what the fetcher makes of
    it. *)
Definition world_without_zip : World :=
  example_world (VStr "4") site_without_zip.

Definition fetched_without_zip : Result Bundle * World :=
  fetch_hubspot_data example_engine "A" "X" "9999" world_without_zip.

Definition empty_bundle : Bundle :=
  {| AGREEMENT := ∅; SYSTEM := ∅; SITE := ∅; CUSTOMER := ∅; DEVICES := [] |}.

Definition bundle_without_zip : Bundle :=
  result_or empty_bundle (fst fetched_without_zip).

(** The field map of the assembler example. *)
Definition example_fields : FieldMap :=
  result_or ∅
    (assemble_certificate_fields example_runtime example_bundle
       example_grouped "9999-005" VNone (VStr "Bob")).

(** Every character is a decimal digit. *)
Fixpoint digits_only (s : string) : bool :=
  match s with
  | EmptyString => true
  | String c s' => Str.is_digit c && digits_only s'
  end.

Definition counter_key : string := "certificate_counter".

(** What a stored counter property stands for.  A counter that is absent,
    null, a list, ASCII text that [float] rejects, or text that [float]
    reads as a NaN stands for 0; a boolean stands for 0 or 1; an integer
    below [2^53], given as a number or as its decimal text, stands for
    itself; any other text that [float] reads as a finite number stands
    for that number cut toward zero. *)
Inductive stored_counter (bag : Props) : Z -> Prop :=
| counter_absent :
    bag !! counter_key = None -> stored_counter bag 0
| counter_null :
    bag !! counter_key = Some VNone -> stored_counter bag 0
| counter_list (l : list PyVal) :
    bag !! counter_key = Some (VList l) -> stored_counter bag 0
| counter_boolean (b : bool) :
    bag !! counter_key = Some (VBool b) ->
    stored_counter bag (if b then 1 else 0)
| counter_not_numeric (s : string) :
    bag !! counter_key = Some (VStr s) -> Str.is_ascii s = true ->
    Float.parse s = None ->
    stored_counter bag 0
| counter_nan (s : string) :
    bag !! counter_key = Some (VStr s) -> Float.parse s = Some NaN ->
    stored_counter bag 0
| counter_integer (n : Z) :
    0 <= n < 2 ^ 53 -> bag !! counter_key = Some (VInt n) ->
    stored_counter bag n
| counter_decimal_text (n : Z) :
    0 <= n < 2 ^ 53 -> bag !! counter_key = Some (VStr (pretty n)) ->
    stored_counter bag n
| counter_float_text (s : string) (m e n : Z) :
    bag !! counter_key = Some (VStr s) ->
    Float.parse s = Some (Finite m e) ->
    Float.to_int (Finite m e) = Ok n ->
    stored_counter bag n.

(** The double that [float] gives for an odd integer between [2^53] and
    [2^54]: of its two neighbours, the one whose half is even. *)
Definition read_as_double (n : Z) : Z :=
  if Z.odd (n / 2) then n + 1 else n - 1.

(** The CRM of the allocator examples: system X of site 9999 with the
    counter as given. *)
Definition system_url : string := object_url "2-100" "X".

Definition world_with_counter (counter : PyVal) : World :=
  example_world counter complete_site.

(** The counter property of system X after a computation. *)
Definition counter_after {A} (run : Result A * World) : option PyVal :=
  crm_objects (snd run) !! system_url ≫= (fun bag => bag !! counter_key).

(** The normalised key of a status flag. *)
Definition status_key (field_num : string) : string :=
  "AGREEMENT_Status_" +:+ field_num.

(** Some probed property name of [field_num] is a key of the agreement. *)
Definition probed (agreement : Props) (prefixes : list string)
  (field_num : string) : Prop :=
  exists prefix, prefix ∈ prefixes /\ is_Some (agreement !! (prefix +:+ field_num)).

(** ** Further notions and inputs *)

(** The sort keys of two devices are in order. *)
Definition key_le (d1 d2 : Device) : Prop :=
  exists k1 k2, sort_key d1 = Ok k1 /\ sort_key d2 = Ok k2
                /\ Str.le k1 k2 = true.

(** The description of the device, when it is a text, is ASCII. *)
Definition ascii_description (d : Device) : Prop :=
  forall s, d !! "alarm_com_description" = Some (VStr s) ->
            Str.is_ascii s = true.

(** The keys of two keyed devices are in order. *)
Definition keyed_le (x y : string * Device) : Prop := Str.le x.1 y.1 = true.

(** The categories some rule of the classifier names. *)
Definition rule_categories : list string :=
  ["Perimeter"; "Motion"; "Glassbreak"; "ShockVibration"; "PanicAlert";
   "Tamper"; "NonRelaySmoke"; "Sprinkler"; "Heat"; "CO"; "Flood"; "Sump"].

(** The categories no rule names. *)
Definition unused_categories : list string :=
  ["120vSmoke"; "Gas"; "Humidity"; "IntegratedEnvironmental"; "Temperature";
   "Waterflow"].

(** Two devices with one description, in the same category. *)
Definition door_a : Device :=
  device_of [("alarm_com_equipment_type", VStr "1");
             ("alarm_com_description", VStr "12 back door");
             ("zone__", VStr "1")].

Definition two_doors_grouped : Grouped :=
  result_or [] (group_devices [front_door; door_a]).

(** A panic button, a relay smoke detector, a plain smoke detector and a
    heat detector of the sprinkler group. *)
Definition panic_button : Device :=
  device_of [("alarm_com_equipment_type", VInt 34);
             ("alarm_com_description", VStr "Panic")].

Definition smoke_relay : Device :=
  device_of [("alarm_com_equipment_type", VStr "5");
             ("alarm_com_description", VStr "Smoke RELAY 2")].

Definition smoke_plain : Device :=
  device_of [("alarm_com_equipment_type", VStr " 53 ");
             ("alarm_com_description", VStr "Hall Smoke")].

Definition heat_group_48 : Device :=
  device_of [("alarm_com_equipment_type", VStr "8");
             ("alarm_com_sensor_group", VInt 48)].

Definition rules_grouped : Grouped :=
  result_or []
    (group_devices [panic_button; smoke_relay; smoke_plain; heat_group_48]).

(** Two allocations in a row for one system. *)
Definition allocate_twice (eng : Engine) (site_id site_id' system_id : string)
  : M (string * string) :=
  first <- generate_certificate_number eng site_id system_id ;;
  second <- generate_certificate_number eng site_id' system_id ;;
  ret (first, second).

(** The CRM with the one system X, its counter as given. *)
Definition lone_system (counter : PyVal) : World :=
  {| crm_objects := {[ system_url := system_bag counter ]};
     crm_associations := ∅; crm_devices := ∅; requests := [] |}.

(** The keys the two loops of the assembler write. *)
Definition zones_key (category : string) : string := "Zones_" +:+ category.

Definition count_key (category : string) : string := "Count_" +:+ category.

(** The fields whose source the validator checks. *)
Definition validated_fields : list string :=
  ["SITE_Address1"; "SITE_City"; "SITE_Province"; "SITE_PostalCode";
   "AGREEMENT_Customer_Name"].

(** A classification of the two doors and the fields assembled from it. *)
Definition two_doors_fields : FieldMap :=
  result_or ∅
    (assemble_certificate_fields example_runtime example_bundle
       two_doors_grouped "9999-005" VNone (VStr "Bob")).

(** The keys of the dict literal that starts [cert_data]. *)
Definition literal_keys : list string :=
  ["provider_name"; "provider_address"; "provider_city"; "provider_state";
   "provider_zip"; "provider_phone"; "CERTIFICATE_Number";
   "CERTIFICATE_TimeStamp"; "HSID"; "HSID_Site"; "HSID_System"; "SITE_Name";
   "SITE_Address1"; "SITE_Address2"; "SITE_City"; "SITE_Province";
   "SITE_PostalCode"; "SITE_Type"; "AGREEMENT_Customer_Name";
   "AGREEMENT_Customer_Address1"; "AGREEMENT_Customer_City";
   "AGREEMENT_Customer_Province"; "AGREEMENT_Customer_PostalCode";
   "AGREEMENT_EffectiveDate"; "AGREEMENT_Plan_ItemNumber";
   "AGREEMENT_Plan_Supervision"; "AGREEMENT_Response_Guarantee";
   "Path_Primary"; "Path_Secondary"; "Path_Phrase";
   "AGREEMENT_Partitions_Included"; "AGREEMENT_Partitions_Additional";
   "AGREEMENT_Partitions_Total"; "Integrations_Gate_Fire";
   "CERTIFICATE_Recipient_Name"; "CERTIFICATE_Recipient_Company"].

(** The key has the form of one written by the loops. *)
Definition loop_key (k : string) : bool :=
  String.prefix "AGREEMENT_Status_" k || String.prefix "Zones_" k
  || String.prefix "Count_" k.

(** The dict literal of the assembler for a bundle. *)
Definition literal_fields (rt : Runtime) (hubspot_data : Bundle)
  (cert_number : string) (broker_email requestor_name : PyVal) : FieldMap :=
  base_fields rt (SITE hubspot_data) (CUSTOMER hubspot_data)
    (AGREEMENT hubspot_data) (SYSTEM hubspot_data) cert_number
    broker_email requestor_name.

(** The bag the CRM serves under [url]; empty when it serves none. *)
Definition served (w : World) (url : string) : Props :=
  default ∅ (crm_objects w !! url).

Definition contacts_url (eng : Engine) (agreement_id : string) : string :=
  "https://api.hubapi.com/crm/v4/objects/" +:+ AGREEMENT_TYPE_ID eng
  +:+ "/" +:+ agreement_id +:+ "/associations/contacts".

(** The bag of the first contact associated to the agreement. *)
Definition first_contact (eng : Engine) (agreement_id : string) (w : World)
  : Props :=
  match crm_associations w !! contacts_url eng agreement_id with
  | Some (customer_id :: _) =>
      served w (object_url "contacts" (py_str customer_id))
  | _ => ∅
  end.

(** What the CRM holds for a request of a certificate. *)
Definition held (eng : Engine) (agreement_id system_id site_id : string)
  (w : World) : Bundle :=
  {| AGREEMENT := served w (object_url (AGREEMENT_TYPE_ID eng) agreement_id);
     SYSTEM := served w (object_url (SYSTEM_TYPE_ID eng) system_id);
     SITE := served w (object_url "companies" site_id);
     CUSTOMER := first_contact eng agreement_id w;
     DEVICES := take 100 (default [] (crm_devices w !! system_id)) |}.

(** The updates among the requests sent. *)
Definition updates (w : World) : list Request :=
  List.filter is_update (requests w).

(** The CRM of the examples with the devices of system X as given. *)
Definition world_of_devices (devices : list Device) : World :=
  {| crm_objects := crm_objects (world_with_counter (VStr "4"));
     crm_associations := crm_associations (world_with_counter (VStr "4"));
     crm_devices := {[ "X" := devices ]};
     requests := [] |}.

(** The system bag after the allocation of number [n]. *)
Definition counted (bag : Props) (n : Z) : Props :=
  <[counter_key := VInt n]> bag.

(** The certificate number for counter value [n]. *)
Definition number_of (site_id : string) (n : Z) : string :=
  site_id +:+ "-" +:+ Str.format_03d n.

(** The run of the orchestrator on the example CRM with one door, and on
    the same CRM with a detector whose description is null. *)
Definition door_run : Result FieldMap * World :=
  generate_certificate_data example_engine example_runtime "A" "X" "9999"
    VNone VNone (world_of_devices [front_door]).

Definition null_description_run : Result FieldMap * World :=
  generate_certificate_data example_engine example_runtime "A" "X" "9999"
    VNone VNone (world_of_devices [smoke_null_description]).

(** The text both path branches test: [str(value).strip().lower()]. *)
Definition path_text (v : PyVal) : string :=
  Str.lower (Str.strip (py_str v)).

(** The label of a path is one of the two wireless labels. *)
Definition wireless_label (rt : Runtime) (v : PyVal) : Prop :=
  transform_value rt v "COMM_PATH_LABEL" = VStr "BLINK mesh radio"
  \/ transform_value rt v "COMM_PATH_LABEL" = VStr "cellular connection".

(** A device with the given description and zone. *)
Definition described (description : string) (zone_id : PyVal) : Device :=
  device_of [("alarm_com_description", VStr description);
             ("zone__", zone_id)].

(** ** Proof automation *)

(** Closed decidable facts are settled by evaluation. *)
Ltac by_computation := apply (bool_decide_unpack _); vm_compute; exact I.

(** An equation between closed terms, checked by evaluating both sides. *)
Ltac by_evaluation :=
  lazymatch goal with
  | |- ?lhs = ?rhs => vm_cast_no_check (@eq_refl _ rhs)
  end.

(** Case analysis on a character constrained by [H]. *)
Ltac ascii_cases c H :=
  destruct c as [[] [] [] [] [] [] [] []]; try discriminate H.

(** * Properties *)

(** ** Value transformer *)

Section Transformer.

Variable rt : Runtime.

(** The COMM_PATH_PHRASE rule on a list of at least two elements, in
    terms of the normalised paths. *)
Lemma comm_path_phrase_rule (v0 v1 : PyVal) (rest : list PyVal) :
  let path (v : PyVal) :=
    Str.lower (Str.strip (py_str (py_or v (VStr EmptyString)))) in
  transform_value rt (VList (v0 :: v1 :: rest)) "COMM_PATH_PHRASE"
  = VStr (if negb (Str.non_empty (path v0)) && negb (Str.non_empty (path v1))
          then EmptyString
          else if is_wireless (path v0) && is_wireless (path v1)
               then "Redundant Wireless"
               else if is_wireless (path v0) || is_wireless (path v1)
                    then "GSM Only"
                    else EmptyString).
Proof.
  intros path. unfold transform_value. cbn [String.eqb Ascii.eqb Bool.eqb].
  fold (path v0) (path v1).
  destruct (negb (Str.non_empty (path v0)) && negb (Str.non_empty (path v1)));
    [reflexivity|].
  destruct (is_wireless (path v0)), (is_wireless (path v1)); reflexivity.
Qed.

Lemma comm_path_phrase_short (v : PyVal) :
  (forall v0 v1 rest, v <> VList (v0 :: v1 :: rest)) ->
  transform_value rt v "COMM_PATH_PHRASE" = VStr EmptyString.
Proof.
  intros Hshort. destruct v as [| | | |[|v0 [|v1 rest]]]; try reflexivity.
  exfalso. eapply Hshort. reflexivity.
Qed.

End Transformer.

(** C1.  On the path codes the spec lists, the COMM_PATH_PHRASE branch
    answers the empty string: ["01"], ["02"] and ["04"] contain none of
    [blink], [gsm], [cellular], and the branch never consults the code
    table.  The labels that the COMM_PATH_LABEL branch gives the same codes
    do produce the phrases the spec expects. *)
Theorem comm_path_phrase_ignores_code_table (rt : Runtime) :
  transform_value rt (VList [VStr "01"; VStr "02"]) "COMM_PATH_PHRASE"
  = VStr EmptyString
  /\ transform_value rt (VList [VStr "01"; VStr "04"]) "COMM_PATH_PHRASE"
     = VStr EmptyString
  /\ transform_value rt (VList [VStr "04"; VStr "04"]) "COMM_PATH_PHRASE"
     = VStr EmptyString
  /\ transform_value rt (VList [label_of rt "01"; label_of rt "02"])
       "COMM_PATH_PHRASE" = VStr "Redundant Wireless"
  /\ transform_value rt (VList [label_of rt "01"; label_of rt "04"])
       "COMM_PATH_PHRASE" = VStr "GSM Only"
  /\ transform_value rt (VList [label_of rt "04"; label_of rt "04"])
       "COMM_PATH_PHRASE" = VStr EmptyString.
Proof. repeat split; reflexivity. Qed.

(** C6, as stated, fails on the empty string: DEVICE_COUNT answers [0]. *)
Lemma transform_empty_string_is_dispatched :
  absent_value (VStr EmptyString) = true
  /\ transform_value example_runtime (VStr EmptyString) "DEVICE_COUNT"
     = VInt 0
  /\ transform_value example_runtime (VStr EmptyString) "DEVICE_COUNT"
     <> VStr EmptyString.
Proof. repeat split; try reflexivity. discriminate. Qed.

(** C6, amended.  [None] gives the empty string for every kind, before
    any dispatch.  An empty string is dispatched like any other value; it
    gives the empty string for every kind except TIMESTAMP_FORMAT,
    DEVICE_COUNT and DEVICE_ARRAY (the ISO parser rejecting the empty
    text). *)
Theorem transform_none_is_empty (rt : Runtime) (kind : string) :
  transform_value rt VNone kind = VStr EmptyString
  /\ (fromisoformat rt EmptyString = None ->
      kind <> "TIMESTAMP_FORMAT" -> kind <> "DEVICE_COUNT" ->
      kind <> "DEVICE_ARRAY" ->
      transform_value rt (VStr EmptyString) kind = VStr EmptyString).
Proof.
  split; [reflexivity|].
  intros Hiso Hts Hcount Harray. unfold transform_value.
  repeat match goal with
         | |- context [String.eqb kind ?k] =>
             destruct (String.eqb_spec kind k); [subst kind | ]
         end;
    try contradiction; try reflexivity.
  change (Str.replace "Z" "+00:00" EmptyString) with EmptyString.
  rewrite Hiso. reflexivity.
Qed.

Lemma transform_none_is_empty_witness :
  transform_value example_runtime VNone "UPPER" = VStr EmptyString
  /\ transform_value example_runtime (VStr EmptyString) "UPPER"
     = VStr EmptyString.
Proof.
  split.
  - exact (proj1 (transform_none_is_empty example_runtime "UPPER")).
  - apply (proj2 (transform_none_is_empty example_runtime "UPPER"));
      [reflexivity | discriminate | discriminate | discriminate].
Defined.

(** ** Device classifier *)

Section Classifier.

Implicit Types (g : Grouped) (d : Device) (c : string).

Lemma categories_NoDup : NoDup categories.
Proof. by_computation. Qed.

Lemma subtype_map_categories :
  Forall (fun p : string * string => p.2 ∈ categories) subtype_map.
Proof. by_computation. Qed.

Lemma type_rules_categories :
  Forall (fun c : string => c ∈ categories) (List.map fst type_rules).
Proof. by_computation. Qed.

Lemma assoc_Some_elem {A} (key : string) (table : list (string * A)) (v : A) :
  assoc key table = Some v -> (key, v) ∈ table.
Proof.
  induction table as [|[k x] table IH]; simpl; [discriminate|].
  destruct (String.eqb_spec key k) as [->|Hne].
  - intros [= ->]. left.
  - intros H. right. auto.
Qed.

Lemma assoc_None_keys {A} (key : string) (table : list (string * A)) :
  assoc key table = None <-> key ∉ List.map fst table.
Proof.
  induction table as [|[k x] table IH]; simpl.
  - split; [intros _; apply not_elem_of_nil | reflexivity].
  - destruct (String.eqb_spec key k) as [->|Hne].
    + split; [discriminate|]. intros H. exfalso. apply H. left.
    + rewrite IH, not_elem_of_cons. tauto.
Qed.

Lemma has_key_spec c g : has_key c g = true <-> c ∈ List.map fst g.
Proof.
  unfold has_key. induction g as [|[k l] g IH]; simpl.
  - split; [discriminate | intros H; inversion H].
  - rewrite orb_true_iff, IH, elem_of_cons.
    destruct (String.eqb_spec c k); intuition congruence.
Qed.

Lemma append_to_present c d g :
  c ∈ List.map fst g -> exists g', append_to c d g = Ok g'.
Proof.
  induction g as [|[k l] g IH]; simpl; intros Hin.
  - inversion Hin.
  - destruct (String.eqb_spec c k) as [->|Hne]; [eauto|].
    apply elem_of_cons in Hin as [?|Hin]; [congruence|].
    destruct (IH Hin) as [g' ->]. simpl. eauto.
Qed.

Lemma append_to_keys c d g g' :
  append_to c d g = Ok g' -> List.map fst g' = List.map fst g.
Proof.
  revert g'. induction g as [|[k l] g IH]; simpl; intros g'; [discriminate|].
  destruct (String.eqb c k).
  - intros [= <-]. reflexivity.
  - destruct (append_to c d g) as [rest|]; simpl; [|discriminate].
    intros [= <-]. simpl. f_equal. auto.
Qed.

Lemma append_to_members c d g g' c' :
  append_to c d g = Ok g' ->
  members c' g' = if String.eqb c c' then members c' g ++ [d]
                  else members c' g.
Proof.
  unfold members.
  revert g'. induction g as [|[k l] g IH]; simpl; intros g'; [discriminate|].
  destruct (String.eqb_spec c k) as [->|Hne].
  - intros [= <-]. simpl. rewrite (String.eqb_sym k c').
    destruct (String.eqb_spec c' k); reflexivity.
  - destruct (append_to c d g) as [rest|]; simpl; [|discriminate].
    intros [= <-]. simpl. specialize (IH rest eq_refl).
    destruct (String.eqb_spec c' k) as [->|Hne'].
    + destruct (String.eqb_spec c k); [congruence | reflexivity].
    + exact IH.
Qed.

(** The type loop appends to the category that [rule_category] names. *)
Lemma type_rules_loop_category rules d ty g :
  type_rules_loop rules d ty g
  = match rule_category rules d ty with
    | Err e => Err e
    | Ok None => Ok (g, false)
    | Ok (Some c) => g' <-? append_to c d g; Ok (g', true)
    end.
Proof.
  induction rules as [|[category types] rules IH]; simpl; [reflexivity|].
  destruct (existsb (String.eqb ty) types); [|exact IH].
  destruct (String.eqb category "NonRelaySmoke").
  - destruct (lower_method _) as [desc|e]; simpl; [|reflexivity].
    destruct (_ || _ || _); [exact IH|].
    destruct (_ && _); [exact IH | reflexivity].
  - simpl. destruct (_ && _); [exact IH | reflexivity].
Qed.

(** The loop body appends the device to the list of its category and
    changes nothing else. *)
Lemma group_device_category g d :
  List.map fst g = categories ->
  group_device g d
  = match category_of d with
    | Err e => Err e
    | Ok None => Ok g
    | Ok (Some c) => append_to c d g
    end.
Proof.
  intros Hkeys. unfold group_device, category_of.
  fold (subtype_code d).
  destruct (assoc (subtype_code d) subtype_map) as [c|] eqn:Hsub.
  - assert (Hin : c ∈ categories).
    { apply assoc_Some_elem in Hsub.
      exact (proj1 (Forall_forall _ _) subtype_map_categories _ Hsub). }
    rewrite <- Hkeys in Hin. apply has_key_spec in Hin. rewrite Hin.
    reflexivity.
  - unfold group_by_type. fold (type_code d).
    rewrite type_rules_loop_category.
    destruct (rule_category type_rules d (type_code d)) as [[c|]|e];
      simpl; [| |reflexivity].
    + destruct (append_to c d g); reflexivity.
    + destruct (String.eqb _ "48"); reflexivity.
Qed.

Lemma rule_category_in_rules rules d ty c :
  rule_category rules d ty = Ok (Some c) -> c ∈ List.map fst rules.
Proof.
  induction rules as [|[category types] rules IH]; simpl; [discriminate|].
  intros H. destruct (existsb (String.eqb ty) types); [|right; auto].
  assert (Hcase : rule_category rules d ty = Ok (Some c) \/ c = category).
  { destruct (String.eqb category "NonRelaySmoke").
    - destruct (lower_method _); simpl in H; [|discriminate].
      destruct (_ || _ || _); [by left|].
      destruct (_ && _); [by left|]. right. congruence.
    - simpl in H. destruct (_ && _); [by left|]. right. congruence. }
  destruct Hcase as [?| ->]; [right; auto | left].
Qed.

Lemma category_of_in_categories d c :
  category_of d = Ok (Some c) -> c ∈ categories.
Proof.
  unfold category_of.
  destruct (assoc (subtype_code d) subtype_map) as [c'|] eqn:Hsub.
  - intros [= <-]. apply assoc_Some_elem in Hsub.
    exact (proj1 (Forall_forall _ _) subtype_map_categories _ Hsub).
  - destruct (rule_category _ _ _) as [[c'|]|] eqn:Hrule; simpl;
      [| |discriminate].
    + intros [= <-]. apply rule_category_in_rules in Hrule.
      exact (proj1 (Forall_forall _ _) type_rules_categories _ Hrule).
    + destruct (String.eqb _ "48"); [|discriminate].
      intros [= <-]. by_computation.
Qed.

Lemma placed_in_spec c d :
  placed_in c d = true <-> category_of d = Ok (Some c).
Proof.
  unfold placed_in. destruct (category_of d) as [[c'|]|]; try easy.
  destruct (String.eqb_spec c' c); split; congruence.
Qed.

(** The loop over the devices: every list grows by the devices placed in
    its category, in their order. *)
Lemma group_loop_members ds g g' :
  List.map fst g = categories ->
  group_loop g ds = Ok g' ->
  List.map fst g' = categories
  /\ forall c, members c g' = members c g ++ List.filter (placed_in c) ds.
Proof.
  revert g. induction ds as [|d ds IH]; simpl; intros g Hkeys.
  - intros [= <-]. split; [assumption|]. intros c. by rewrite app_nil_r.
  - rewrite (group_device_category g d Hkeys).
    unfold placed_in.
    destruct (category_of d) as [[c0|]|e] eqn:Hcat; simpl; [| |discriminate].
    + destruct (append_to c0 d g) as [g1|] eqn:Happ; simpl; [|discriminate].
      intros Hloop.
      assert (Hkeys1 : List.map fst g1 = categories)
        by (rewrite (append_to_keys _ _ _ _ Happ); exact Hkeys).
      destruct (IH g1 Hkeys1 Hloop) as [Hk Hm]. split; [exact Hk|].
      intros c. rewrite Hm, (append_to_members _ _ _ _ c Happ).
      destruct (String.eqb c0 c); [by rewrite <- app_assoc | reflexivity].
    + intros Hloop. destruct (IH g Hkeys Hloop) as [Hk Hm]. by split.
Qed.

Lemma group_loop_total ds g :
  List.map fst g = categories ->
  Forall (fun d => is_err (category_of d) = false) ds ->
  exists g', group_loop g ds = Ok g'.
Proof.
  revert g. induction ds as [|d ds IH]; simpl; intros g Hkeys Hall; [eauto|].
  apply Forall_cons in Hall as [Hd Hall].
  rewrite (group_device_category g d Hkeys).
  destruct (category_of d) as [[c0|]|e] eqn:Hcat; simpl in *; [| |discriminate].
  - apply category_of_in_categories in Hcat. rewrite <- Hkeys in Hcat.
    destruct (append_to_present c0 d g Hcat) as [g1 Happ]. rewrite Happ. simpl.
    apply IH; [|exact Hall].
    rewrite (append_to_keys _ _ _ _ Happ). exact Hkeys.
  - by apply IH.
Qed.

Lemma group_loop_raises ds g d :
  List.map fst g = categories ->
  d ∈ ds -> is_err (category_of d) = true ->
  is_err (group_loop g ds) = true.
Proof.
  revert g. induction ds as [|d' ds IH]; simpl; intros g Hkeys Hin Herr.
  - inversion Hin.
  - rewrite (group_device_category g d' Hkeys).
    apply elem_of_cons in Hin as [<-|Hin].
    + destruct (category_of d) as [r|e]; [discriminate | reflexivity].
    + destruct (category_of d') as [[c0|]|e] eqn:Hcat; simpl; [| |reflexivity].
      * destruct (append_to c0 d' g) as [g1|] eqn:Happ; simpl; [|reflexivity].
        apply IH; [|exact Hin|exact Herr].
        rewrite (append_to_keys _ _ _ _ Happ). exact Hkeys.
      * by apply IH.
Qed.

(** *** Sorting *)

Lemma with_keys_devices (l : list Device) keyed :
  with_keys l = Ok keyed -> List.map snd keyed = l.
Proof.
  revert keyed. induction l as [|d l IH]; simpl; intros keyed.
  - by intros [= <-].
  - destruct (sort_key d) as [k|]; simpl; [|discriminate].
    destruct (with_keys l) as [rest|]; simpl; [|discriminate].
    intros [= <-]. simpl. f_equal. by apply IH.
Qed.

Lemma with_keys_total (l : list Device) :
  Forall (fun d => is_err (sort_key d) = false) l ->
  exists keyed, with_keys l = Ok keyed.
Proof.
  induction 1 as [|d l Hd _ [rest IH]]; simpl; [eauto|].
  destruct (sort_key d) as [k|]; [|discriminate]. simpl.
  rewrite IH. simpl. eauto.
Qed.

Lemma with_keys_raises (l : list Device) d :
  d ∈ l -> is_err (sort_key d) = true -> is_err (with_keys l) = true.
Proof.
  induction l as [|d' l IH]; simpl; intros Hin Herr; [inversion Hin|].
  apply elem_of_cons in Hin as [<-|Hin].
  - destruct (sort_key d); [discriminate | reflexivity].
  - destruct (sort_key d'); simpl; [|reflexivity].
    specialize (IH Hin Herr). destruct (with_keys l); [discriminate|reflexivity].
Qed.

Lemma insert_keyed_Permutation x (l : list (string * Device)) :
  insert_keyed x l ≡ₚ x :: l.
Proof.
  induction l as [|y l IH]; simpl; [reflexivity|].
  destruct (Str.le x.1 y.1); [reflexivity|].
  rewrite IH. apply Permutation_swap.
Qed.

Lemma sort_keyed_Permutation (l : list (string * Device)) :
  sort_keyed l ≡ₚ l.
Proof.
  unfold sort_keyed. induction l as [|x l IH]; simpl; [reflexivity|].
  by rewrite insert_keyed_Permutation, IH.
Qed.

Lemma sorted_by_description_Permutation (l l' : list Device) :
  sorted_by_description l = Ok l' -> l' ≡ₚ l.
Proof.
  unfold sorted_by_description.
  destruct (with_keys l) as [keyed|] eqn:Hkeys; simpl; [|discriminate].
  intros [= <-]. rewrite <- (with_keys_devices l keyed Hkeys).
  apply Permutation_map, sort_keyed_Permutation.
Qed.

Lemma sort_categories_members g g' :
  sort_categories g = Ok g' ->
  List.map fst g' = List.map fst g
  /\ forall c, members c g' ≡ₚ members c g.
Proof.
  unfold members.
  revert g'. induction g as [|[k l] g IH]; simpl; intros g'.
  - by intros [= <-].
  - destruct (sorted_by_description l) as [l'|] eqn:Hsort; simpl;
      [|discriminate].
    destruct (sort_categories g) as [rest|]; simpl; [|discriminate].
    intros [= <-]. destruct (IH rest eq_refl) as [Hk Hm]. simpl. split.
    + by f_equal.
    + intros c. destruct (String.eqb c k); simpl; [|apply Hm].
      by apply sorted_by_description_Permutation.
Qed.

Lemma sort_categories_total g :
  Forall (fun entry => Forall (fun d => is_err (sort_key d) = false) entry.2) g ->
  exists g', sort_categories g = Ok g'.
Proof.
  induction 1 as [|[k l] g Hl _ [rest IH]]; simpl; [eauto|].
  unfold sorted_by_description.
  destruct (with_keys_total l Hl) as [keyed ->]. simpl.
  rewrite IH. simpl. eauto.
Qed.

Lemma sort_categories_raises g c d :
  d ∈ members c g -> is_err (sort_key d) = true ->
  is_err (sort_categories g) = true.
Proof.
  unfold members.
  induction g as [|[k l] g IH]; simpl; intros Hin Herr; [inversion Hin|].
  unfold sorted_by_description.
  destruct (String.eqb c k).
  - simpl in Hin. pose proof (with_keys_raises l d Hin Herr) as Hraise.
    destruct (with_keys l); [discriminate | reflexivity].
  - destruct (with_keys l); simpl; [|reflexivity].
    specialize (IH Hin Herr).
    destruct (sort_categories g); [discriminate | reflexivity].
Qed.

Lemma members_of_entry g c (l : list Device) :
  NoDup (List.map fst g) -> (c, l) ∈ g -> members c g = l.
Proof.
  unfold members.
  induction g as [|[k l'] g IH]; simpl; intros Hnd Hin; [inversion Hin|].
  apply NoDup_cons in Hnd as [Hk Hnd].
  apply elem_of_cons in Hin as [[= <- <-]|Hin].
  - by rewrite String.eqb_refl.
  - destruct (String.eqb_spec c k) as [->|Hne]; [|by apply IH].
    exfalso. apply Hk. change k with (fst (k, l)).
    apply list_elem_of_fmap_2. exact Hin.
Qed.

(** The classifier as a whole: when it returns, its keys are the
    categories and the list of a category holds, up to order, the devices
    placed in it. *)
Lemma group_devices_members ds g :
  group_devices ds = Ok g ->
  List.map fst g = categories
  /\ forall c, members c g ≡ₚ List.filter (placed_in c) ds.
Proof.
  unfold group_devices.
  destruct (group_loop empty_grouped ds) as [g0|] eqn:Hloop; simpl;
    [|discriminate].
  intros Hsort.
  destruct (group_loop_members ds empty_grouped g0 eq_refl Hloop) as [Hk Hm].
  destruct (sort_categories_members g0 g Hsort) as [Hk' Hm'].
  split; [congruence|].
  intros c. rewrite Hm', Hm.
  assert (Hempty : members c empty_grouped = []).
  { unfold members, empty_grouped, categories. simpl.
    repeat match goal with
           | |- context [String.eqb c ?k] => destruct (String.eqb c k)
           end; reflexivity. }
  by rewrite Hempty.
Qed.

(** *** Totality *)

Lemma rule_category_total rules d ty :
  is_err (lower_method (get_or d "alarm_com_description" (VStr EmptyString)))
  = false ->
  is_err (rule_category rules d ty) = false.
Proof.
  intros Hdesc.
  induction rules as [|[category types] rules IH]; simpl; [reflexivity|].
  destruct (existsb (String.eqb ty) types); [|exact IH].
  destruct (String.eqb category "NonRelaySmoke").
  - destruct (lower_method _) as [desc|e]; [|discriminate]. simpl.
    destruct (_ || _ || _); [exact IH|].
    destruct (_ && _); [exact IH | reflexivity].
  - simpl. destruct (_ && _); [exact IH | reflexivity].
Qed.

Lemma description_is_str_get d :
  description_is_str d ->
  exists s, get_or d "alarm_com_description" (VStr EmptyString) = VStr s.
Proof.
  intros Hstr. unfold get_or.
  destruct (d !! "alarm_com_description") as [v|] eqn:Hv; simpl; [|eauto].
  destruct (Hstr v Hv) as [s ->]. eauto.
Qed.

Lemma category_of_total d :
  description_is_str d -> is_err (category_of d) = false.
Proof.
  intros Hstr. unfold category_of.
  destruct (assoc _ subtype_map); [reflexivity|].
  pose proof (rule_category_total type_rules d (type_code d)) as Hrule.
  destruct (description_is_str_get d Hstr) as [s Hs]. rewrite Hs in Hrule.
  specialize (Hrule eq_refl).
  destruct (rule_category _ _ _) as [[c|]|]; simpl; try easy.
  by destruct (String.eqb _ "48").
Qed.

Lemma sort_key_total d :
  description_is_str d -> is_err (sort_key d) = false.
Proof.
  intros Hstr. unfold sort_key.
  destruct (description_is_str_get d Hstr) as [s ->]. reflexivity.
Qed.

Lemma elem_of_filter_placed c d ds :
  d ∈ List.filter (placed_in c) ds <-> d ∈ ds /\ category_of d = Ok (Some c).
Proof.
  rewrite !list_elem_of_In, filter_In, placed_in_spec. reflexivity.
Qed.

(** Every device with a well-typed description is classified: the
    classifier returns. *)
Lemma group_devices_total ds :
  Forall description_is_str ds -> exists g, group_devices ds = Ok g.
Proof.
  intros Hall. unfold group_devices.
  destruct (group_loop_total ds empty_grouped eq_refl) as [g0 Hloop].
  { eapply Forall_impl; [exact Hall|]. apply category_of_total. }
  rewrite Hloop. simpl.
  destruct (group_loop_members ds empty_grouped g0 eq_refl Hloop) as [Hk Hm].
  apply sort_categories_total, Forall_forall. intros [c l] Hentry.
  apply Forall_forall. intros d Hd. apply sort_key_total.
  rewrite Forall_forall in Hall. apply Hall.
  assert (Hl : members c g0 = l).
  { apply members_of_entry; [|exact Hentry].
    rewrite Hk. apply categories_NoDup. }
  simpl in Hd. rewrite <- Hl, Hm in Hd.
  apply elem_of_app in Hd as [Hd|Hd].
  - exfalso. revert Hd. clear. unfold members, empty_grouped, categories.
    simpl.
    repeat match goal with
           | |- context [String.eqb c ?k] => destruct (String.eqb c k)
           end; simpl; apply not_elem_of_nil.
  - by apply elem_of_filter_placed in Hd as [Hd _].
Qed.

(** Membership in the list of a category, for a classifier that returned. *)
Lemma group_devices_elem_of ds g c d :
  group_devices ds = Ok g ->
  d ∈ members c g <-> d ∈ ds /\ category_of d = Ok (Some c).
Proof.
  intros Hg. destruct (group_devices_members ds g Hg) as [_ Hm].
  rewrite (Hm c). apply elem_of_filter_placed.
Qed.

End Classifier.

(** C8.  The result of the classifier has exactly the eighteen category
    keys, in their fixed order, each mapped to a list; on the empty device
    list every list is empty; and the classifier does return whenever the
    descriptions present are strings. *)
Theorem group_devices_has_all_categories :
  (forall ds g, group_devices ds = Ok g -> List.map fst g = categories)
  /\ length categories = 18%nat
  /\ NoDup categories
  /\ group_devices [] = Ok (List.map (fun cat => (cat, [])) categories)
  /\ (forall ds, Forall description_is_str ds ->
      exists g, group_devices ds = Ok g /\ List.map fst g = categories).
Proof.
  split; [|split; [|split; [|split]]].
  - intros ds g Hg. by destruct (group_devices_members ds g Hg).
  - reflexivity.
  - apply categories_NoDup.
  - reflexivity.
  - intros ds Hall. destruct (group_devices_total ds Hall) as [g Hg].
    exists g. split; [exact Hg|]. by destruct (group_devices_members ds g Hg).
Qed.

Lemma group_devices_has_all_categories_witness :
  List.map fst front_door_grouped = categories.
Proof.
  apply (proj1 group_devices_has_all_categories [front_door]).
  by_evaluation.
Defined.

(** ** Facts about strings *)

Section Strings.

Lemma lower_app (a b : string) :
  Str.lower (a +:+ b) = Str.lower a +:+ Str.lower b.
Proof.
  unfold Str.lower. induction a as [|c a IH]; simpl; [reflexivity|].
  rewrite IH. reflexivity.
Qed.

Lemma prefix_app (sub rest : string) : String.prefix sub (sub +:+ rest) = true.
Proof.
  induction sub as [|c sub IH]; simpl; [by destruct rest|].
  destruct (ascii_dec c c); [exact IH | congruence].
Qed.

Lemma contains_prefix (sub s : string) :
  String.prefix sub s = true -> Str.contains sub s = true.
Proof. intros H. destruct s; cbn [Str.contains]; rewrite H; reflexivity. Qed.

Lemma contains_app (sub pre post : string) :
  Str.contains sub (pre +:+ sub +:+ post) = true.
Proof.
  induction pre as [|c pre IH].
  - change (EmptyString +:+ sub +:+ post) with (sub +:+ post).
    apply contains_prefix, prefix_app.
  - change (String c pre +:+ sub +:+ post)
      with (String c (pre +:+ sub +:+ post)).
    cbn [Str.contains]. rewrite IH. apply orb_true_r.
Qed.

(** A description that has "120v" in either letter case contains "120v"
    once lower-cased. *)
Lemma contains_120v (pre marker post : string) :
  marker = "120v" \/ marker = "120V" ->
  Str.contains "120v" (Str.lower (pre +:+ marker +:+ post)) = true.
Proof.
  intros Hmarker. rewrite !lower_app.
  replace (Str.lower marker) with "120v" by (by destruct Hmarker as [->| ->]).
  apply contains_app.
Qed.

End Strings.

(** ** Device classifier: the claims *)

Section ClassifierClaims.

Implicit Types (g : Grouped) (d : Device) (c : string).

(** The decision of the type loop on the smoke-detector codes. *)
Lemma rule_category_smoke d ty :
  ty = "5" \/ ty = "53" ->
  rule_category type_rules d ty
  = (desc <-? lower_method
                (get_or d "alarm_com_description" (VStr EmptyString));
     if Str.contains "relay" desc || Str.contains "120v" desc
        || String.eqb (str_prop d "alarm_com_sensor_group") "48"
     then Ok None
     else Ok (Some "NonRelaySmoke")).
Proof.
  intros [-> | ->]; simpl;
    destruct (lower_method _) as [desc|e]; simpl; try reflexivity;
    destruct (_ || _ || _); reflexivity.
Qed.

Lemma category_of_smoke_120v d pre marker post :
  type_code d = "5" \/ type_code d = "53" ->
  assoc (subtype_code d) subtype_map = None ->
  d !! "alarm_com_description" = Some (VStr (pre +:+ marker +:+ post)) ->
  marker = "120v" \/ marker = "120V" ->
  category_of d
  = if String.eqb (str_prop d "alarm_com_sensor_group") "48"
    then Ok (Some "Sprinkler") else Ok None.
Proof.
  intros Hty Hsub Hdesc Hmarker. unfold category_of.
  rewrite Hsub, (rule_category_smoke d _ Hty).
  unfold get_or. rewrite Hdesc. simpl.
  rewrite (contains_120v pre marker post Hmarker), orb_true_r. reflexivity.
Qed.

End ClassifierClaims.

(** C2, as stated, fails when the sensor group is 48: the excluded
    detector falls through to the sensor-group rule and is a Sprinkler. *)
Lemma smoke_120v_group_48_is_sprinkler :
  type_code smoke_120v_group_48 = "5"
  /\ smoke_120v_group_48 !! "alarm_com_description"
     = Some (VStr ("Hall " +:+ "120V" +:+ " Smoke"))
  /\ assoc (subtype_code smoke_120v_group_48) subtype_map = None
  /\ members "Sprinkler"
       (result_or [] (group_devices [smoke_120v_group_48]))
     = [smoke_120v_group_48].
Proof. repeat split; by_evaluation. Qed.

(** C2, amended.  A device with equipment-type code 5 or 53, a subtype
    outside the override table and a description containing "120v" in
    either letter case is never put in a category other than Sprinkler,
    and is put in Sprinkler exactly when its sensor group is 48: the loop
    body leaves the lists alone otherwise, and in the result of the
    classifier the device is in no list otherwise. *)
Theorem smoke_120v_only_sprinkler (d : Device) (pre marker post : string) :
  type_code d = "5" \/ type_code d = "53" ->
  assoc (subtype_code d) subtype_map = None ->
  d !! "alarm_com_description" = Some (VStr (pre +:+ marker +:+ post)) ->
  marker = "120v" \/ marker = "120V" ->
  (forall g0, List.map fst g0 = categories ->
     group_device g0 d
     = if String.eqb (str_prop d "alarm_com_sensor_group") "48"
       then append_to "Sprinkler" d g0 else Ok g0)
  /\ (forall ds g c, d ∈ ds -> group_devices ds = Ok g ->
        (d ∈ members c g
         <-> c = "Sprinkler" /\ str_prop d "alarm_com_sensor_group" = "48")).
Proof.
  intros Hty Hsub Hdesc Hmarker.
  pose proof (category_of_smoke_120v d pre marker post Hty Hsub Hdesc Hmarker)
    as Hcat.
  split.
  - intros g0 Hkeys. rewrite (group_device_category g0 d Hkeys), Hcat.
    by destruct (String.eqb _ "48").
  - intros ds g c Hin Hg. rewrite (group_devices_elem_of ds g c d Hg), Hcat.
    destruct (String.eqb_spec (str_prop d "alarm_com_sensor_group") "48")
      as [Heq|Hne]; split.
    + intros [_ [= <-]]. by split.
    + intros [-> _]. by split.
    + intros [_ [=]].
    + intros [_ ?]. contradiction.
Qed.

Lemma smoke_120v_only_sprinkler_witness :
  ~ smoke_120v ∈ members "NonRelaySmoke" smoke_120v_grouped
  /\ ~ smoke_120v ∈ members "Sprinkler" smoke_120v_grouped.
Proof.
  destruct (smoke_120v_only_sprinkler smoke_120v "Hall " "120V" " Smoke")
    as [_ Hclaim].
  - right. by_evaluation.
  - by_evaluation.
  - by_evaluation.
  - right. reflexivity.
  - assert (Hrun : group_devices [smoke_120v] = Ok smoke_120v_grouped)
      by by_evaluation.
    assert (Hin : smoke_120v ∈ [smoke_120v]) by left.
    split; intros Hc; apply (Hclaim _ _ _ Hin Hrun) in Hc.
    + destruct Hc as [Hc _]. discriminate Hc.
    + destruct Hc as [_ Hc]. vm_compute in Hc. discriminate Hc.
Defined.

(** C7.  A device whose subtype code is in the override table goes to the
    table's category and to no other, whatever its equipment-type code:
    the premise does not mention the type, it survives any change of the
    type, and the loop body appends the device to that one list and stops. *)
Theorem subtype_override_wins (d : Device) (c : string) :
  assoc (subtype_code d) subtype_map = Some c ->
  (forall ty, assoc (subtype_code (<["alarm_com_equipment_type" := ty]> d))
                subtype_map = Some c)
  /\ assoc (subtype_code (delete "alarm_com_equipment_type" d)) subtype_map
     = Some c
  /\ (forall g0, List.map fst g0 = categories ->
      exists g1, group_device g0 d = Ok g1
                 /\ List.map fst g1 = categories
                 /\ members c g1 = members c g0 ++ [d]
                 /\ forall c', c' <> c -> members c' g1 = members c' g0)
  /\ (forall ds g c', d ∈ ds -> group_devices ds = Ok g ->
      (d ∈ members c' g <-> c' = c)).
Proof.
  intros Hsub.
  assert (Hcat : category_of d = Ok (Some c))
    by (unfold category_of; rewrite Hsub; reflexivity).
  split; [|split; [|split]].
  - intros ty. unfold subtype_code, str_prop, get_or.
    rewrite lookup_insert_ne by discriminate. exact Hsub.
  - unfold subtype_code, str_prop, get_or.
    rewrite lookup_delete_ne by discriminate. exact Hsub.
  - intros g0 Hkeys. rewrite (group_device_category g0 d Hkeys), Hcat.
    pose proof (category_of_in_categories d c Hcat) as Hin.
    rewrite <- Hkeys in Hin.
    destruct (append_to_present c d g0 Hin) as [g1 Happ].
    exists g1. split; [exact Happ|]. split; [|split].
    + rewrite (append_to_keys _ _ _ _ Happ). exact Hkeys.
    + rewrite (append_to_members _ _ _ _ c Happ). by rewrite String.eqb_refl.
    + intros c' Hne. rewrite (append_to_members _ _ _ _ c' Happ).
      destruct (String.eqb_spec c c'); [congruence | reflexivity].
  - intros ds g c' Hin Hg.
    rewrite (group_devices_elem_of ds g c' d Hg), Hcat.
    split; [intros [_ [= ->]]; reflexivity | intros ->; by split].
Qed.

Lemma subtype_override_wins_witness :
  type_code sump_typed_motion = "2"
  /\ sump_typed_motion ∈ members "Sump" sump_grouped
  /\ ~ sump_typed_motion ∈ members "Motion" sump_grouped.
Proof.
  split; [by_evaluation|].
  destruct (subtype_override_wins sump_typed_motion "Sump")
    as (_ & _ & _ & Hclaim); [by_evaluation|].
  assert (Hrun : group_devices [sump_typed_motion] = Ok sump_grouped)
    by (by_evaluation).
  assert (Hin : sump_typed_motion ∈ [sump_typed_motion]) by left.
  split.
  - apply (Hclaim _ _ "Sump" Hin Hrun). reflexivity.
  - intros Hmotion. apply (Hclaim _ _ "Motion" Hin Hrun) in Hmotion.
    discriminate Hmotion.
Defined.

(** C9.  The classifier is partial.  A device whose description is present
    and null makes it raise as soon as the description is looked at: when
    the device has equipment-type code 5 or 53, or when the loop puts it in
    any list (the sort then takes its key).  When every description that is
    present is a string, the classifier returns. *)
Theorem group_devices_null_description_raises :
  (forall ds d,
     d ∈ ds ->
     d !! "alarm_com_description" = Some VNone ->
     (type_code d = "5" \/ type_code d = "53"
      \/ exists g0 c, group_loop empty_grouped ds = Ok g0 /\ d ∈ members c g0) ->
     exists e, group_devices ds = Err e)
  /\ (forall ds, Forall description_is_str ds ->
      exists g, group_devices ds = Ok g).
Proof.
  split; [|exact group_devices_total].
  intros ds d Hin Hnull Htouched.
  assert (Hkey : is_err (sort_key d) = true)
    by (unfold sort_key, get_or; rewrite Hnull; reflexivity).
  assert (Hsorted : forall g0 c,
             group_loop empty_grouped ds = Ok g0 -> d ∈ members c g0 ->
             exists e, group_devices ds = Err e).
  { intros g0 c Hloop Hd. unfold group_devices. rewrite Hloop. simpl.
    pose proof (sort_categories_raises g0 c d Hd Hkey) as Hraise.
    destruct (sort_categories g0) as [|e]; [discriminate | eauto]. }
  assert (Hsmoke : type_code d = "5" \/ type_code d = "53" ->
                   exists e, group_devices ds = Err e).
  { intros Hty.
    destruct (assoc (subtype_code d) subtype_map) as [c|] eqn:Hsub.
    - destruct (group_loop empty_grouped ds) as [g0|e] eqn:Hloop.
      + apply (Hsorted g0 c eq_refl).
        destruct (group_loop_members ds empty_grouped g0 eq_refl Hloop)
          as [_ Hm].
        rewrite Hm. apply elem_of_app. right.
        apply elem_of_filter_placed. split; [exact Hin|].
        unfold category_of. by rewrite Hsub.
      + unfold group_devices. rewrite Hloop. simpl. eauto.
    - assert (Hcat : is_err (category_of d) = true).
      { unfold category_of. rewrite Hsub, (rule_category_smoke d _ Hty).
        unfold get_or. rewrite Hnull. reflexivity. }
      pose proof (group_loop_raises ds empty_grouped d eq_refl Hin Hcat)
        as Hraise.
      unfold group_devices.
      destruct (group_loop empty_grouped ds) as [|e]; [discriminate|].
      simpl. eauto. }
  destruct Htouched as [Hty|[Hty|(g0 & c & Hloop & Hd)]]; eauto.
Qed.

Lemma group_devices_null_description_raises_witness :
  (exists e, group_devices [front_door; smoke_null_description] = Err e)
  /\ exists g, group_devices [front_door] = Ok g.
Proof.
  destruct group_devices_null_description_raises as [Hraises Hreturns].
  split.
  - apply (Hraises _ smoke_null_description).
    + right. left.
    + by_evaluation.
    + left. by_evaluation.
  - apply Hreturns. repeat constructor.
    intros v Hv.
    assert (Hdesc : front_door !! "alarm_com_description"
                    = Some (VStr "3 Front Door")) by (by_evaluation).
    rewrite Hdesc in Hv. injection Hv as <-. eauto.
Defined.

(** ** Validator and orchestrator *)

Section Orchestrator.

Variables (eng : Engine) (rt : Runtime).

Lemma validation_errors_checks (data : Bundle) :
  validation_errors data
  = List.map snd (List.filter fst (validation_checks data)).
Proof.
  unfold validation_errors, validation_checks, check_present.
  destruct (negb (truthy (get (SITE data) "address")));
    destruct (negb (truthy (get (SITE data) "city")));
    destruct (negb (truthy (get (SITE data) "state")));
    destruct (negb (truthy (get (SITE data) "zip")));
    destruct (negb (truthy (get (CUSTOMER data) "firstname"))
              && negb (truthy (get (CUSTOMER data) "lastname")));
    destruct (negb (truthy_list (DEVICES data))); reflexivity.
Qed.

Lemma validate_data_ok (data : Bundle) :
  fst (validate_data data) = true <-> snd (validate_data data) = [].
Proof.
  unfold validate_data. simpl. destruct (validation_errors data); simpl.
  - tauto.
  - split; discriminate.
Qed.

Lemma missing_zip_reported (data : Bundle) :
  truthy (get (SITE data) "zip") = false ->
  "Site postal code is missing" ∈ validation_errors data.
Proof.
  intros Hzip. unfold validation_errors.
  rewrite !elem_of_app. right. right. right. left.
  unfold check_present. rewrite Hzip. left.
Qed.

(** The fetcher only reads: it returns, the objects of the CRM are what
    they were, and no request it sends is an update. *)
Lemma fetch_hubspot_data_reads (agreement_id system_id site_id : string)
  (w : World) :
  exists data w1 reads,
    fetch_hubspot_data eng agreement_id system_id site_id w = (Ok data, w1)
    /\ crm_objects w1 = crm_objects w
    /\ requests w1 = requests w ++ reads
    /\ Forall (fun r => is_update r = false) reads.
Proof.
  unfold fetch_hubspot_data, bind, requests_get, requests_get_associations,
    requests_post_search, ret.
  cbn beta iota.
  destruct (crm_associations _ !! _) as [[|customer_id ids]|]; cbn;
    eexists _, _, _; (split; [reflexivity|]); cbn;
    (split; [reflexivity|]); rewrite <- ?app_assoc;
    (split; [reflexivity|]); repeat constructor.
Qed.

End Orchestrator.

(** C4.  The validator reports every violated check, in order, and is
    satisfied only when there is none; a site without a postal code fails
    it with the postal-code message among the errors.  When the fetched
    bundle fails it, the orchestrator raises the error that carries the
    whole list, the CRM objects (the counter among them) are what they were
    before the call, and every request sent was a read: the allocator was
    never reached. *)
Theorem validation_failure_stops_before_allocation :
  (forall data,
     snd (validate_data data)
     = List.map snd (List.filter fst (validation_checks data))
     /\ (fst (validate_data data) = true <-> snd (validate_data data) = [])
     /\ (truthy (get (SITE data) "zip") = false ->
         fst (validate_data data) = false
         /\ "Site postal code is missing" ∈ snd (validate_data data)))
  /\ (forall eng rt agreement_id system_id site_id broker_email requestor_name
        w data w1,
        fetch_hubspot_data eng agreement_id system_id site_id w = (Ok data, w1) ->
        fst (validate_data data) = false ->
        generate_certificate_data eng rt agreement_id system_id site_id
          broker_email requestor_name w
        = (Err (ValueError ("Validation failed: "
                            +:+ Str.join ", " (snd (validate_data data)))), w1)
        /\ crm_objects w1 = crm_objects w
        /\ exists reads, requests w1 = requests w ++ reads
                         /\ Forall (fun r => is_update r = false) reads).
Proof.
  split.
  - intros data. split; [apply validation_errors_checks|].
    split; [apply validate_data_ok|].
    intros Hzip. pose proof (missing_zip_reported data Hzip) as Hin.
    split; [|exact Hin].
    destruct (fst (validate_data data)) eqn:Hok; [|reflexivity].
    apply validate_data_ok in Hok. simpl in Hok. rewrite Hok in Hin.
    inversion Hin.
  - intros eng rt agreement_id system_id site_id broker_email requestor_name
      w data w1 Hfetch Hfail.
    split.
    + unfold generate_certificate_data, bind. rewrite Hfetch.
      unfold validate_data in *. simpl in *. rewrite Hfail. reflexivity.
    + destruct (fetch_hubspot_data_reads eng agreement_id system_id site_id w)
        as (data' & w1' & reads & Hfetch' & Hobjects & Hreads & Hall).
      rewrite Hfetch in Hfetch'. injection Hfetch' as <- <-. eauto.
Qed.

Lemma validation_failure_stops_before_allocation_witness :
  generate_certificate_data example_engine example_runtime
    "A" "X" "9999" VNone VNone world_without_zip
  = (Err (ValueError
            ("Validation failed: "
             +:+ Str.join ", " (snd (validate_data bundle_without_zip)))),
     snd fetched_without_zip)
  /\ snd (validate_data bundle_without_zip) = ["Site postal code is missing"]
  /\ crm_objects (snd fetched_without_zip) = crm_objects world_without_zip.
Proof.
  destruct validation_failure_stops_before_allocation as [_ Hstops].
  destruct (Hstops example_engine example_runtime "A" "X" "9999" VNone VNone
              world_without_zip bundle_without_zip (snd fetched_without_zip))
    as (Hrun & Hobjects & _).
  - by_evaluation.
  - by_evaluation.
  - split; [exact Hrun|]. split; [by_evaluation | exact Hobjects].
Defined.

(** ** Field assembler *)

Section Assembler.

Implicit Types (m : FieldMap) (agreement : Props).

(** Outside TIMESTAMP_FORMAT the transformer reads no clock. *)
Lemma transform_value_runtime (rt1 rt2 : Runtime) (v : PyVal) (kind : string) :
  (forall s, fromisoformat rt1 s = fromisoformat rt2 s) ->
  kind <> "TIMESTAMP_FORMAT" ->
  transform_value rt1 v kind = transform_value rt2 v kind.
Proof.
  intros Hiso Hkind. unfold transform_value.
  destruct v; try reflexivity;
    repeat match goal with
           | |- context [String.eqb kind ?k] =>
               destruct (String.eqb_spec kind k); [subst kind | ]
           end;
    try contradiction; try reflexivity.
  rewrite Hiso. reflexivity.
Qed.

Lemma timestamp_str_same_minute (a b : DateTime) :
  same_minute a b -> timestamp_str a = timestamp_str b.
Proof.
  intros (Hy & Hmo & Hd & Hh & Hmi).
  unfold timestamp_str, strftime, strftime_directive.
  rewrite Hy, Hmo, Hd, Hh, Hmi. reflexivity.
Qed.

Lemma base_fields_runtime (rt1 rt2 : Runtime)
  (site customer agreement system : Props) (cert_number : string)
  (broker_email requestor_name : PyVal) :
  (forall s, fromisoformat rt1 s = fromisoformat rt2 s) ->
  same_minute (now_pst rt1) (now_pst rt2) ->
  base_fields rt1 site customer agreement system cert_number
    broker_email requestor_name
  = base_fields rt2 site customer agreement system cert_number
      broker_email requestor_name.
Proof.
  intros Hiso Hclock. unfold base_fields.
  rewrite (timestamp_str_same_minute _ _ Hclock).
  repeat match goal with
         | |- context [transform_value rt1 ?v ?k] =>
             rewrite (transform_value_runtime rt1 rt2 v k Hiso)
               by discriminate
         end.
  reflexivity.
Qed.

(** *** The status fields *)

Lemma probe_status_other agreement f f' prefixes m :
  f <> f' ->
  probe_status agreement f prefixes m !! status_key f' = m !! status_key f'.
Proof.
  intros Hne. induction prefixes as [|p prefixes IH]; simpl; [reflexivity|].
  case_bool_decide; [|exact IH].
  apply lookup_insert_ne. intros Heq. apply Hne.
  by apply (String.app_inj "AGREEMENT_Status_").
Qed.

Lemma probe_status_same agreement f prefixes m :
  is_Some (probe_status agreement f prefixes m !! status_key f)
  <-> probed agreement prefixes f \/ is_Some (m !! status_key f).
Proof.
  unfold probed. induction prefixes as [|p prefixes IH]; simpl.
  - split; [auto|]. intros [(p & Hp & _)|H]; [inversion Hp | exact H].
  - case_bool_decide as Hpresent.
    + fold (status_key f). rewrite lookup_insert_eq. split; [|eauto].
      intros _. left. exists p. split; [left | exact Hpresent].
    + rewrite IH. split.
      * intros [(q & Hq & Hsome)|H]; [|by right].
        left. exists q. split; [by right | exact Hsome].
      * intros [(q & Hq & Hsome)|H]; [|by right].
        apply elem_of_cons in Hq as [->|Hq]; [contradiction|].
        left. eauto.
Qed.

Lemma add_status_fields_lookup agreement fields m f :
  is_Some (add_status_fields agreement fields m !! status_key f)
  <-> (f ∈ fields /\ probed agreement status_prefixes f)
      \/ is_Some (m !! status_key f).
Proof.
  unfold add_status_fields.
  revert m. induction fields as [|f0 fields IH]; intros m; cbn [fold_left].
  - split; [auto|]. intros [[Hin _]|H]; [inversion Hin | exact H].
  - rewrite IH. destruct (decide (f0 = f)) as [->|Hne].
    + rewrite probe_status_same. split.
      * intros [[Hin Hp]|[Hp|H]]; [left|left|right]; try done.
        -- split; [by right | exact Hp].
        -- split; [left | exact Hp].
      * intros [[_ Hp]|H]; right; [by left | by right].
    + rewrite (probe_status_other _ _ _ _ _ Hne). split.
      * intros [[Hin Hp]|H]; [left|by right]. split; [by right | exact Hp].
      * intros [[Hin Hp]|H]; [left|by right].
        apply elem_of_cons in Hin as [->|Hin]; [contradiction|]. by split.
Qed.

(** *** The device fields *)

Lemma status_key_not_device_key f category :
  status_key f <> "Zones_" +:+ category
  /\ status_key f <> "Count_" +:+ category.
Proof.
  assert (H : String.prefix "A" (status_key f) = true) by reflexivity.
  split; intros Heq; rewrite Heq in H; discriminate H.
Qed.

Lemma add_device_fields_status grouped keys m m' f :
  add_device_fields grouped keys m = Ok m' ->
  m' !! status_key f = m !! status_key f.
Proof.
  revert m. induction keys as [|category keys IH]; intros m; simpl.
  - by intros [= <-].
  - destruct (zone_entries _) as [device_list|]; simpl; [|discriminate].
    intros Hrest. rewrite (IH _ Hrest).
    destruct (status_key_not_device_key f category) as [Hzones Hcount].
    rewrite lookup_insert_ne by (intros H; by apply Hcount).
    rewrite lookup_insert_ne by (intros H; by apply Hzones).
    reflexivity.
Qed.

(** *** The literal fields *)

Lemma base_fields_no_status rt site customer agreement system cert_number
  broker_email requestor_name f :
  base_fields rt site customer agreement system cert_number
    broker_email requestor_name !! status_key f = None.
Proof.
  unfold base_fields. apply not_elem_of_list_to_map_1.
  cbn [fmap list_fmap fst].
  assert (Hprefix : String.prefix "AGREEMENT_Status_" (status_key f) = true)
    by apply prefix_app.
  intros Hin.
  repeat (apply elem_of_cons in Hin as [Heq|Hin];
          [rewrite Heq in Hprefix; discriminate Hprefix|]).
  inversion Hin.
Qed.

End Assembler.

(** C5.  The field map is a function of the arguments and of the time
    stamp alone: two runs on the same arguments whose PST clock readings
    agree up to the minute, under whatever local clock, give the same
    result, every field equal. *)
Theorem assemble_certificate_fields_deterministic (rt1 rt2 : Runtime)
  (hubspot_data : Bundle) (grouped_devices : Grouped) (cert_number : string)
  (broker_email requestor_name : PyVal) :
  (forall s, fromisoformat rt1 s = fromisoformat rt2 s) ->
  same_minute (now_pst rt1) (now_pst rt2) ->
  assemble_certificate_fields rt1 hubspot_data grouped_devices cert_number
    broker_email requestor_name
  = assemble_certificate_fields rt2 hubspot_data grouped_devices cert_number
      broker_email requestor_name.
Proof.
  intros Hiso Hclock. unfold assemble_certificate_fields.
  by rewrite (base_fields_runtime rt1 rt2 _ _ _ _ _ _ _ Hiso Hclock).
Qed.

Lemma assemble_certificate_fields_deterministic_witness :
  assemble_certificate_fields example_runtime example_bundle example_grouped
    "9999-005" VNone (VStr "Bob")
  = assemble_certificate_fields later_runtime example_bundle example_grouped
      "9999-005" VNone (VStr "Bob")
  /\ is_err (assemble_certificate_fields example_runtime example_bundle
               example_grouped "9999-005" VNone (VStr "Bob")) = false.
Proof.
  split; [|by_evaluation].
  apply (assemble_certificate_fields_deterministic example_runtime
           later_runtime).
  - reflexivity.
  - repeat split.
Defined.

(** C10.  In an assembled field map the key [AGREEMENT_Status_{suffix}] of
    a status-flag suffix is present exactly when one of the nine probed
    property names is a key of the agreement bag; otherwise the key is
    absent altogether. *)
Theorem status_field_present_iff_probed (rt : Runtime) (hubspot_data : Bundle)
  (grouped_devices : Grouped) (cert_number : string)
  (broker_email requestor_name : PyVal) (cert_data : FieldMap)
  (suffix : string) :
  assemble_certificate_fields rt hubspot_data grouped_devices cert_number
    broker_email requestor_name = Ok cert_data ->
  suffix ∈ status_fields ->
  (is_Some (cert_data !! ("AGREEMENT_Status_" +:+ suffix))
   <-> exists prefix, prefix ∈ status_prefixes
                      /\ is_Some (AGREEMENT hubspot_data !! (prefix +:+ suffix)))
  /\ ((forall prefix, prefix ∈ status_prefixes ->
         AGREEMENT hubspot_data !! (prefix +:+ suffix) = None) ->
      cert_data !! ("AGREEMENT_Status_" +:+ suffix) = None)
  /\ length status_prefixes = 9%nat.
Proof.
  intros Hassemble Hsuffix. unfold assemble_certificate_fields in Hassemble.
  assert (Hiff : is_Some (cert_data !! status_key suffix)
                 <-> probed (AGREEMENT hubspot_data) status_prefixes suffix).
  { rewrite (add_device_fields_status _ _ _ _ suffix Hassemble).
    rewrite add_status_fields_lookup, base_fields_no_status. split.
    - intros [[_ Hp]|H]; [exact Hp | by destruct H].
    - intros Hp. left. by split. }
  split; [exact Hiff|]. split; [|reflexivity].
  intros Hnone. apply eq_None_not_Some. intros Hsome.
  apply Hiff in Hsome as (prefix & Hprefix & Hpresent).
  rewrite (Hnone prefix Hprefix) in Hpresent. by destruct Hpresent.
Qed.

Lemma status_field_present_iff_probed_witness :
  is_Some (example_fields !! "AGREEMENT_Status_14389")
  /\ example_fields !! "AGREEMENT_Status_14390" = None.
Proof.
  assert (Hrun : assemble_certificate_fields example_runtime example_bundle
                   example_grouped "9999-005" VNone (VStr "Bob")
                 = Ok example_fields) by (by_evaluation).
  split.
  - apply (status_field_present_iff_probed _ _ _ _ _ _ _ "14389" Hrun);
      [by_computation|].
    exists "agreement_plan_fire_". split; [by_computation|].
    exists (VStr "Yes"). by_evaluation.
  - apply (status_field_present_iff_probed _ _ _ _ _ _ _ "14390" Hrun);
      [by_computation|].
    intros prefix Hprefix.
    repeat (apply elem_of_cons in Hprefix as [->|Hprefix];
            [by_evaluation|]).
    inversion Hprefix.
Defined.

(** ** Reading the counter *)

Section Counter.

Lemma digit_value_pretty_N_char (x : N) :
  (x < 10)%N -> Float.digit_value (pretty_N_char x) = Z.of_N x.
Proof.
  intros Hx.
  assert (x = 0 \/ x = 1 \/ x = 2 \/ x = 3 \/ x = 4 \/ x = 5 \/ x = 6
          \/ x = 7 \/ x = 8 \/ x = 9)%N as Hcases by lia.
  repeat (destruct Hcases as [->|Hcases]; [reflexivity|]).
  subst x. reflexivity.
Qed.

Lemma is_digit_pretty_N_char (x : N) : Str.is_digit (pretty_N_char x) = true.
Proof.
  unfold pretty_N_char.
  repeat (match goal with |- context [match ?p with _ => _ end] => destruct p end;
          try reflexivity).
Qed.

(** The digits that [pretty] puts in front of [s] are digits, and they
    denote the number printed. *)
Lemma pretty_N_go_digits (x : N) :
  (forall s, digits_only (pretty_N_go x s) = digits_only s)
  /\ exists k, 0 <= k /\ forall acc s,
       Float.digits_value acc (pretty_N_go x s)
       = Float.digits_value (acc * 10 ^ k + Z.of_N x) s.
Proof.
  induction (N.lt_wf_0 x) as [x _ IH].
  assert (x = 0 \/ 0 < x)%N as [->|Hpos] by lia.
  - split; [reflexivity|]. exists 0. split; [lia|].
    intros acc s. rewrite pretty_N_go_0. f_equal. simpl. lia.
  - destruct (IH (x `div` 10)%N) as [Hdigits (k & Hk & Hvalue)].
    { by apply N.div_lt. }
    split.
    + intros s. rewrite pretty_N_go_step, Hdigits by done.
      simpl. by rewrite is_digit_pretty_N_char.
    + exists (k + 1). split; [lia|]. intros acc s.
      rewrite pretty_N_go_step, Hvalue by done.
      cbn [Float.digits_value].
      rewrite digit_value_pretty_N_char by (apply N.mod_lt; lia).
      f_equal. rewrite Z.pow_add_r, Z.pow_1_r by lia.
      rewrite N2Z.inj_div, N2Z.inj_mod.
      change (Z.of_N 10) with 10.
      pose proof (Z.div_mod (Z.of_N x) 10). lia.
Qed.

Lemma pretty_N_go_non_empty (x : N) (s : string) :
  Str.non_empty s = true -> Str.non_empty (pretty_N_go x s) = true.
Proof.
  revert s. induction (N.lt_wf_0 x) as [x _ IH]; intros s Hs.
  assert (x = 0 \/ 0 < x)%N as [->|Hpos] by lia.
  - by rewrite pretty_N_go_0.
  - rewrite pretty_N_go_step by done. apply IH; [by apply N.div_lt | done].
Qed.

(** The decimal text of a natural number. *)
Lemma pretty_N_decimal (x : N) :
  digits_only (pretty x) = true
  /\ Str.non_empty (pretty x) = true
  /\ Float.digits_value 0 (pretty x) = Z.of_N x.
Proof.
  unfold pretty, pretty_N. case_decide as Hx; [subst x; by repeat split|].
  destruct (pretty_N_go_digits x) as [Hdigits (k & Hk & Hvalue)].
  split; [by rewrite Hdigits|]. split.
  - rewrite pretty_N_go_step by lia. by apply pretty_N_go_non_empty.
  - rewrite Hvalue. simpl. lia.
Qed.

Lemma pretty_Z_decimal (n : Z) :
  0 <= n ->
  digits_only (pretty n) = true
  /\ Str.non_empty (pretty n) = true
  /\ Float.digits_value 0 (pretty n) = n.
Proof.
  intros Hn. destruct n as [|p|p]; [by repeat split| |lia].
  exact (pretty_N_decimal (Npos p)).
Qed.

(** *** Text made of digits *)

Lemma digit_not_space (c : ascii) :
  Str.is_digit c = true -> Float.is_c_space c = false.
Proof. intros H. ascii_cases c H; reflexivity. Qed.

Lemma digit_not_upper (c : ascii) :
  Str.is_digit c = true -> Str.lower_char c = c.
Proof. intros H. ascii_cases c H; reflexivity. Qed.

Lemma digits_drop_spaces_end (s : string) :
  digits_only s = true -> Str.drop_while_end Float.is_c_space s = s.
Proof.
  induction s as [|c s IH]; simpl; [reflexivity|].
  intros [Hc Hs]%andb_true_iff. rewrite (IH Hs).
  destruct s; [|reflexivity]. by rewrite (digit_not_space c Hc).
Qed.

Lemma digits_strip (s : string) :
  digits_only s = true -> Float.strip_c_spaces s = s.
Proof.
  intros Hs. unfold Float.strip_c_spaces.
  assert (Hhead : Str.drop_while Float.is_c_space s = s).
  { destruct s as [|c s]; [reflexivity|]. simpl in *.
    apply andb_true_iff in Hs as [Hc _]. by rewrite (digit_not_space c Hc). }
  rewrite Hhead. by apply digits_drop_spaces_end.
Qed.

Lemma digits_remove_underscores (prev : ascii) (s : string) :
  Ascii.eqb prev "_" = false -> digits_only s = true ->
  Float.remove_underscores prev s = Some s.
Proof.
  revert prev. induction s as [|c s IH]; simpl; intros prev Hprev.
  - by rewrite Hprev.
  - intros [Hc Hs]%andb_true_iff.
    assert (Hne : Ascii.eqb c "_" = false) by (ascii_cases c Hc; reflexivity).
    rewrite Hne, Hprev. simpl. by rewrite (IH c Hne Hs).
Qed.

Lemma digits_take_while (s : string) :
  digits_only s = true -> Str.take_while Str.is_digit s = s.
Proof.
  induction s as [|c s IH]; simpl; [reflexivity|].
  intros [Hc Hs]%andb_true_iff. by rewrite Hc, (IH Hs).
Qed.

Lemma digits_drop_while (s : string) :
  digits_only s = true -> Str.drop_while Str.is_digit s = EmptyString.
Proof.
  induction s as [|c s IH]; simpl; [reflexivity|].
  intros [Hc Hs]%andb_true_iff. by rewrite Hc, (IH Hs).
Qed.

Lemma digits_lower (s : string) : digits_only s = true -> Str.lower s = s.
Proof.
  unfold Str.lower. induction s as [|c s IH]; simpl; [reflexivity|].
  intros [Hc Hs]%andb_true_iff. by rewrite (digit_not_upper c Hc), (IH Hs).
Qed.

Lemma append_empty_r (s : string) : s +:+ EmptyString = s.
Proof.
  induction s as [|c s IH]; [reflexivity|].
  change (String c s +:+ EmptyString) with (String c (s +:+ EmptyString)).
  by rewrite IH.
Qed.

(** [float] reads a run of digits as the nearest double of the number
    they denote. *)
Lemma parse_digits (s : string) :
  digits_only s = true -> Str.non_empty s = true ->
  Float.parse s = Some (Float.round false (Float.digits_value 0 s) 1).
Proof.
  intros Hdigits Hne. unfold Float.parse.
  rewrite (digits_strip s Hdigits).
  rewrite (digits_remove_underscores "000" s eq_refl Hdigits).
  destruct s as [|c s]; [discriminate Hne|].
  assert (Hsign : Float.split_sign (String c s) = (false, String c s)).
  { simpl in Hdigits. apply andb_true_iff in Hdigits as [Hc _].
    ascii_cases c Hc; reflexivity. }
  rewrite Hsign. rewrite (digits_lower _ Hdigits).
  assert (Hword : forall w, Str.is_digit (default "0"%char (head (list_ascii_of_string w))) = false ->
                            String.eqb (String c s) w = false).
  { intros [|c' w]; [reflexivity|]. simpl. intros Hc'.
    simpl in Hdigits. apply andb_true_iff in Hdigits as [Hc _].
    destruct (Ascii.eqb_spec c c') as [->|]; [congruence | reflexivity]. }
  rewrite !Hword by reflexivity. cbn [orb].
  rewrite (digits_take_while _ Hdigits), (digits_drop_while _ Hdigits).
  rewrite append_empty_r. cbn [Float.parse_exponent String.length].
  rewrite Z.sub_0_r. cbn [Z.leb Z.compare Z.pow Z.pow_pos].
  by rewrite Z.mul_1_r.
Qed.

(** *** Rounding *)

(** Integers below [2^53] are doubles: rounding and truncation give them
    back. *)
Lemma exponent_of_integer (n : Z) :
  0 < n < 2 ^ 53 -> -1074 <= Float.exponent n 1 <= 0.
Proof.
  intros Hn. unfold Float.exponent.
  assert (Hlog : Z.log2 n < 53) by (apply Z.log2_lt_pow2; lia).
  change (Z.log2 1) with 0. destruct (_ <? _); lia.
Qed.

Lemma scale_integer (n e : Z) :
  e <= 0 -> Float.scale n 1 e = (n * 2 ^ (- e), 1).
Proof.
  intros He. unfold Float.scale. destruct (Z.leb_spec 0 e); [|reflexivity].
  assert (e = 0) as -> by lia. f_equal. simpl. lia.
Qed.

Lemma round_to_int_exact (n : Z) :
  0 <= n < 2 ^ 53 ->
  exists m e, Float.round false n 1 = Finite m e
              /\ Float.to_int (Finite m e) = Ok n.
Proof.
  intros [Hlo Hhi]. unfold Float.round.
  destruct (Z.eqb_spec n 0) as [->|Hnz]; [by exists 0, 0|].
  pose proof (exponent_of_integer n ltac:(lia)) as He.
  set (e := Float.exponent n 1) in *. clearbody e.
  cbv zeta. rewrite (scale_integer n e) by lia. cbn [fst snd].
  rewrite Z.div_1_r, Z.mod_1_r. cbn [Z.mul Z.ltb Z.eqb Z.compare andb orb].
  assert (H971 : (971 <? e) = false) by (apply Z.ltb_ge; lia).
  assert (H971' : (e =? 971) = false) by (apply Z.eqb_neq; lia).
  rewrite H971, H971'. cbn [andb orb].
  eexists _, _. split; [reflexivity|]. unfold Float.to_int.
  destruct (Z.leb_spec 0 e).
  - assert (e = 0) as -> by lia. f_equal. simpl. lia.
  - f_equal. apply Z.quot_mul. apply Z.pow_nonzero; lia.
Qed.

(** [int(float(v))] on the integers below [2^53] and on their decimal
    text. *)
Lemma int_of_float_integer (n : Z) :
  0 <= n < 2 ^ 53 ->
  int_of_float (VInt n) = Ok n /\ int_of_float (VStr (pretty n)) = Ok n.
Proof.
  intros Hn. destruct (round_to_int_exact n Hn) as (m & e & Hround & Hint).
  unfold int_of_float, Float.of_val. split.
  - assert ((n <? 0) = false) as -> by (apply Z.ltb_ge; lia).
    rewrite Z.abs_eq by lia. rewrite Hround. exact Hint.
  - destruct (pretty_Z_decimal n) as (Hdigits & Hne & Hvalue); [lia|].
    rewrite (parse_digits _ Hdigits Hne), Hvalue, Hround. exact Hint.
Qed.

(** What the allocator makes of a stored counter. *)
Lemma counter_of_stored (bag : Props) (n : Z) :
  stored_counter bag n ->
  counter_of (get_or bag counter_key (VStr "0")) = Ok n.
Proof.
  unfold get_or, counter_of.
  intros [Habsent | Hnull | l Hl | b Hb | s Hs _ Hparse | s Hs Hparse
          | k Hk Hint | k Hk Htext | s m e k Hs Hparse Hint].
  - rewrite Habsent. by_evaluation.
  - rewrite Hnull. reflexivity.
  - rewrite Hl. reflexivity.
  - rewrite Hb. by destruct b.
  - rewrite Hs. unfold int_of_float, Float.of_val. simpl.
    rewrite Hparse. reflexivity.
  - rewrite Hs. unfold int_of_float, Float.of_val. simpl.
    rewrite Hparse. reflexivity.
  - rewrite Hint. simpl. by rewrite (proj1 (int_of_float_integer k Hk)).
  - rewrite Htext. simpl. by rewrite (proj2 (int_of_float_integer k Hk)).
  - rewrite Hs. unfold int_of_float, Float.of_val. simpl.
    rewrite Hparse. simpl. simpl in Hint. by rewrite Hint.
Qed.

Lemma string_length_app (a b : string) :
  String.length (a +:+ b) = (String.length a + String.length b)%nat.
Proof.
  induction a as [|c a IH]; [reflexivity|].
  change (String c a +:+ b) with (String c (a +:+ b)). simpl. by rewrite IH.
Qed.

Lemma string_of_list_ascii_length (l : list ascii) :
  String.length (string_of_list_ascii l) = length l.
Proof. induction l as [|c l IH]; simpl; [reflexivity | by rewrite IH]. Qed.

(** [f"{m:03d}"] of a number that is not negative: at least three
    characters, zeros in front of the decimal digits. *)
Lemma format_03d_zero_padded (m : Z) :
  0 <= m ->
  Str.format_03d m = Str.zero_pad 3 m
  /\ (3 <= String.length (Str.format_03d m))%nat.
Proof.
  intros Hm. unfold Str.format_03d, Str.zero_pad.
  assert ((m <? 0) = false) as -> by (apply Z.ltb_ge; lia).
  change (String.length EmptyString + ?k)%nat with k.
  change (EmptyString +:+ ?x) with x.
  split; [reflexivity|].
  rewrite string_length_app, string_of_list_ascii_length, repeat_length.
  lia.
Qed.

(** The effect of the allocator on a system that is served, once the
    counter is read as [k]. *)
Lemma generate_certificate_number_counted (eng : Engine)
  (site_id system_id : string) (w : World) (bag : Props) (k : Z) :
  crm_objects w !! object_url (SYSTEM_TYPE_ID eng) system_id = Some bag ->
  counter_of (get_or bag counter_key (VStr "0")) = Ok k ->
  generate_certificate_number eng site_id system_id w
  = (Ok (site_id +:+ "-" +:+ Str.format_03d (k + 1)),
     {| crm_objects :=
          <[object_url (SYSTEM_TYPE_ID eng) system_id
            := <[counter_key := VInt (k + 1)]> bag]> (crm_objects w);
        crm_associations := crm_associations w;
        crm_devices := crm_devices w;
        requests :=
          requests w
          ++ [GET (object_url (SYSTEM_TYPE_ID eng) system_id);
              PATCH (object_url (SYSTEM_TYPE_ID eng) system_id)
                {[ counter_key := VInt (k + 1) ]}] |}).
Proof.
  intros Hsystem Hcounter.
  unfold generate_certificate_number, bind, requests_get.
  rewrite Hsystem. cbn [status_code json Z.eqb Pos.eqb negb].
  fold counter_key. rewrite Hcounter.
  unfold lift, requests_patch, log. cbn [crm_objects].
  rewrite Hsystem.
  cbn [status_code json Z.eqb Pos.eqb negb orb ret].
  unfold set_objects. cbn [crm_objects crm_associations crm_devices requests].
  rewrite <- insert_union_singleton_l, <- app_assoc. reflexivity.
Qed.

Lemma digits_value_zeros (k : nat) (s : string) :
  Float.digits_value 0 (string_of_list_ascii (repeat "0"%char k) +:+ s)
  = Float.digits_value 0 s.
Proof. induction k as [|k IH]; [reflexivity | exact IH]. Qed.

(** The number part of a certificate number reads back as the counter. *)
Lemma format_03d_value (m : Z) :
  0 <= m -> Float.digits_value 0 (Str.format_03d m) = m.
Proof.
  intros Hm. rewrite (proj1 (format_03d_zero_padded m Hm)).
  unfold Str.zero_pad. rewrite digits_value_zeros.
  destruct (pretty_N_decimal (Z.abs_N m)) as (_ & _ & ->).
  rewrite N2Z.inj_abs_N. lia.
Qed.

(** *** Integers that are not doubles *)

(** Between [2^53] and [2^54] the doubles are the even integers: an odd
    one is rounded to a neighbour, ties to even. *)
Lemma round_odd_above_2_53 (n : Z) :
  2 ^ 53 < n < 2 ^ 54 -> Z.odd n = true ->
  Float.round false n 1
  = Finite (if Z.odd (n / 2) then n / 2 + 1 else n / 2) 1.
Proof.
  intros Hn Hodd.
  assert (Hexp : Float.exponent n 1 = 1).
  { unfold Float.exponent.
    assert (Hlog : Z.log2 n = 53) by (apply Z.log2_unique; lia).
    rewrite Hlog. change (53 - Z.log2 1 - 53) with 0.
    change (Float.scale n 1 0) with (n, 1). cbn [fst snd].
    rewrite Z.div_1_r.
    assert ((n <? 2 ^ 53) = false) as -> by (apply Z.ltb_ge; lia).
    reflexivity. }
  unfold Float.round.
  assert ((n =? 0) = false) as -> by (apply Z.eqb_neq; lia).
  rewrite Hexp. cbv zeta. change (Float.scale n 1 1) with (n, 2).
  cbn [fst snd]. rewrite Zmod_odd, Hodd. reflexivity.
Qed.

Lemma counter_of_odd_above_2_53 (n : Z) :
  2 ^ 53 < n < 2 ^ 54 -> Z.odd n = true ->
  counter_of (VInt n) = Ok (read_as_double n)
  /\ counter_of (VStr (pretty n)) = Ok (read_as_double n).
Proof.
  intros Hn Hodd. pose proof (round_odd_above_2_53 n Hn Hodd) as Hround.
  assert (Hint : Float.to_int
                   (Finite (if Z.odd (n / 2) then n / 2 + 1 else n / 2) 1)
                 = Ok (read_as_double n)).
  { unfold Float.to_int, read_as_double. cbn [Z.leb Z.compare].
    change (2 ^ 1) with 2. f_equal.
    assert (Hmod : n mod 2 = 1) by (by rewrite Zmod_odd, Hodd).
    pose proof (Z.div_mod n 2 ltac:(lia)) as Hdiv.
    destruct (Z.odd (n / 2)); lia. }
  unfold counter_of, int_of_float, Float.of_val. split.
  - assert ((n <? 0) = false) as -> by (apply Z.ltb_ge; lia).
    rewrite Z.abs_eq by lia. rewrite Hround. cbn [rbind]. by rewrite Hint.
  - destruct (pretty_Z_decimal n) as (Hdigits & Hne & Hvalue); [lia|].
    rewrite (parse_digits _ Hdigits Hne), Hvalue, Hround. cbn [rbind].
    by rewrite Hint.
Qed.

End Counter.

(** C3.  The allocator does not increment every counter.  The counter is
    read through [float]: for a system that is served and whose counter is
    an odd integer [n] between [2^53] and [2^54], stored as a number or as
    its decimal text, the allocator reads the even neighbour of [n] that
    [float] rounds to, so the number it returns and stores is [n] itself or
    [n + 2], never [n + 1], and the certificate number is not the one of
    [n + 1]. *)
Theorem allocation_misses_increment (eng : Engine)
  (site_id system_id : string) (w : World) (bag : Props) (n : Z) :
  let url := object_url (SYSTEM_TYPE_ID eng) system_id in
  let m := read_as_double n + 1 in
  crm_objects w !! url = Some bag ->
  bag !! counter_key = Some (VInt n)
  \/ bag !! counter_key = Some (VStr (pretty n)) ->
  2 ^ 53 < n < 2 ^ 54 -> Z.odd n = true ->
  generate_certificate_number eng site_id system_id w
  = (Ok (site_id +:+ "-" +:+ Str.format_03d m),
     {| crm_objects := <[url := <[counter_key := VInt m]> bag]> (crm_objects w);
        crm_associations := crm_associations w;
        crm_devices := crm_devices w;
        requests :=
          requests w ++ [GET url; PATCH url {[ counter_key := VInt m ]}] |})
  /\ (m = n \/ m = n + 2)
  /\ site_id +:+ "-" +:+ Str.format_03d m
     <> site_id +:+ "-" +:+ Str.format_03d (n + 1).
Proof.
  intros url m Hsystem Hcounter Hn Hodd. subst m.
  destruct (counter_of_odd_above_2_53 n Hn Hodd) as [Hint Htext].
  assert (Hread : counter_of (get_or bag counter_key (VStr "0"))
                  = Ok (read_as_double n)).
  { unfold get_or. by destruct Hcounter as [-> | ->]. }
  assert (Hm : read_as_double n + 1 = n \/ read_as_double n + 1 = n + 2).
  { unfold read_as_double. destruct (Z.odd (n / 2)); lia. }
  split; [exact (generate_certificate_number_counted eng site_id system_id w
                   bag _ Hsystem Hread)|].
  split; [exact Hm|].
  intros Heq. apply (inj (String.app site_id)) in Heq.
  apply (inj (String.app "-")) in Heq.
  apply (f_equal (Float.digits_value 0)) in Heq.
  rewrite !format_03d_value in Heq by lia. lia.
Qed.

Lemma allocation_misses_increment_witness :
  fst (generate_certificate_number example_engine "9999" "X"
         (world_with_counter (VStr "9007199254740993")))
  = Ok "9999-9007199254740993"
  /\ counter_after
       (generate_certificate_number example_engine "9999" "X"
          (world_with_counter (VStr "9007199254740993")))
     = Some (VInt 9007199254740993).
Proof.
  destruct (allocation_misses_increment example_engine "9999" "X"
              (world_with_counter (VStr "9007199254740993"))
              (system_bag (VStr "9007199254740993")) 9007199254740993)
    as (Hrun & _ & _).
  - by_evaluation.
  - right. by_evaluation.
  - lia.
  - reflexivity.
  - rewrite Hrun. split; by_evaluation.
Defined.

(** * Further properties of the engine *)

(** ** Value transformer: phrases, plan labels, time stamps *)

Section TransformerMore.

Local Arguments String.append !_ _ / : simpl nomatch.

(** X1.  The phrase for a pair of paths does not depend on which path is
    the primary one nor on what follows the first two elements, and it is
    one of three texts. *)
Theorem comm_path_phrase_symmetric (rt : Runtime) (v0 v1 : PyVal)
  (rest rest' : list PyVal) :
  transform_value rt (VList (v0 :: v1 :: rest)) "COMM_PATH_PHRASE"
  = transform_value rt (VList (v1 :: v0 :: rest')) "COMM_PATH_PHRASE"
  /\ In (transform_value rt (VList (v0 :: v1 :: rest)) "COMM_PATH_PHRASE")
       [VStr EmptyString; VStr "Redundant Wireless"; VStr "GSM Only"].
Proof.
  rewrite !comm_path_phrase_rule. cbv zeta.
  destruct (Str.non_empty _), (Str.non_empty _), (is_wireless _),
    (is_wireless _); simpl; tauto.
Qed.

Lemma mem_cons (c a : ascii) (s : string) :
  Str.mem c (String a s) = Ascii.eqb c a || Str.mem c s.
Proof.
  unfold Str.mem. cbn [Str.contains String.prefix].
  destruct (ascii_dec c a) as [->|Hne].
  - rewrite Ascii.eqb_refl. by destruct s.
  - by apply Ascii.eqb_neq in Hne as ->.
Qed.

Lemma bracket_number_at_other (a : ascii) (s : string) :
  Ascii.eqb "[" a = false -> Re.bracket_number_at (String a s) = None.
Proof.
  intros H. destruct a as [[] [] [] [] [] [] [] []];
    try reflexivity; discriminate H.
Qed.

Lemma search_bracket_number_unfold (s : string) :
  Re.search_bracket_number s
  = match Re.bracket_number_at s with
    | Some (digits, _) => Some digits
    | None =>
        match s with
        | EmptyString => None
        | String _ s' => Re.search_bracket_number s'
        end
    end.
Proof. by destruct s. Qed.

Lemma search_bracket_number_skip (pre rest : string) :
  Str.mem "[" pre = false ->
  Re.search_bracket_number (pre +:+ rest) = Re.search_bracket_number rest.
Proof.
  induction pre as [|a pre IH]; [reflexivity|].
  rewrite mem_cons. intros [Ha Hpre]%orb_false_iff.
  change (String a pre +:+ rest) with (String a (pre +:+ rest)).
  rewrite search_bracket_number_unfold, (bracket_number_at_other a _ Ha).
  by apply IH.
Qed.

Lemma digits_then_other (d : string) (c : ascii) (s : string) :
  digits_only d = true -> Str.is_digit c = false ->
  Str.take_while Str.is_digit (d +:+ String c s) = d
  /\ Str.drop_while Str.is_digit (d +:+ String c s) = String c s.
Proof.
  intros Hd Hc. induction d as [|a d IH]; simpl.
  - by rewrite Hc.
  - simpl in Hd. apply andb_true_iff in Hd as [Ha Hd]. rewrite Ha.
    destruct (IH Hd) as [-> ->]. by split.
Qed.

Lemma bracket_number_at_hit (d post : string) :
  digits_only d = true -> Str.non_empty d = true ->
  Re.bracket_number_at ("[" +:+ d +:+ "]" +:+ post) = Some (d, post).
Proof.
  intros Hd Hne. simpl.
  destruct (digits_then_other d "]" post Hd eq_refl) as [-> ->].
  by destruct d.
Qed.

Lemma bracket_number_at_digits (s d tail : string) :
  Re.bracket_number_at s = Some (d, tail) ->
  digits_only d = true /\ Str.non_empty d = true.
Proof.
  unfold Re.bracket_number_at.
  destruct s as [|a rest]; [discriminate|].
  destruct a as [[] [] [] [] [] [] [] []]; try discriminate.
  assert (Hdigits : forall r, digits_only (Str.take_while Str.is_digit r) = true).
  { induction r as [|c r IH]; simpl; [reflexivity|].
    destruct (Str.is_digit c) eqn:Hc; simpl; [by rewrite Hc|reflexivity]. }
  specialize (Hdigits rest).
  destruct (Str.take_while Str.is_digit rest) as [|c ds]; [discriminate|].
  destruct (Str.drop_while Str.is_digit rest) as [|b tl]; [discriminate|].
  destruct b as [[] [] [] [] [] [] [] []]; try discriminate.
  intros [= <- <-]. by split.
Qed.

Lemma search_bracket_number_digits (s d : string) :
  Re.search_bracket_number s = Some d ->
  digits_only d = true /\ Str.non_empty d = true.
Proof.
  induction s as [|a s IH]; rewrite search_bracket_number_unfold.
  - destruct (Re.bracket_number_at EmptyString) as [[d' tail]|] eqn:Hat;
      [discriminate Hat | discriminate].
  - destruct (Re.bracket_number_at (String a s)) as [[d' tail]|] eqn:Hat.
    + intros [= <-]. eapply bracket_number_at_digits, Hat.
    + exact IH.
Qed.

(** X2.  On a value whose text is ASCII, EXTRACT_ITEM_NUMBER returns a
    text of the digits [0-9] (empty when there is no bracketed number);
    and it reads back the first bracketed number: from [pre[d]post], with
    [d] a run of the digits [0-9] and no bracket in [pre], it returns
    [d]. *)
Theorem extract_item_number_reads_bracket (rt : Runtime) :
  (forall v, Str.is_ascii (py_str v) = true ->
             exists d, transform_value rt v "EXTRACT_ITEM_NUMBER" = VStr d
                       /\ digits_only d = true)
  /\ (forall pre d post,
        Str.mem "[" pre = false ->
        digits_only d = true -> Str.non_empty d = true ->
        transform_value rt (VStr (pre +:+ "[" +:+ d +:+ "]" +:+ post))
          "EXTRACT_ITEM_NUMBER" = VStr d).
Proof.
  split.
  - intros v _. destruct v; try (by exists EmptyString);
      unfold transform_value; cbn [String.eqb Ascii.eqb Bool.eqb];
      (destruct (Re.search_bracket_number _) as [d|] eqn:Hs;
       [exists d; split; [reflexivity|];
        by apply search_bracket_number_digits in Hs as [? _]
       | by exists EmptyString]).
  - intros pre d post Hpre Hd Hne.
    unfold transform_value. cbn [String.eqb Ascii.eqb Bool.eqb py_str].
    rewrite (search_bracket_number_skip pre _ Hpre).
    rewrite search_bracket_number_unfold.
    by rewrite (bracket_number_at_hit d post Hd Hne).
Qed.

Lemma extract_item_number_reads_bracket_witness :
  transform_value example_runtime (VStr "Gold Plan [123] (2024)")
    "EXTRACT_ITEM_NUMBER" = VStr "123"
  /\ exists d, transform_value example_runtime (VStr "Plan [7a] [42]")
                 "EXTRACT_ITEM_NUMBER" = VStr d
               /\ digits_only d = true.
Proof.
  split.
  - exact (proj2 (extract_item_number_reads_bracket example_runtime)
             "Gold Plan " "123" " (2024)" eq_refl eq_refl eq_refl).
  - exact (proj1 (extract_item_number_reads_bracket example_runtime)
             (VStr "Plan [7a] [42]") eq_refl).
Defined.

(** *** Stripping *)

Lemma drop_while_end_empty (p : ascii -> bool) (s : string) :
  Str.drop_while_end p s = EmptyString <-> Str.drop_while p s = EmptyString.
Proof.
  induction s as [|a s IH]; simpl; [tauto|].
  destruct (Str.drop_while_end p s) eqn:Hend; destruct (p a); split;
    try discriminate; try tauto.
  intros H. apply IH in H. discriminate H.
Qed.

Lemma drop_while_drop_while_end (p : ascii -> bool) (s : string) :
  Str.drop_while p (Str.drop_while_end p s)
  = Str.drop_while_end p (Str.drop_while p s).
Proof.
  induction s as [|a s IH]; [reflexivity|].
  cbn [Str.drop_while_end Str.drop_while].
  destruct (p a) eqn:Ha.
  - destruct (Str.drop_while_end p s) as [|b r] eqn:Hend.
    + apply drop_while_end_empty in Hend. rewrite Hend. reflexivity.
    + cbn [Str.drop_while]. rewrite Ha. exact IH.
  - cbn [Str.drop_while_end].
    destruct (Str.drop_while_end p s); cbn [Str.drop_while]; by rewrite Ha.
Qed.

Lemma drop_while_end_idempotent (p : ascii -> bool) (s : string) :
  Str.drop_while_end p (Str.drop_while_end p s) = Str.drop_while_end p s.
Proof.
  induction s as [|a s IH]; [reflexivity|]. cbn [Str.drop_while_end].
  destruct (Str.drop_while_end p s) as [|b r] eqn:Hend.
  - destruct (p a) eqn:Ha; [reflexivity|]. simpl. by rewrite Ha.
  - cbn [Str.drop_while_end] in *. by rewrite IH.
Qed.

Lemma strip_drop_while_end (s : string) :
  Str.strip (Str.drop_while_end Str.is_space s) = Str.strip s.
Proof.
  unfold Str.strip.
  by rewrite drop_while_drop_while_end, drop_while_end_idempotent.
Qed.

(** *** The bracketed suffix of a plan label *)

Lemma mem_drop_while (c : ascii) (p : ascii -> bool) (s : string) :
  Str.mem c s = false -> Str.mem c (Str.drop_while p s) = false.
Proof.
  induction s as [|a s IH]; [done|]. intros H. simpl.
  destruct (p a); [|exact H].
  rewrite mem_cons in H. apply orb_false_iff in H as [_ H]. by apply IH.
Qed.

Lemma drop_while_app_spaces (n hit : string) :
  Str.drop_while Str.is_space (n +:+ hit)
  = match Str.drop_while Str.is_space n with
    | EmptyString => Str.drop_while Str.is_space hit
    | r => r +:+ hit
    end.
Proof.
  induction n as [|a n IH]; [reflexivity|]. simpl.
  destruct (Str.is_space a); [exact IH | reflexivity].
Qed.

Lemma no_newline_rest (post : string) :
  Str.mem Str.newline post = false ->
  Str.drop_while Re.not_newline post = EmptyString.
Proof.
  induction post as [|a post IH]; [reflexivity|].
  rewrite mem_cons. intros [Ha Hpost]%orb_false_iff. simpl.
  unfold Re.not_newline at 1. rewrite Ascii.eqb_sym, Ha. simpl. by apply IH.
Qed.

(** The bracketed number matches where nothing but white space is in
    front of it. *)
Lemma bracket_suffix_at_label (n d post : string) :
  Str.mem "[" n = false ->
  digits_only d = true -> Str.non_empty d = true ->
  Str.mem Str.newline post = false ->
  Re.bracket_suffix_at (n +:+ "[" +:+ d +:+ "]" +:+ post)
  = match Str.drop_while Str.is_space n with
    | EmptyString => Some EmptyString
    | _ => None
    end.
Proof.
  intros Hn Hd Hne Hpost. unfold Re.bracket_suffix_at.
  rewrite drop_while_app_spaces.
  pose proof (mem_drop_while "[" Str.is_space n Hn) as Hrest.
  destruct (Str.drop_while Str.is_space n) as [|a r].
  - change (Str.drop_while Str.is_space ("[" +:+ d +:+ "]" +:+ post))
      with ("[" +:+ d +:+ "]" +:+ post).
    rewrite (bracket_number_at_hit d post Hd Hne).
    by rewrite (no_newline_rest post Hpost).
  - rewrite mem_cons in Hrest. apply orb_false_iff in Hrest as [Ha _].
    change (String a r +:+ ?t) with (String a (r +:+ t)).
    by rewrite (bracket_number_at_other a _ Ha).
Qed.

Lemma remove_bracket_suffix_unfold (s : string) :
  Re.remove_bracket_suffix s
  = match Re.bracket_suffix_at s with
    | Some rest => rest
    | None =>
        match s with
        | EmptyString => EmptyString
        | String c s' => String c (Re.remove_bracket_suffix s')
        end
    end.
Proof. by destruct s. Qed.

Lemma remove_bracket_suffix_label (n d post : string) :
  Str.mem "[" n = false ->
  digits_only d = true -> Str.non_empty d = true ->
  Str.mem Str.newline post = false ->
  Re.remove_bracket_suffix (n +:+ "[" +:+ d +:+ "]" +:+ post)
  = Str.drop_while_end Str.is_space n.
Proof.
  intros Hn Hd Hne Hpost. induction n as [|a n IH].
  - rewrite remove_bracket_suffix_unfold.
    by rewrite (bracket_suffix_at_label EmptyString d post).
  - rewrite remove_bracket_suffix_unfold.
    rewrite (bracket_suffix_at_label (String a n) d post Hn Hd Hne Hpost).
    destruct (Str.drop_while Str.is_space (String a n)) as [|b r] eqn:Hdrop.
    + symmetry. by apply drop_while_end_empty.
    + change (String a n +:+ ?t) with (String a (n +:+ t)). cbv iota.
      rewrite mem_cons in Hn. apply orb_false_iff in Hn as [_ Hn].
      rewrite (IH Hn). cbn [Str.drop_while_end].
      destruct (Str.drop_while_end Str.is_space n) eqn:Hend; [|reflexivity].
      apply drop_while_end_empty in Hend. simpl in Hdrop.
      destruct (Str.is_space a); [congruence | reflexivity].
Qed.

(** X3.  EXTRACT_NAME gives back the name of a plan label: from
    [name[d]rest], with [name] an ASCII text without a bracket, [d] a run
    of the digits [0-9] and no line break in [rest], it returns [name]
    without the white space around it. *)
Theorem extract_name_drops_bracket (rt : Runtime) (name d post : string) :
  Str.is_ascii name = true ->
  Str.mem "[" name = false ->
  digits_only d = true -> Str.non_empty d = true ->
  Str.mem Str.newline post = false ->
  transform_value rt (VStr (name +:+ "[" +:+ d +:+ "]" +:+ post))
    "EXTRACT_NAME" = VStr (Str.strip name).
Proof.
  intros _ Hname Hd Hne Hpost.
  unfold transform_value. cbn [String.eqb Ascii.eqb Bool.eqb py_str].
  rewrite (remove_bracket_suffix_label name d post Hname Hd Hne Hpost).
  by rewrite strip_drop_while_end.
Qed.

Lemma extract_name_drops_bracket_witness :
  transform_value example_runtime (VStr " Gold Plan  [123] (2024)")
    "EXTRACT_NAME" = VStr "Gold Plan".
Proof.
  exact (extract_name_drops_bracket example_runtime " Gold Plan  " "123"
           " (2024)" eq_refl eq_refl eq_refl eq_refl eq_refl).
Defined.

(** *** The two time stamps *)

Lemma lower_lstrip_zero (s : string) :
  Str.lower (Str.lstrip_char "0" s) = Str.lstrip_char "0" (Str.lower s).
Proof.
  unfold Str.lower, Str.lstrip_char.
  induction s as [|a s IH]; [reflexivity|].
  cbn [Str.map Str.drop_while].
  assert (Ha : Ascii.eqb "0" (Str.lower_char a) = Ascii.eqb "0" a)
    by (destruct a as [[] [] [] [] [] [] [] []]; reflexivity).
  rewrite Ha. destruct (Ascii.eqb "0" a); [exact IH | reflexivity].
Qed.

Lemma suffixes_agree (d : Z) :
  1 <= d <= 31 -> timestamp_format_suffix d = timestamp_suffix d.
Proof.
  intros Hd.
  assert (H : In d (List.map Z.of_nat (seq 1 31))).
  { apply in_map_iff. exists (Z.to_nat d). split; [lia|]. apply in_seq. lia. }
  simpl in H.
  repeat (destruct H as [<-|H]; [reflexivity|]). destruct H.
Qed.

(** X4.  The TIMESTAMP_FORMAT branch and the assembler write a clock
    reading the same way: on any value but [None], and for a day of the
    month, the branch returns the assembler's time stamp of the local
    clock. *)
Theorem timestamp_format_matches_assembler (rt : Runtime) (v : PyVal) :
  v <> VNone ->
  1 <= day (now_naive rt) <= 31 ->
  transform_value rt v "TIMESTAMP_FORMAT"
  = VStr (timestamp_str (now_naive rt)).
Proof.
  intros Hv Hday. unfold transform_value, timestamp_str.
  cbn [String.eqb Ascii.eqb Bool.eqb].
  rewrite (suffixes_agree _ Hday), lower_lstrip_zero.
  by destruct v.
Qed.

Lemma timestamp_format_matches_assembler_witness :
  transform_value example_runtime (VStr "now") "TIMESTAMP_FORMAT"
  = VStr "November 21st, 2025 at 4:05pm".
Proof.
  rewrite (timestamp_format_matches_assembler example_runtime (VStr "now"));
    [reflexivity | discriminate | simpl; lia].
Defined.

(** *** Upper case *)

Lemma upper_idempotent (s : string) : Str.upper (Str.upper s) = Str.upper s.
Proof.
  unfold Str.upper. induction s as [|a s IH]; [reflexivity|]. simpl.
  rewrite IH. f_equal.
  destruct a as [[] [] [] [] [] [] [] []]; reflexivity.
Qed.

Lemma upper_length (s : string) :
  String.length (Str.upper s) = String.length s.
Proof.
  unfold Str.upper. induction s as [|a s IH]; [reflexivity|]. simpl.
  by rewrite IH.
Qed.

Lemma upper_is_ascii (s : string) :
  Str.is_ascii s = true -> Str.is_ascii (Str.upper s) = true.
Proof.
  unfold Str.upper. induction s as [|a s IH]; [reflexivity|]. simpl.
  intros [Ha Hs]%andb_true_iff. rewrite (IH Hs), andb_true_r.
  ascii_cases a Ha; reflexivity.
Qed.

(** X5.  On a value whose text is ASCII, UPPER normalises: its result is
    an ASCII text that UPPER leaves as it is, so applying it twice is
    applying it once, and on a text it keeps the length. *)
Theorem upper_is_idempotent (rt : Runtime) (v : PyVal) :
  Str.is_ascii (py_str v) = true ->
  transform_value rt (transform_value rt v "UPPER") "UPPER"
  = transform_value rt v "UPPER"
  /\ (exists t, transform_value rt v "UPPER" = VStr t
                /\ Str.is_ascii t = true)
  /\ (forall s, v = VStr s ->
      exists t, transform_value rt v "UPPER" = VStr t
                /\ String.length t = String.length s).
Proof.
  intros Hascii. split; [|split].
  - destruct v; unfold transform_value;
      cbn [String.eqb Ascii.eqb Bool.eqb py_str];
      try reflexivity; by rewrite upper_idempotent.
  - destruct v; try (by exists EmptyString);
      unfold transform_value; cbn [String.eqb Ascii.eqb Bool.eqb];
      (eexists; split; [reflexivity|]; by apply upper_is_ascii).
  - intros s ->. eexists. split; [reflexivity|]. apply upper_length.
Qed.

Lemma upper_is_idempotent_witness :
  transform_value example_runtime
    (transform_value example_runtime (VStr "v6e 2e9") "UPPER") "UPPER"
  = transform_value example_runtime (VStr "v6e 2e9") "UPPER"
  /\ transform_value example_runtime (VStr "v6e 2e9") "UPPER"
     = VStr "V6E 2E9".
Proof.
  split; [|reflexivity].
  exact (proj1 (upper_is_idempotent example_runtime (VStr "v6e 2e9")
                  eq_refl)).
Defined.

End TransformerMore.

(** ** Device classifier: what the lists hold *)

Section ClassifierMore.

Implicit Types (g : Grouped) (d : Device) (c : string).

Lemma list_filter_sublist {A} (f : A -> bool) (l : list A) :
  List.filter f l `sublist_of` l.
Proof.
  induction l as [|x l IH]; simpl; [constructor|].
  destruct (f x); by constructor.
Qed.

(** X6.  The classifier neither repeats nor invents a device: no device
    is in the lists of two categories, and the list of a category is a
    sub-multiset of the devices given. *)
Theorem group_devices_partitions (ds : list Device) (g : Grouped) :
  group_devices ds = Ok g ->
  (forall c c' d, d ∈ members c g -> d ∈ members c' g -> c = c')
  /\ (forall c, members c g ⊆+ ds).
Proof.
  intros Hg. split.
  - intros c c' d Hc Hc'.
    apply (group_devices_elem_of ds g c d Hg) in Hc as [_ Hc].
    apply (group_devices_elem_of ds g c' d Hg) in Hc' as [_ Hc'].
    congruence.
  - intros c. destruct (group_devices_members ds g Hg) as [_ Hm].
    rewrite (Hm c). apply sublist_submseteq, list_filter_sublist.
Qed.

Lemma group_devices_partitions_witness :
  members "Perimeter" two_doors_grouped ⊆+ [front_door; door_a].
Proof.
  apply (group_devices_partitions [front_door; door_a] two_doors_grouped).
  by_evaluation.
Defined.

(** *** Order within a category *)

Lemma le_total (a b : string) : Str.le a b = false -> Str.le b a = true.
Proof.
  unfold Str.le. rewrite (String.compare_antisym b a).
  by destruct (String.compare a b).
Qed.

Lemma insert_keyed_HdRel (x y : string * Device) l :
  keyed_le y x -> HdRel keyed_le y l -> HdRel keyed_le y (insert_keyed x l).
Proof.
  intros Hyx Hhd. destruct l as [|z l]; simpl; [by constructor|].
  destruct (Str.le x.1 z.1); constructor; [exact Hyx|]. by inversion Hhd.
Qed.

Lemma insert_keyed_Sorted (x : string * Device) l :
  Sorted keyed_le l -> Sorted keyed_le (insert_keyed x l).
Proof.
  induction 1 as [|y l Hsorted IH Hhd]; simpl; [by repeat constructor|].
  destruct (Str.le x.1 y.1) eqn:Hle.
  - constructor; [by constructor|]. by constructor.
  - constructor; [exact IH|].
    apply insert_keyed_HdRel; [|exact Hhd]. by apply le_total.
Qed.

Lemma sort_keyed_Sorted l : Sorted keyed_le (sort_keyed l).
Proof.
  unfold sort_keyed. induction l as [|x l IH]; simpl; [constructor|].
  by apply insert_keyed_Sorted.
Qed.

Lemma with_keys_keys (l : list Device) keyed :
  with_keys l = Ok keyed ->
  Forall (fun kd : string * Device => sort_key kd.2 = Ok kd.1) keyed.
Proof.
  revert keyed. induction l as [|d l IH]; simpl; intros keyed.
  - intros [= <-]. constructor.
  - destruct (sort_key d) as [k|] eqn:Hk; simpl; [|discriminate].
    destruct (with_keys l) as [rest|]; simpl; [|discriminate].
    intros [= <-]. constructor; [exact Hk | by apply IH].
Qed.

Lemma Sorted_devices (l : list (string * Device)) :
  Forall (fun kd : string * Device => sort_key kd.2 = Ok kd.1) l ->
  Sorted keyed_le l -> Sorted key_le (List.map snd l).
Proof.
  intros Hkeys. induction 1 as [|x l Hsorted IH Hhd]; simpl; [constructor|].
  apply Forall_cons in Hkeys as [Hx Hkeys].
  constructor; [by apply IH|].
  destruct Hhd as [|y l Hxy]; simpl; constructor.
  apply Forall_cons in Hkeys as [Hy _]. by exists x.1, y.1.
Qed.

Lemma sorted_by_description_Sorted (l l' : list Device) :
  sorted_by_description l = Ok l' -> Sorted key_le l'.
Proof.
  unfold sorted_by_description.
  destruct (with_keys l) as [keyed|] eqn:Hkeyed; simpl; [|discriminate].
  intros [= <-]. apply Sorted_devices; [|apply sort_keyed_Sorted].
  rewrite sort_keyed_Permutation. exact (with_keys_keys l keyed Hkeyed).
Qed.

Lemma sort_categories_Sorted g g' c :
  sort_categories g = Ok g' -> Sorted key_le (members c g').
Proof.
  unfold members.
  revert g'. induction g as [|[k l] g IH]; simpl; intros g'.
  - intros [= <-]. constructor.
  - destruct (sorted_by_description l) as [l'|] eqn:Hsort; simpl;
      [|discriminate].
    destruct (sort_categories g) as [rest|]; simpl; [|discriminate].
    intros [= <-]. simpl. destruct (String.eqb c k); simpl.
    + by apply sorted_by_description_Sorted in Hsort.
    + by apply IH.
Qed.

(** X7.  For devices whose descriptions are ASCII text, the devices of
    every category are in ascending order of their sort key: the
    description without its leading number, in lower case. *)
Theorem group_devices_sorted (ds : list Device) (g : Grouped) (c : string) :
  Forall ascii_description ds ->
  group_devices ds = Ok g -> Sorted key_le (members c g).
Proof.
  intros _. unfold group_devices.
  destruct (group_loop empty_grouped ds) as [g0|]; simpl; [|discriminate].
  apply sort_categories_Sorted.
Qed.

Lemma group_devices_sorted_witness :
  members "Perimeter" two_doors_grouped = [door_a; front_door]
  /\ Sorted key_le (members "Perimeter" two_doors_grouped).
Proof.
  split; [by_evaluation|].
  apply (group_devices_sorted [front_door; door_a]); [|by_evaluation].
  repeat constructor; intros s Hs; vm_compute in Hs; injection Hs as <-;
    reflexivity.
Defined.

(** *** Categories without a rule *)

Lemma subtype_map_rule_categories :
  Forall (fun p : string * string => p.2 ∈ rule_categories) subtype_map.
Proof. by_computation. Qed.

Lemma type_rules_rule_categories :
  Forall (fun c : string => c ∈ rule_categories) (List.map fst type_rules).
Proof. by_computation. Qed.

Lemma category_of_rule_categories d c :
  category_of d = Ok (Some c) -> c ∈ rule_categories.
Proof.
  unfold category_of.
  destruct (assoc (subtype_code d) subtype_map) as [c'|] eqn:Hsub.
  - intros [= <-]. apply assoc_Some_elem in Hsub.
    exact (proj1 (Forall_forall _ _) subtype_map_rule_categories _ Hsub).
  - destruct (rule_category _ _ _) as [[c'|]|] eqn:Hrule; simpl;
      [| |discriminate].
    + intros [= <-]. apply rule_category_in_rules in Hrule.
      exact (proj1 (Forall_forall _ _) type_rules_rule_categories _ Hrule).
    + destruct (String.eqb _ "48"); [|discriminate].
      intros [= <-]. by_computation.
Qed.

(** X8.  Six of the eighteen categories never receive a device: no
    subtype, type or sensor-group rule names 120vSmoke, Gas, Humidity,
    IntegratedEnvironmental, Temperature or Waterflow, so their lists are
    empty whatever the inventory. *)
Theorem unused_categories_stay_empty (ds : list Device) (g : Grouped)
  (c : string) :
  group_devices ds = Ok g -> c ∈ unused_categories -> members c g = [].
Proof.
  intros Hg Hc.
  destruct (members c g) as [|d l] eqn:Hm; [reflexivity|].
  assert (Hd : d ∈ members c g) by (rewrite Hm; left).
  apply (group_devices_elem_of ds g c d Hg) in Hd as [_ Hd].
  apply category_of_rule_categories in Hd.
  exfalso. revert Hc Hd. unfold unused_categories, rule_categories.
  rewrite !elem_of_cons, !elem_of_nil.
  intros Hc Hd.
  repeat (destruct Hc as [->|Hc]);
    try (repeat (destruct Hd as [Hd|Hd]; [discriminate Hd|]); exact Hd).
  exact Hc.
Qed.

Lemma unused_categories_stay_empty_witness :
  members "Gas" two_doors_grouped = [].
Proof.
  apply (unused_categories_stay_empty [front_door; door_a]);
    [by_evaluation | by_computation].
Defined.

(** *** The rules, one by one *)

Lemma rule_category_unlisted rules d ty :
  (forall c types, (c, types) ∈ rules -> ty ∉ types) ->
  rule_category rules d ty = Ok None.
Proof.
  induction rules as [|[category types] rules IH]; simpl; intros Hty;
    [reflexivity|].
  assert (Hno : existsb (String.eqb ty) types = false).
  { apply not_true_is_false. intros [x [Hx Heq]]%existsb_exists.
    apply String.eqb_eq in Heq as <-.
    apply (Hty category types); [left | by apply list_elem_of_In]. }
  rewrite Hno. apply IH. intros c ts Hin. apply (Hty c ts). by right.
Qed.

(** X9.  The eight type rules without an exclusion place a device by its
    equipment-type code alone: with no subtype override, a device whose
    code is listed under Perimeter, Motion, Glassbreak, ShockVibration,
    PanicAlert, Tamper, CO or Flood is in the list of that category and in
    no other, whatever its description and sensor group. *)
Theorem type_rule_places (d : Device) (c : string) (types : list string) :
  (c, types) ∈ type_rules ->
  c <> "NonRelaySmoke" -> c <> "Heat" ->
  type_code d ∈ types ->
  assoc (subtype_code d) subtype_map = None ->
  forall ds g c', d ∈ ds -> group_devices ds = Ok g ->
                  (d ∈ members c' g <-> c' = c).
Proof.
  intros Hrule Hsmoke Hheat Hty Hsub ds g c' Hin Hg.
  assert (Hcat : category_of d = Ok (Some c)).
  { unfold category_of. rewrite Hsub.
    remember (type_code d) as ty eqn:Heqty. clear Heqty.
    unfold type_rules in Hrule.
    rewrite !elem_of_cons, elem_of_nil in Hrule.
    repeat (destruct Hrule as [Hrule|Hrule];
            [injection Hrule as -> ->; try contradiction;
             rewrite !elem_of_cons, elem_of_nil in Hty;
             repeat (destruct Hty as [->|Hty]; [reflexivity|]);
             destruct Hty|]).
    destruct Hrule. }
  rewrite (group_devices_elem_of ds g c' d Hg), Hcat.
  split; [intros [_ [= ->]]; reflexivity | intros ->; by split].
Qed.

Lemma type_rule_places_witness :
  panic_button ∈ members "PanicAlert" rules_grouped.
Proof.
  apply (type_rule_places panic_button "PanicAlert" ["9"; "34"; "104"]
           ltac:(by_computation) ltac:(discriminate) ltac:(discriminate)
           ltac:(by_computation) ltac:(by_evaluation)
           [panic_button; smoke_relay; smoke_plain; heat_group_48]
           rules_grouped "PanicAlert");
    [left | by_evaluation | reflexivity].
Defined.

(** X10.  A smoke detector (type code 5 or 53, no subtype override, a
    description that is a text or missing) is a Sprinkler device when its
    sensor group is 48; otherwise it is a NonRelaySmoke device unless its
    description mentions "relay" or "120v" in any letter case, and then it
    is in no category. *)
Theorem smoke_detector_placement (d : Device) (s : string) :
  type_code d = "5" \/ type_code d = "53" ->
  assoc (subtype_code d) subtype_map = None ->
  get_or d "alarm_com_description" (VStr EmptyString) = VStr s ->
  forall ds g c', d ∈ ds -> group_devices ds = Ok g ->
    (d ∈ members c' g
     <-> (str_prop d "alarm_com_sensor_group" = "48" /\ c' = "Sprinkler")
         \/ (str_prop d "alarm_com_sensor_group" <> "48"
             /\ Str.contains "relay" (Str.lower s) = false
             /\ Str.contains "120v" (Str.lower s) = false
             /\ c' = "NonRelaySmoke")).
Proof.
  intros Hty Hsub Hdesc ds g c' Hin Hg.
  rewrite (group_devices_elem_of ds g c' d Hg).
  unfold category_of. rewrite Hsub, (rule_category_smoke d _ Hty), Hdesc.
  simpl.
  destruct (String.eqb_spec (str_prop d "alarm_com_sensor_group") "48")
    as [Heq|Hne].
  - rewrite !orb_true_r. simpl. rewrite Heq. simpl. split.
    + intros [_ [= <-]]. by left.
    + intros [[_ ->]|[Hne _]]; [by split | contradiction].
  - rewrite orb_false_r.
    destruct (Str.contains "relay" (Str.lower s)),
      (Str.contains "120v" (Str.lower s)); simpl;
      rewrite ?(proj2 (String.eqb_neq _ _) Hne); split;
      try (intros [_ Hc]; discriminate Hc);
      try (intros [[? _]|(_ & ? & ? & _)]; (contradiction || discriminate)).
    + intros [_ [= <-]]. right. by repeat split.
    + intros [[? _]|(_ & _ & _ & ->)]; [contradiction | by split].
Qed.

Lemma smoke_detector_placement_witness :
  smoke_plain ∈ members "NonRelaySmoke" rules_grouped
  /\ ~ smoke_relay ∈ members "NonRelaySmoke" rules_grouped.
Proof.
  assert (Hrun : group_devices
                   [panic_button; smoke_relay; smoke_plain; heat_group_48]
                 = Ok rules_grouped) by by_evaluation.
  split.
  - apply (smoke_detector_placement smoke_plain "Hall Smoke"
             ltac:(right; by_evaluation) ltac:(by_evaluation)
             ltac:(by_evaluation) _ _ "NonRelaySmoke"
             ltac:(right; right; left) Hrun).
    right. split; [intros H; vm_compute in H; discriminate H|].
    by repeat split.
  - intros Hin.
    apply (smoke_detector_placement smoke_relay "Smoke RELAY 2"
             ltac:(left; by_evaluation) ltac:(by_evaluation)
             ltac:(by_evaluation) _ _ "NonRelaySmoke"
             ltac:(right; left) Hrun) in Hin.
    destruct Hin as [[_ Hin]|(_ & Hin & _)]; discriminate Hin.
Defined.

(** X11.  The sensor-group fallback: with no subtype override, a heat
    detector (type code 8) or a device whose type code no rule lists is a
    Sprinkler device exactly when its sensor group is 48; otherwise the
    heat detector is a Heat device and the unlisted one is in no
    category. *)
Theorem sensor_group_fallback (d : Device) :
  assoc (subtype_code d) subtype_map = None ->
  type_code d = "8"
  \/ (forall c types, (c, types) ∈ type_rules -> type_code d ∉ types) ->
  forall ds g c', d ∈ ds -> group_devices ds = Ok g ->
    (d ∈ members c' g
     <-> (str_prop d "alarm_com_sensor_group" = "48" /\ c' = "Sprinkler")
         \/ (str_prop d "alarm_com_sensor_group" <> "48"
             /\ type_code d = "8" /\ c' = "Heat")).
Proof.
  intros Hsub Hty ds g c' Hin Hg.
  rewrite (group_devices_elem_of ds g c' d Hg).
  unfold category_of. rewrite Hsub.
  destruct Hty as [Hty|Hty].
  - rewrite Hty. simpl.
    destruct (String.eqb_spec (str_prop d "alarm_com_sensor_group") "48")
      as [Heq|Hne]; simpl; split.
    + intros [_ [= <-]]. by left.
    + intros [[_ ->]|[Hne _]]; [by split | contradiction].
    + intros [_ [= <-]]. right. by repeat split.
    + intros [[? _]|(_ & _ & ->)]; [contradiction | by split].
  - rewrite (rule_category_unlisted type_rules d _ Hty). simpl.
    destruct (String.eqb_spec (str_prop d "alarm_com_sensor_group") "48")
      as [Heq|Hne]; split.
    + intros [_ [= <-]]. by left.
    + intros [[_ ->]|[Hne _]]; [by split | contradiction].
    + intros [_ Hc]. discriminate Hc.
    + intros [[? _]|(_ & H8 & _)]; [contradiction|].
      exfalso. apply (Hty "Heat" ["8"]); [by_computation|].
      rewrite H8. left.
Qed.

Lemma sensor_group_fallback_witness :
  heat_group_48 ∈ members "Sprinkler" rules_grouped.
Proof.
  assert (Hrun : group_devices
                   [panic_button; smoke_relay; smoke_plain; heat_group_48]
                 = Ok rules_grouped) by by_evaluation.
  apply (sensor_group_fallback heat_group_48 ltac:(by_evaluation)
           ltac:(left; by_evaluation) _ _ "Sprinkler"
           ltac:(right; right; right; left) Hrun).
  left. split; [by_evaluation | reflexivity].
Defined.

End ClassifierMore.

(** ** Certificate number allocator, further *)

Section AllocatorMore.

Variables (eng : Engine).

(** The effect of one allocation on a counter that stands for [n]. *)
Lemma generate_certificate_number_stored (site_id system_id : string)
  (w : World) (bag : Props) (n : Z) :
  crm_objects w !! object_url (SYSTEM_TYPE_ID eng) system_id = Some bag ->
  stored_counter bag n ->
  generate_certificate_number eng site_id system_id w
  = (Ok (site_id +:+ "-" +:+ Str.format_03d (n + 1)),
     {| crm_objects :=
          <[object_url (SYSTEM_TYPE_ID eng) system_id
            := <[counter_key := VInt (n + 1)]> bag]> (crm_objects w);
        crm_associations := crm_associations w;
        crm_devices := crm_devices w;
        requests :=
          requests w
          ++ [GET (object_url (SYSTEM_TYPE_ID eng) system_id);
              PATCH (object_url (SYSTEM_TYPE_ID eng) system_id)
                {[ counter_key := VInt (n + 1) ]}] |}).
Proof.
  intros Hsystem Hcounter.
  apply generate_certificate_number_counted; [exact Hsystem|].
  by apply counter_of_stored.
Qed.

(** A system the CRM does not serve stops the allocator at the read. *)
Lemma generate_certificate_number_unserved (site_id system_id : string)
  (w : World) :
  crm_objects w !! object_url (SYSTEM_TYPE_ID eng) system_id = None ->
  generate_certificate_number eng site_id system_id w
  = (Err (Exception_ "Failed to get system: 404"),
     log (GET (object_url (SYSTEM_TYPE_ID eng) system_id)) w).
Proof.
  intros Hsystem. unfold generate_certificate_number, bind, requests_get.
  rewrite Hsystem. reflexivity.
Qed.

End AllocatorMore.

(** X12.  The failures of the allocator leave the CRM as it was.  When the
    CRM does not serve the system, the allocator raises "Failed to get
    system: 404"; when the counter is text that [float] reads as an
    infinity, or an integer too large for a double, the [OverflowError] of
    the conversion is not caught and leaves the allocator.  In both cases
    the read is the only request sent and no object has changed. *)
Theorem allocation_failures_write_nothing (eng : Engine)
  (site_id system_id : string) (w : World) :
  let url := object_url (SYSTEM_TYPE_ID eng) system_id in
  (crm_objects w !! url = None ->
   generate_certificate_number eng site_id system_id w
   = (Err (Exception_ "Failed to get system: 404"), log (GET url) w))
  /\ (forall bag counter,
        crm_objects w !! url = Some bag ->
        bag !! counter_key = Some counter ->
        Float.of_val counter = Err OverflowError
        \/ (exists negative, Float.of_val counter = Ok (Inf negative)) ->
        generate_certificate_number eng site_id system_id w
        = (Err OverflowError, log (GET url) w))
  /\ crm_objects (log (GET url) w) = crm_objects w
  /\ requests (log (GET url) w) = requests w ++ [GET url].
Proof.
  intros url. split; [apply generate_certificate_number_unserved|].
  split; [|by split].
  intros bag counter Hsystem Hcounter Hinf.
  unfold generate_certificate_number, bind, requests_get. fold url.
  rewrite Hsystem. cbn [status_code json Z.eqb Pos.eqb negb].
  fold counter_key. unfold get_or. rewrite Hcounter.
  cbn [default from_option id]. unfold counter_of, int_of_float.
  destruct Hinf as [-> | [negative ->]]; reflexivity.
Qed.

Lemma allocation_failures_write_nothing_witness :
  generate_certificate_number example_engine "9999" "X"
    (lone_system (VStr "1e999"))
  = (Err OverflowError, log (GET system_url) (lone_system (VStr "1e999"))).
Proof.
  apply (proj1 (proj2 (allocation_failures_write_nothing example_engine
                         "9999" "X" (lone_system (VStr "1e999"))))
           (system_bag (VStr "1e999")) (VStr "1e999")).
  - by_evaluation.
  - by_evaluation.
  - right. exists false. by_evaluation.
Defined.

(** X13.  Allocations for one system follow one another: when the counter
    stands for [n] and [n + 1] is an integer a double holds exactly, two
    allocations in a row return the numbers [n + 1] and [n + 2], leave
    [n + 2] in the counter, and the two certificate numbers of one site
    differ. *)
Theorem consecutive_allocations (eng : Engine)
  (site_id site_id' system_id : string) (w : World) (bag : Props) (n : Z) :
  crm_objects w !! object_url (SYSTEM_TYPE_ID eng) system_id = Some bag ->
  stored_counter bag n ->
  0 <= n + 1 < 2 ^ 53 ->
  exists w2,
    allocate_twice eng site_id site_id' system_id w
    = (Ok (site_id +:+ "-" +:+ Str.format_03d (n + 1),
           site_id' +:+ "-" +:+ Str.format_03d (n + 2)), w2)
    /\ crm_objects w2
       = <[object_url (SYSTEM_TYPE_ID eng) system_id
           := <[counter_key := VInt (n + 2)]> bag]> (crm_objects w)
    /\ site_id +:+ "-" +:+ Str.format_03d (n + 1)
       <> site_id +:+ "-" +:+ Str.format_03d (n + 2).
Proof.
  intros Hsystem Hcounter Hn.
  unfold allocate_twice, bind.
  rewrite (generate_certificate_number_stored eng site_id system_id w bag n
             Hsystem Hcounter).
  erewrite (generate_certificate_number_stored eng site_id' system_id _
              (<[counter_key := VInt (n + 1)]> bag) (n + 1)).
  - replace (n + 1 + 1) with (n + 2) by lia.
    eexists. split; [reflexivity|].
    cbn [crm_objects]. split.
    + by rewrite !insert_insert_eq.
    + intros Heq. apply (inj (String.app site_id)) in Heq.
      apply (inj (String.app "-")) in Heq.
      apply (f_equal (Float.digits_value 0)) in Heq.
      rewrite !format_03d_value in Heq by lia. lia.
  - cbn [crm_objects]. apply lookup_insert_eq.
  - apply counter_integer; [lia | apply lookup_insert_eq].
Qed.

Lemma consecutive_allocations_witness :
  exists w2,
    allocate_twice example_engine "9999" "9999" "X" (lone_system (VStr "4")) 
    = (Ok ("9999" +:+ "-" +:+ Str.format_03d (4 + 1),
           "9999" +:+ "-" +:+ Str.format_03d (4 + 2)), w2)
    /\ crm_objects w2
       = <[object_url (SYSTEM_TYPE_ID example_engine) "X"
           := <[counter_key := VInt (4 + 2)]> (system_bag (VStr "4"))]>
           (crm_objects (lone_system (VStr "4")))
    /\ "9999" +:+ "-" +:+ Str.format_03d (4 + 1)
       <> "9999" +:+ "-" +:+ Str.format_03d (4 + 2).
Proof.
  apply (consecutive_allocations example_engine "9999" "9999" "X"
           (lone_system (VStr "4")) (system_bag (VStr "4")) 4).
  - by_evaluation.
  - apply counter_decimal_text; [lia | by_evaluation].
  - lia.
Defined.

(** ** Field assembler, further *)

Section AssemblerMore.

Variables (rt : Runtime).

(** *** Keys *)

Lemma zones_key_not_count_key c c' : zones_key c <> count_key c'.
Proof. discriminate. Qed.

Lemma zones_key_inj c c' : zones_key c = zones_key c' -> c = c'.
Proof. apply (inj (String.app "Zones_")). Qed.

Lemma count_key_inj c c' : count_key c = count_key c' -> c = c'.
Proof. apply (inj (String.app "Count_")). Qed.

(** *** The status loop on other keys *)

Lemma probe_status_lookup agreement f prefixes m k :
  k <> status_key f -> probe_status agreement f prefixes m !! k = m !! k.
Proof.
  intros Hne. induction prefixes as [|p prefixes IH]; simpl; [reflexivity|].
  case_bool_decide; [|exact IH].
  apply lookup_insert_ne. intros Heq. by apply Hne.
Qed.

Lemma add_status_fields_other agreement fields m k :
  (forall f, f ∈ fields -> k <> status_key f) ->
  add_status_fields agreement fields m !! k = m !! k.
Proof.
  unfold add_status_fields.
  revert m. induction fields as [|f fields IH]; intros m Hk; cbn [fold_left];
    [reflexivity|].
  rewrite IH by (intros f' Hf'; apply Hk; by right).
  apply probe_status_lookup, Hk. left.
Qed.

(** *** The device loop *)

Lemma add_device_fields_other grouped keys m m' k :
  add_device_fields grouped keys m = Ok m' ->
  (forall c, c ∈ keys -> k <> zones_key c /\ k <> count_key c) ->
  m' !! k = m !! k.
Proof.
  revert m. induction keys as [|category keys IH]; intros m; simpl.
  - by intros [= <-].
  - destruct (zone_entries _) as [device_list|]; simpl; [|discriminate].
    intros Hrest Hk. rewrite (IH _ Hrest) by (intros c Hc; apply Hk; by right).
    destruct (Hk category) as [Hzones Hcount]; [left|].
    rewrite lookup_insert_ne by (intros H; by apply Hcount).
    by rewrite lookup_insert_ne by (intros H; by apply Hzones).
Qed.

Lemma add_device_fields_lookup grouped keys m m' c :
  add_device_fields grouped keys m = Ok m' ->
  c ∈ keys ->
  exists entries,
    zone_entries (members c grouped) = Ok entries
    /\ m' !! zones_key c = Some (Zones entries)
    /\ m' !! count_key c = Some (Scalar (VInt (Z.of_nat (length entries)))).
Proof.
  revert m. induction keys as [|category keys IH]; intros m; simpl;
    [intros _ Hin; inversion Hin|].
  destruct (zone_entries (members category grouped)) as [device_list|]
    eqn:Hentries; simpl; [|discriminate].
  intros Hrest Hin.
  destruct (decide (c ∈ keys)) as [Hlater|Hlast]; [by eapply IH|].
  apply elem_of_cons in Hin as [->|Hin]; [|contradiction].
  exists device_list. split; [exact Hentries|].
  assert (Hother : forall c', c' ∈ keys ->
            (zones_key category <> zones_key c'
             /\ zones_key category <> count_key c')
            /\ (count_key category <> zones_key c'
                /\ count_key category <> count_key c')).
  { intros c' Hc'. repeat split; try discriminate.
    - intros ->%zones_key_inj. contradiction.
    - intros ->%count_key_inj. contradiction. }
  split.
  - rewrite (add_device_fields_other _ _ _ _ _ Hrest)
      by (intros c' Hc'; apply Hother, Hc').
    rewrite lookup_insert_ne by discriminate. apply lookup_insert_eq.
  - rewrite (add_device_fields_other _ _ _ _ _ Hrest)
      by (intros c' Hc'; apply Hother, Hc').
    apply lookup_insert_eq.
Qed.

Lemma zone_entries_Forall2 (devices : list Device) entries :
  zone_entries devices = Ok entries ->
  Forall2 (fun d e => zone_entry d = Ok e) devices entries.
Proof.
  revert entries. induction devices as [|d devices IH]; simpl; intros entries.
  - intros [= <-]. constructor.
  - destruct (zone_entry d) as [e|] eqn:He; simpl; [|discriminate].
    destruct (zone_entries devices) as [rest|]; simpl; [|discriminate].
    intros [= <-]. constructor; [exact He | by apply IH].
Qed.

Lemma zone_entries_total (devices : list Device) :
  Forall (fun d => is_err (zone_entry d) = false) devices ->
  exists entries, zone_entries devices = Ok entries.
Proof.
  induction 1 as [|d l Hd _ [rest IH]]; simpl; [eauto|].
  destruct (zone_entry d) as [e|]; [|discriminate]. simpl.
  rewrite IH. simpl. eauto.
Qed.

Lemma add_device_fields_total grouped keys m :
  (forall c d, d ∈ members c grouped -> is_err (zone_entry d) = false) ->
  exists m', add_device_fields grouped keys m = Ok m'.
Proof.
  intros Hall. revert m. induction keys as [|c keys IH]; intros m; simpl;
    [eauto|].
  destruct (zone_entries_total (members c grouped)) as [entries ->].
  { apply Forall_forall. intros d Hd. by apply (Hall c). }
  simpl. apply IH.
Qed.

(** A device whose sort key could be computed has an entry. *)
Lemma sort_key_zone_entry d :
  is_err (sort_key d) = false -> is_err (zone_entry d) = false.
Proof.
  unfold sort_key, zone_entry, get_or.
  destruct (d !! "alarm_com_description") as [[]|]; simpl;
    try discriminate; reflexivity.
Qed.

Lemma group_devices_listed ds g c d :
  group_devices ds = Ok g -> d ∈ members c g -> is_err (sort_key d) = false.
Proof.
  unfold group_devices.
  destruct (group_loop empty_grouped ds) as [g0|]; simpl; [|discriminate].
  intros Hsort Hin.
  destruct (sort_categories_members g0 g Hsort) as [_ Hm].
  rewrite (Hm c) in Hin.
  destruct (is_err (sort_key d)) eqn:Herr; [|reflexivity].
  pose proof (sort_categories_raises g0 c d Hin Herr) as Hraise.
  rewrite Hsort in Hraise. discriminate Hraise.
Qed.

(** After a classification that returned the assembler returns. *)
Lemma assembler_total_after (ds : list Device) (g : Grouped) :
  group_devices ds = Ok g ->
  forall hubspot_data cert_number broker_email requestor_name,
  exists fields,
    assemble_certificate_fields rt hubspot_data g cert_number
      broker_email requestor_name = Ok fields.
Proof.
  intros Hg hubspot_data cert_number broker_email requestor_name.
  unfold assemble_certificate_fields. apply add_device_fields_total.
  intros c d Hd. apply sort_key_zone_entry.
  exact (group_devices_listed ds g c d Hg Hd).
Qed.

End AssemblerMore.

(** X14.  After a classification that returned, the assembler returns
    too: every device that [group_devices] lists has a description that is
    a text or is missing, so [re.sub] in the device loop cannot raise, for
    any bundle, certificate number and recipient. *)
Theorem assembler_returns_after_classifier (rt : Runtime)
  (ds : list Device) (g : Grouped) :
  group_devices ds = Ok g ->
  forall hubspot_data cert_number broker_email requestor_name,
  exists fields,
    assemble_certificate_fields rt hubspot_data g cert_number
      broker_email requestor_name = Ok fields.
Proof.
  intros Hg hubspot_data cert_number broker_email requestor_name.
  exact (assembler_total_after rt ds g Hg hubspot_data cert_number
           broker_email requestor_name).
Qed.

Lemma assembler_returns_after_classifier_witness :
  exists fields,
    assemble_certificate_fields example_runtime example_bundle
      two_doors_grouped "9999-005" VNone VNone = Ok fields.
Proof.
  apply (assembler_returns_after_classifier example_runtime
           [front_door; door_a] two_doors_grouped).
  by_evaluation.
Defined.

(** X15.  The device fields agree with the classification.  For a
    classification [g] of the devices [ds] and the fields assembled from
    it, every category has a [Zones_] list with one entry per device of
    its list, in the order of the list, and a [Count_] field that is the
    length of that list, which is the number of devices of [ds] that the
    rules place in the category. *)
Theorem device_fields_match_classification (rt : Runtime)
  (ds : list Device) (g : Grouped) (hubspot_data : Bundle)
  (cert_number : string) (broker_email requestor_name : PyVal)
  (fields : FieldMap) :
  group_devices ds = Ok g ->
  assemble_certificate_fields rt hubspot_data g cert_number
    broker_email requestor_name = Ok fields ->
  forall c, c ∈ categories ->
    exists entries,
      fields !! zones_key c = Some (Zones entries)
      /\ Forall2 (fun d e => zone_entry d = Ok e) (members c g) entries
      /\ fields !! count_key c
         = Some (Scalar (VInt (Z.of_nat (length (members c g)))))
      /\ length (members c g) = length (List.filter (placed_in c) ds).
Proof.
  intros Hg Hfields c Hc.
  destruct (group_devices_members ds g Hg) as [Hkeys Hm].
  unfold assemble_certificate_fields in Hfields.
  destruct (add_device_fields_lookup g _ _ _ c Hfields)
    as (entries & Hentries & Hzones & Hcount); [by rewrite Hkeys|].
  apply zone_entries_Forall2 in Hentries.
  exists entries. split; [exact Hzones|]. split; [exact Hentries|].
  split; [|by rewrite (Hm c)].
  by rewrite (Forall2_length _ _ _ Hentries).
Qed.

Lemma device_fields_match_classification_witness :
  exists entries,
    two_doors_fields !! zones_key "Perimeter" = Some (Zones entries)
    /\ Forall2 (fun d e => zone_entry d = Ok e)
         (members "Perimeter" two_doors_grouped) entries
    /\ two_doors_fields !! count_key "Perimeter"
       = Some (Scalar (VInt (Z.of_nat
                               (length (members "Perimeter"
                                          two_doors_grouped)))))
    /\ length (members "Perimeter" two_doors_grouped)
       = length (List.filter (placed_in "Perimeter") [front_door; door_a]).
Proof.
  apply (device_fields_match_classification example_runtime
           [front_door; door_a] two_doors_grouped example_bundle
           "9999-005" VNone (VStr "Bob") two_doors_fields).
  - by_evaluation.
  - by_evaluation.
  - by_computation.
Defined.

(** *** The field map as a whole *)

Section FieldMapShape.

Variables (rt : Runtime) (hubspot_data : Bundle) (cert_number : string)
  (broker_email requestor_name : PyVal).

Local Abbreviation base :=
  (literal_fields rt hubspot_data cert_number broker_email requestor_name).

Lemma base_fields_keys k : is_Some (base !! k) <-> k ∈ literal_keys.
Proof.
  unfold literal_fields, base_fields. cbv zeta. split.
  - intros Hsome. destruct (decide (k ∈ literal_keys)) as [Hin|Hout];
      [exact Hin|].
    rewrite not_elem_of_list_to_map_1 in Hsome;
      [by destruct Hsome | exact Hout].
  - intros Hin. apply not_eq_None_Some. intros Hnone.
    by apply not_elem_of_list_to_map_2 in Hnone.
Qed.

Lemma literal_keys_not_loop_keys :
  Forall (fun k => loop_key k = false) literal_keys.
Proof. by_computation. Qed.

Lemma loop_key_false k :
  loop_key k = false ->
  (forall f, k <> status_key f)
  /\ (forall c, k <> zones_key c /\ k <> count_key c).
Proof.
  unfold loop_key. intros H.
  apply orb_false_elim in H as [H Hcount].
  apply orb_false_elim in H as [Hstatus Hzones].
  split; [intros f | intros c; split]; intros ->.
  - unfold status_key in Hstatus. by rewrite prefix_app in Hstatus.
  - unfold zones_key in Hzones. by rewrite prefix_app in Hzones.
  - unfold count_key in Hcount. by rewrite prefix_app in Hcount.
Qed.

(** The loops leave a key that is not theirs as the literal has it. *)
Lemma assemble_other_key (g : Grouped) (fields : FieldMap) k :
  assemble_certificate_fields rt hubspot_data g cert_number
    broker_email requestor_name = Ok fields ->
  loop_key k = false ->
  fields !! k = base !! k.
Proof.
  unfold assemble_certificate_fields. intros Hfields Hk.
  destruct (loop_key_false k Hk) as [Hstatus Hdevice].
  rewrite (add_device_fields_other _ _ _ _ k Hfields)
    by (intros c _; apply Hdevice).
  apply add_status_fields_other. intros f _. apply Hstatus.
Qed.

Lemma probe_status_keys agreement f prefixes (m : FieldMap) k :
  is_Some (probe_status agreement f prefixes m !! k) ->
  is_Some (m !! k) \/ k = status_key f.
Proof.
  destruct (decide (k = status_key f)) as [->|Hne]; [by right|].
  rewrite probe_status_lookup by exact Hne. by left.
Qed.

Lemma add_status_fields_keys agreement fields (m : FieldMap) k :
  is_Some (add_status_fields agreement fields m !! k) ->
  is_Some (m !! k) \/ exists f, f ∈ fields /\ k = status_key f.
Proof.
  unfold add_status_fields.
  revert m. induction fields as [|f fields IH]; intros m; cbn [fold_left];
    [by left|].
  intros [Hsome|(f' & Hf' & ->)]%IH.
  - apply probe_status_keys in Hsome as [Hsome| ->]; [by left|].
    right. exists f. split; [left | reflexivity].
  - right. exists f'. split; [by right | reflexivity].
Qed.

Lemma add_device_fields_keys grouped keys (m m' : FieldMap) k :
  add_device_fields grouped keys m = Ok m' ->
  is_Some (m' !! k) ->
  is_Some (m !! k)
  \/ exists c, c ∈ keys /\ (k = zones_key c \/ k = count_key c).
Proof.
  revert m. induction keys as [|category keys IH]; intros m; simpl.
  - intros [= <-]. by left.
  - destruct (zone_entries _) as [device_list|]; simpl; [|discriminate].
    intros Hrest [Hsome|(c & Hc & Hk)]%(IH _ Hrest).
    + fold (count_key category) (zones_key category) in Hsome.
      destruct (decide (k = count_key category)) as [->|Hcount].
      { right. exists category. split; [left | by right]. }
      rewrite lookup_insert_ne in Hsome by done.
      destruct (decide (k = zones_key category)) as [->|Hzones].
      { right. exists category. split; [left | by left]. }
      rewrite lookup_insert_ne in Hsome by done. by left.
    + right. exists c. split; [by right | exact Hk].
Qed.

(** The values of the literal under the keys the validator guards. *)
Lemma base_fields_validated :
  base !! "SITE_Address1"
  = Some (Scalar (get_or (SITE hubspot_data) "address" (VStr EmptyString)))
  /\ base !! "SITE_City"
     = Some (Scalar (get_or (SITE hubspot_data) "city" (VStr EmptyString)))
  /\ base !! "SITE_Province"
     = Some (Scalar (get_or (SITE hubspot_data) "state" (VStr EmptyString)))
  /\ base !! "SITE_PostalCode"
     = Some (Scalar (transform_value rt (get (SITE hubspot_data) "zip")
                       "UPPER"))
  /\ base !! "AGREEMENT_Customer_Name"
     = Some (Scalar (transform_value rt
                       (VList [get (CUSTOMER hubspot_data) "firstname";
                               get (CUSTOMER hubspot_data) "lastname"])
                       "CONCAT_SPACE"))
  /\ base !! "CERTIFICATE_Number" = Some (Scalar (VStr cert_number)).
Proof.
  unfold literal_fields, base_fields. cbv zeta.
  repeat split;
    (apply elem_of_list_to_map_1;
     [cbn [fmap list_fmap fst]; by_computation
     |repeat first [by left | right]]).
Qed.

End FieldMapShape.

Section Truthy.

Lemma truthy_get_or (bag : Props) (key : string) :
  truthy (get bag key) = true ->
  get_or bag key (VStr EmptyString) = get bag key.
Proof.
  unfold get, get_or. destruct (bag !! key); [reflexivity | discriminate].
Qed.

Lemma pretty_Z_non_empty (n : Z) : Str.non_empty (pretty n) = true.
Proof.
  destruct n as [|p|p]; [reflexivity| |reflexivity].
  exact (proj1 (proj2 (pretty_N_decimal (Npos p)))).
Qed.

(** The text of a truthy value is not empty. *)
Lemma truthy_py_str (v : PyVal) :
  truthy v = true -> Str.non_empty (py_str v) = true.
Proof.
  destruct v as [|[]|n|s|l]; simpl; try discriminate; try reflexivity.
  - intros _. apply pretty_Z_non_empty.
  - auto.
Qed.

Lemma upper_non_empty (s : string) :
  Str.non_empty (Str.upper s) = Str.non_empty s.
Proof. by destruct s. Qed.

Lemma join_non_empty (sep : string) (l : list string) :
  l <> [] -> Forall (fun s => Str.non_empty s = true) l ->
  Str.non_empty (Str.join sep l) = true.
Proof.
  intros Hne Hall. destruct Hall as [|s l Hs Hl]; [contradiction|].
  destruct s as [|c s]; [discriminate Hs|].
  destruct l; reflexivity.
Qed.

Lemma concat_space_truthy (rt : Runtime) (a b : PyVal) :
  truthy a || truthy b = true ->
  truthy (transform_value rt (VList [a; b]) "CONCAT_SPACE") = true.
Proof.
  intros Hab. change (transform_value rt (VList [a; b]) "CONCAT_SPACE")
    with (VStr (Str.join " " (List.map py_str (List.filter truthy [a; b])))).
  cbn [truthy]. apply join_non_empty.
  - cbn [List.filter]. destruct (truthy a), (truthy b); try discriminate;
      discriminate Hab.
  - apply Forall_forall. intros s [v [<- Hv]]%list_elem_of_In%in_map_iff.
    apply filter_In in Hv as [_ Hv]. by apply truthy_py_str.
Qed.

Lemma upper_truthy (rt : Runtime) (v : PyVal) :
  truthy v = true -> truthy (transform_value rt v "UPPER") = true.
Proof.
  intros Hv.
  assert (Hupper : transform_value rt v "UPPER"
                   = VStr (Str.upper (py_str v)))
    by (destruct v; [discriminate Hv | reflexivity..]).
  rewrite Hupper. cbn [truthy]. rewrite upper_non_empty.
  by apply truthy_py_str.
Qed.

(** What a bundle that passes the validator holds. *)
Lemma validate_data_passed (data : Bundle) :
  fst (validate_data data) = true ->
  truthy (get (SITE data) "address") = true
  /\ truthy (get (SITE data) "city") = true
  /\ truthy (get (SITE data) "state") = true
  /\ truthy (get (SITE data) "zip") = true
  /\ truthy (get (CUSTOMER data) "firstname")
     || truthy (get (CUSTOMER data) "lastname") = true
  /\ DEVICES data <> [].
Proof.
  unfold validate_data, validation_errors, check_present. cbn [fst].
  destruct (truthy (get (SITE data) "address")); [|discriminate].
  destruct (truthy (get (SITE data) "city")); [|discriminate].
  destruct (truthy (get (SITE data) "state")); [|discriminate].
  destruct (truthy (get (SITE data) "zip")); [|discriminate].
  destruct (truthy (get (CUSTOMER data) "firstname"));
    destruct (truthy (get (CUSTOMER data) "lastname")); try discriminate;
    (destruct (DEVICES data); [discriminate|]); by repeat split.
Qed.

End Truthy.

(** X16.  The loops of the assembler never touch a field of the literal:
    in the field map returned, each of the 36 literal keys holds the value
    the dict literal gave it, whatever the agreement properties and the
    category names are; in particular [CERTIFICATE_Number] is the number
    passed in. *)
Theorem literal_fields_survive (rt : Runtime) (hubspot_data : Bundle)
  (g : Grouped) (cert_number : string) (broker_email requestor_name : PyVal)
  (fields : FieldMap) :
  assemble_certificate_fields rt hubspot_data g cert_number
    broker_email requestor_name = Ok fields ->
  (forall k, k ∈ literal_keys ->
     is_Some (fields !! k)
     /\ fields !! k
        = literal_fields rt hubspot_data cert_number broker_email
            requestor_name !! k)
  /\ fields !! "CERTIFICATE_Number" = Some (Scalar (VStr cert_number)).
Proof.
  intros Hfields. split.
  - intros k Hk.
    assert (Hloop : loop_key k = false).
    { pose proof literal_keys_not_loop_keys as Hall.
      rewrite Forall_forall in Hall. by apply Hall. }
    rewrite (assemble_other_key _ _ _ _ _ _ _ k Hfields Hloop).
    split; [by apply base_fields_keys | reflexivity].
  - rewrite (assemble_other_key _ _ _ _ _ _ _ "CERTIFICATE_Number" Hfields
               eq_refl).
    apply base_fields_validated.
Qed.

Lemma literal_fields_survive_witness :
  two_doors_fields !! "CERTIFICATE_Number" = Some (Scalar (VStr "9999-005")).
Proof.
  apply (literal_fields_survive example_runtime example_bundle
           two_doors_grouped "9999-005" VNone (VStr "Bob") two_doors_fields).
  by_evaluation.
Defined.

(** X17.  The field map has no other keys than these: the literal keys,
    [AGREEMENT_Status_<n>] for a number [n] of the status list, and
    [Zones_<c>] and [Count_<c>] for a key [c] of the classification. *)
Theorem field_map_keys_closed (rt : Runtime) (hubspot_data : Bundle)
  (g : Grouped) (cert_number : string) (broker_email requestor_name : PyVal)
  (fields : FieldMap) (k : string) :
  assemble_certificate_fields rt hubspot_data g cert_number
    broker_email requestor_name = Ok fields ->
  is_Some (fields !! k) ->
  k ∈ literal_keys
  \/ (exists f, f ∈ status_fields /\ k = status_key f)
  \/ (exists c, c ∈ List.map fst g /\ (k = zones_key c \/ k = count_key c)).
Proof.
  unfold assemble_certificate_fields. intros Hfields Hsome.
  apply (add_device_fields_keys _ _ _ _ _ Hfields) in Hsome
    as [Hsome|Hdevice]; [|by right; right].
  apply add_status_fields_keys in Hsome as [Hsome|Hstatus];
    [|by right; left].
  left. by apply base_fields_keys in Hsome.
Qed.

Lemma field_map_keys_closed_witness :
  "Zones_Perimeter" ∈ literal_keys
  \/ (exists f, f ∈ status_fields /\ "Zones_Perimeter" = status_key f)
  \/ (exists c, c ∈ List.map fst two_doors_grouped
                /\ ("Zones_Perimeter" = zones_key c
                    \/ "Zones_Perimeter" = count_key c)).
Proof.
  apply (field_map_keys_closed example_runtime example_bundle
           two_doors_grouped "9999-005" VNone (VStr "Bob") two_doors_fields).
  - by_evaluation.
  - by_computation.
Defined.

(** X18.  What the validator checks, the certificate shows: for a bundle
    that passes [validate_data], the fields [SITE_Address1], [SITE_City],
    [SITE_Province], [SITE_PostalCode] and [AGREEMENT_Customer_Name] of the
    assembled map hold values that are not empty. *)
Theorem validated_fields_are_filled (rt : Runtime) (hubspot_data : Bundle)
  (g : Grouped) (cert_number : string) (broker_email requestor_name : PyVal)
  (fields : FieldMap) :
  fst (validate_data hubspot_data) = true ->
  assemble_certificate_fields rt hubspot_data g cert_number
    broker_email requestor_name = Ok fields ->
  forall k, k ∈ validated_fields ->
    exists v, fields !! k = Some (Scalar v) /\ truthy v = true.
Proof.
  intros Hvalid Hfields k Hk.
  destruct (validate_data_passed hubspot_data Hvalid)
    as (Haddress & Hcity & Hstate & Hzip & Hname & _).
  destruct (base_fields_validated rt hubspot_data cert_number broker_email
              requestor_name)
    as (Bad & Bcity & Bstate & Bzip & Bname & _).
  unfold validated_fields in Hk.
  rewrite !elem_of_cons, elem_of_nil in Hk.
  destruct Hk as [->|[->|[->|[->|[->|[]]]]]];
    match goal with
    | |- context [fields !! ?key] =>
        rewrite (assemble_other_key _ _ _ _ _ _ _ key Hfields eq_refl)
    end;
    eexists; (split; [eassumption|]).
  - by rewrite truthy_get_or.
  - by rewrite truthy_get_or.
  - by rewrite truthy_get_or.
  - by apply upper_truthy.
  - by apply concat_space_truthy.
Qed.

Lemma validated_fields_are_filled_witness :
  exists v, two_doors_fields !! "AGREEMENT_Customer_Name" = Some (Scalar v)
            /\ truthy v = true.
Proof.
  apply (validated_fields_are_filled example_runtime example_bundle
           two_doors_grouped "9999-005" VNone (VStr "Bob") two_doors_fields).
  - by_evaluation.
  - by_evaluation.
  - by_computation.
Defined.

(** ** Data fetcher and orchestrator, further *)

Section OrchestratorMore.

Variables (eng : Engine) (rt : Runtime).

Lemma properties_if_ok_served (w : World) (url : string) :
  properties_if_ok
    match crm_objects w !! url with
    | Some bag => {| status_code := 200; json := bag |}
    | None => {| status_code := 404; json := ∅ |}
    end
  = served w url.
Proof. unfold served. by destruct (crm_objects w !! url). Qed.

(** One run of the fetcher: its result is what the CRM holds, and it adds
    reads to the log and nothing else. *)
Lemma fetch_hubspot_data_run (agreement_id system_id site_id : string)
  (w : World) :
  exists reads,
    fetch_hubspot_data eng agreement_id system_id site_id w
    = (Ok (held eng agreement_id system_id site_id w),
       {| crm_objects := crm_objects w;
          crm_associations := crm_associations w;
          crm_devices := crm_devices w;
          requests := requests w ++ reads |})
    /\ Forall (fun r => is_update r = false) reads
    /\ (5 <= length reads <= 6)%nat.
Proof.
  unfold fetch_hubspot_data, held, first_contact, bind, requests_get,
    requests_get_associations, requests_post_search, ret.
  cbn beta iota. fold (contacts_url eng agreement_id).
  rewrite !properties_if_ok_served.
  cbn [log crm_objects crm_associations crm_devices requests].
  destruct (crm_associations w !! contacts_url eng agreement_id)
    as [[|customer_id ids]|];
    cbn [status_code json Z.eqb Pos.eqb log crm_objects crm_associations
           crm_devices requests];
    rewrite ?properties_if_ok_served;
    destruct (crm_devices w !! system_id) as [devices|];
    cbn [status_code json Z.eqb Pos.eqb default from_option id take];
    unfold served, log;
    cbn [crm_objects crm_associations crm_devices requests];
    rewrite <- ?app_assoc; cbn [app];
    eexists; (split; [reflexivity|]);
    (split; [repeat constructor | cbn [length]; lia]).
Qed.

(** The allocator changes the counter of the system or nothing. *)
Lemma generate_certificate_number_frame (site_id system_id : string)
  (w : World) :
  let url := object_url (SYSTEM_TYPE_ID eng) system_id in
  let run := generate_certificate_number eng site_id system_id w in
  crm_associations (snd run) = crm_associations w
  /\ crm_devices (snd run) = crm_devices w
  /\ ((crm_objects (snd run) = crm_objects w /\ updates (snd run) = updates w)
      \/ exists bag n,
           crm_objects w !! url = Some bag
           /\ crm_objects (snd run) = <[url := counted bag n]> (crm_objects w)
           /\ updates (snd run)
              = updates w ++ [PATCH url {[ counter_key := VInt n ]}]).
Proof.
  intros url run. subst run.
  unfold generate_certificate_number, bind, requests_get, updates.
  fold url.
  destruct (crm_objects w !! url) as [bag|] eqn:Hsystem;
    cbn [status_code json Z.eqb Pos.eqb negb raise snd log crm_objects
           crm_associations crm_devices requests].
  - unfold lift. destruct (counter_of _) as [n|e];
      cbn [snd log crm_objects crm_associations crm_devices requests].
    + unfold requests_patch. cbn [log crm_objects]. rewrite Hsystem.
      cbn [status_code json Z.eqb Pos.eqb negb orb ret snd set_objects log
             crm_objects crm_associations crm_devices requests].
      split; [reflexivity|]. split; [reflexivity|].
      right. exists bag, (n + 1). split; [reflexivity|]. split.
      * unfold counted. by rewrite <- insert_union_singleton_l.
      * rewrite <- app_assoc. rewrite List.filter_app. reflexivity.
    + split; [reflexivity|]. split; [reflexivity|]. left.
      split; [reflexivity|]. rewrite List.filter_app. apply app_nil_r.
  - split; [reflexivity|]. split; [reflexivity|]. left.
    split; [reflexivity|]. rewrite List.filter_app. apply app_nil_r.
Qed.

Lemma filter_reads (reads : list Request) :
  Forall (fun r => is_update r = false) reads ->
  List.filter is_update reads = [].
Proof.
  induction 1 as [|r reads Hr _ IH]; simpl; [reflexivity|].
  by rewrite Hr.
Qed.

End OrchestratorMore.

(** X19.  The fetcher returns, whatever the CRM holds, and reports what it
    holds: the bags served for the agreement, the system and the site, the
    bag of the first contact associated to the agreement, and at most 100
    devices of the system; an object that is not served gives an empty bag
    and a failed search no devices.  It sends five or six requests, none
    of them an update, and the CRM is as it was. *)
Theorem fetch_hubspot_data_reports_crm (eng : Engine)
  (agreement_id system_id site_id : string) (w : World) :
  let run := fetch_hubspot_data eng agreement_id system_id site_id w in
  fst run = Ok (held eng agreement_id system_id site_id w)
  /\ (length (DEVICES (held eng agreement_id system_id site_id w)) <= 100)%nat
  /\ crm_objects (snd run) = crm_objects w
  /\ crm_associations (snd run) = crm_associations w
  /\ crm_devices (snd run) = crm_devices w
  /\ updates (snd run) = updates w
  /\ (length (requests w) + 5 <= length (requests (snd run))
      <= length (requests w) + 6)%nat.
Proof.
  intros run. subst run.
  destruct (fetch_hubspot_data_run eng agreement_id system_id site_id w)
    as (reads & -> & Hreads & Hcount).
  cbn [fst snd crm_objects crm_associations crm_devices requests].
  split; [reflexivity|]. split.
  { cbn [held DEVICES]. rewrite length_take. lia. }
  repeat (split; [reflexivity|]). split.
  - unfold updates. cbn [requests].
    rewrite List.filter_app, (filter_reads reads Hreads). apply app_nil_r.
  - rewrite length_app. lia.
Qed.

(** X20.  The orchestrator sends at most one update, and that update can
    touch nothing but the counter.  Whatever the CRM holds and however the
    run ends, the updates sent are none, or the one PATCH of the requested
    system that names the single property [certificate_counter] with an
    integer.  The associations and the devices of the CRM are as before,
    every other object and every other property of the system are as
    before, and when no update was sent the objects are as before.  (The
    CRM of the embedding stores every update of an object it holds; none
    of these statements depends on whether the update is stored.) *)
Theorem orchestrator_writes_only_counter (eng : Engine) (rt : Runtime)
  (agreement_id system_id site_id : string)
  (broker_email requestor_name : PyVal) (w : World) :
  let url := object_url (SYSTEM_TYPE_ID eng) system_id in
  let run := generate_certificate_data eng rt agreement_id system_id site_id
               broker_email requestor_name w in
  crm_associations (snd run) = crm_associations w
  /\ crm_devices (snd run) = crm_devices w
  /\ (updates (snd run) = updates w
      \/ exists n, updates (snd run)
                   = updates w ++ [PATCH url {[ counter_key := VInt n ]}])
  /\ (updates (snd run) = updates w -> crm_objects (snd run) = crm_objects w)
  /\ (forall url', url' <> url ->
        crm_objects (snd run) !! url' = crm_objects w !! url')
  /\ (forall k, k <> counter_key ->
        crm_objects (snd run) !! url ≫= (fun bag => bag !! k)
        = crm_objects w !! url ≫= (fun bag => bag !! k)).
Proof.
  intros url run.
  assert (Hframe :
    crm_associations (snd run) = crm_associations w
    /\ crm_devices (snd run) = crm_devices w
    /\ ((crm_objects (snd run) = crm_objects w
         /\ updates (snd run) = updates w)
        \/ exists bag n,
             crm_objects w !! url = Some bag
             /\ crm_objects (snd run)
                = <[url := counted bag n]> (crm_objects w)
             /\ updates (snd run)
                = updates w ++ [PATCH url {[ counter_key := VInt n ]}])).
  { subst run. unfold generate_certificate_data, bind.
    destruct (fetch_hubspot_data_run eng agreement_id system_id site_id w)
      as (reads & -> & Hreads & _).
    set (w1 := {| crm_objects := crm_objects w;
                  crm_associations := crm_associations w;
                  crm_devices := crm_devices w;
                  requests := requests w ++ reads |}).
    assert (Hupdates : updates w1 = updates w).
    { unfold updates, w1. cbn [requests].
      rewrite List.filter_app, (filter_reads reads Hreads).
      apply app_nil_r. }
    destruct (validate_data _) as [[] errors]; cbn [negb].
    - pose proof (generate_certificate_number_frame eng site_id system_id w1)
        as Hframe.
      cbv zeta in Hframe. fold url in Hframe. rewrite Hupdates in Hframe.
      change (crm_objects w1) with (crm_objects w) in Hframe.
      change (crm_associations w1) with (crm_associations w) in Hframe.
      change (crm_devices w1) with (crm_devices w) in Hframe.
      destruct (generate_certificate_number eng site_id system_id w1)
        as [[cert_number|e] w2]; cbn [snd] in *; [|exact Hframe].
      unfold lift. destruct (group_devices _) as [g|e]; exact Hframe.
    - split; [reflexivity|]. split; [reflexivity|]. left. by split. }
  clearbody run.
  destruct Hframe as (Hassoc & Hdevices & [[Hobjects Hupdates]
                                          |(bag & n & Hbag & Hobjects & Hupdates)]).
  - split; [exact Hassoc|]. split; [exact Hdevices|].
    split; [by left|]. split; [done|].
    split; intros; by rewrite Hobjects.
  - split; [exact Hassoc|]. split; [exact Hdevices|].
    split; [right; by exists n|]. split.
    + intros Hnone. rewrite Hupdates in Hnone.
      apply (f_equal length) in Hnone. rewrite length_app in Hnone.
      simpl in Hnone. lia.
    + rewrite Hobjects. split.
      * intros url' Hne. by rewrite lookup_insert_ne.
      * intros k Hk. rewrite lookup_insert_eq, Hbag. simpl.
        unfold counted. by rewrite lookup_insert_ne.
Qed.

(** X21.  The run that succeeds.  When what the CRM holds passes the
    validator, the system is served with a counter that stands for [n], and
    the description of every device is a text or is missing, the
    orchestrator returns the fields assembled from that bundle, its
    classification and the number [site_id-(n+1)], which is the
    [CERTIFICATE_Number] of the result; the counter holds [n + 1] and one
    update was sent. *)
Theorem certificate_data_success (eng : Engine) (rt : Runtime)
  (agreement_id system_id site_id : string)
  (broker_email requestor_name : PyVal) (w : World) (bag : Props) (n : Z) :
  let url := object_url (SYSTEM_TYPE_ID eng) system_id in
  let data := held eng agreement_id system_id site_id w in
  let run := generate_certificate_data eng rt agreement_id system_id site_id
               broker_email requestor_name w in
  fst (validate_data data) = true ->
  crm_objects w !! url = Some bag ->
  stored_counter bag n ->
  Forall description_is_str (DEVICES data) ->
  exists g fields,
    group_devices (DEVICES data) = Ok g
    /\ assemble_certificate_fields rt data g (number_of site_id (n + 1))
         broker_email requestor_name = Ok fields
    /\ fst run = Ok fields
    /\ fields !! "CERTIFICATE_Number"
       = Some (Scalar (VStr (number_of site_id (n + 1))))
    /\ crm_objects (snd run) = <[url := counted bag (n + 1)]> (crm_objects w)
    /\ updates (snd run)
       = updates w ++ [PATCH url {[ counter_key := VInt (n + 1) ]}].
Proof.
  intros url data run Hvalid Hsystem Hcounter Hdevices. subst run.
  destruct (group_devices_total _ Hdevices) as [g Hg].
  destruct (assembler_total_after rt _ g Hg data (number_of site_id (n + 1))
              broker_email requestor_name) as [fields Hfields].
  exists g, fields. split; [exact Hg|]. split; [exact Hfields|].
  unfold generate_certificate_data, bind.
  destruct (fetch_hubspot_data_run eng agreement_id system_id site_id w)
    as (reads & -> & Hreads & _).
  fold data. destruct (validate_data data) as [is_valid errors].
  cbn [fst] in Hvalid. subst is_valid. cbn [negb].
  rewrite (generate_certificate_number_stored eng site_id system_id _ bag n)
    by (try exact Hsystem; exact Hcounter).
  unfold lift. rewrite Hg. fold (number_of site_id (n + 1)). rewrite Hfields.
  cbn [fst snd crm_objects requests]. split; [reflexivity|]. split.
  { rewrite (assemble_other_key _ _ _ _ _ _ _ "CERTIFICATE_Number" Hfields
               eq_refl).
    apply base_fields_validated. }
  split; [reflexivity|].
  unfold updates. cbn [requests].
  rewrite !List.filter_app, (filter_reads reads Hreads), app_nil_r.
  reflexivity.
Qed.

Lemma certificate_data_success_witness :
  exists g fields,
    group_devices (DEVICES (held example_engine "A" "X" "9999"
                              (world_of_devices [front_door]))) = Ok g
    /\ assemble_certificate_fields example_runtime
         (held example_engine "A" "X" "9999" (world_of_devices [front_door]))
         g (number_of "9999" (4 + 1)) VNone VNone = Ok fields
    /\ fst door_run = Ok fields
    /\ fields !! "CERTIFICATE_Number"
       = Some (Scalar (VStr (number_of "9999" (4 + 1))))
    /\ crm_objects (snd door_run)
       = <[system_url := counted (system_bag (VStr "4")) (4 + 1)]>
           (crm_objects (world_of_devices [front_door]))
    /\ updates (snd door_run)
       = updates (world_of_devices [front_door])
         ++ [PATCH system_url {[ counter_key := VInt (4 + 1) ]}].
Proof.
  apply (certificate_data_success example_engine example_runtime
           "A" "X" "9999" VNone VNone (world_of_devices [front_door])
           (system_bag (VStr "4")) 4).
  - by_evaluation.
  - by_evaluation.
  - apply counter_decimal_text; [lia | by_evaluation].
  - constructor; [|constructor].
    intros v Hv. vm_compute in Hv. injection Hv as <-. by eexists.
Defined.

(** X22.  A number is spent before the devices are looked at.  When the
    bundle passes the validator and the system is served with a counter
    that stands for [n], but the classifier raises, the orchestrator raises
    the same exception, and the counter of the system holds [n + 1]
    nevertheless: the number allocated is lost. *)
Theorem classifier_failure_spends_number (eng : Engine) (rt : Runtime)
  (agreement_id system_id site_id : string)
  (broker_email requestor_name : PyVal) (w : World) (bag : Props) (n : Z)
  (e : PyExc) :
  let url := object_url (SYSTEM_TYPE_ID eng) system_id in
  let data := held eng agreement_id system_id site_id w in
  let run := generate_certificate_data eng rt agreement_id system_id site_id
               broker_email requestor_name w in
  fst (validate_data data) = true ->
  crm_objects w !! url = Some bag ->
  stored_counter bag n ->
  group_devices (DEVICES data) = Err e ->
  fst run = Err e
  /\ crm_objects (snd run) !! url = Some (counted bag (n + 1)).
Proof.
  intros url data run Hvalid Hsystem Hcounter Hg. subst run.
  unfold generate_certificate_data, bind.
  destruct (fetch_hubspot_data_run eng agreement_id system_id site_id w)
    as (reads & -> & Hreads & _).
  fold data. destruct (validate_data data) as [is_valid errors].
  cbn [fst] in Hvalid. subst is_valid. cbn [negb].
  rewrite (generate_certificate_number_stored eng site_id system_id _ bag n)
    by (try exact Hsystem; exact Hcounter).
  unfold lift. rewrite Hg. cbn [fst snd crm_objects].
  split; [reflexivity | apply lookup_insert_eq].
Qed.

Lemma classifier_failure_spends_number_witness :
  fst null_description_run = Err AttributeError
  /\ crm_objects (snd null_description_run) !! system_url
     = Some (counted (system_bag (VStr "4")) (4 + 1)).
Proof.
  apply (classifier_failure_spends_number example_engine example_runtime
           "A" "X" "9999" VNone VNone
           (world_of_devices [smoke_null_description])
           (system_bag (VStr "4")) 4 AttributeError).
  - by_evaluation.
  - by_evaluation.
  - apply counter_decimal_text; [lia | by_evaluation].
  - by_evaluation.
Defined.

(** ** The two renderings of a communication path *)

Section PathRenderings.

Variables (rt : Runtime).

(** The label of a path that is not empty and not a code. *)
Lemma comm_path_label_keywords (v : PyVal) :
  truthy v = true ->
  assoc (path_text v) code_mappings = None ->
  transform_value rt v "COMM_PATH_LABEL"
  = if Str.contains "blink" (path_text v) then VStr "BLINK mesh radio"
    else if Str.contains "gsm" (path_text v)
            || Str.contains "cellular" (path_text v)
    then VStr "cellular connection"
    else if Str.contains "phone" (path_text v)
            || Str.contains "telephone" (path_text v)
    then VStr "analog telephone line"
    else VStr (py_str v).
Proof.
  intros Hv Hcode. unfold path_text in *.
  destruct v; try discriminate Hv;
    unfold transform_value; cbn [String.eqb Ascii.eqb Bool.eqb];
    rewrite Hv; cbn [negb]; rewrite Hcode; reflexivity.
Qed.

(** Such a path has a wireless label exactly when the phrase branch
    counts it as wireless. *)
Lemma wireless_label_is_wireless (v : PyVal) :
  truthy v = true ->
  assoc (path_text v) code_mappings = None ->
  is_wireless (path_text v) = true <-> wireless_label rt v.
Proof.
  intros Hv Hcode. unfold wireless_label.
  rewrite (comm_path_label_keywords v Hv Hcode).
  unfold is_wireless, wireless. cbn [existsb].
  destruct (Str.contains "blink" (path_text v)) eqn:Hblink;
    [split; [by left | reflexivity]|].
  destruct (Str.contains "gsm" (path_text v)) eqn:Hgsm;
    [cbn [orb]; split; [by right | reflexivity]|].
  destruct (Str.contains "cellular" (path_text v)) eqn:Hcell;
    [cbn [orb]; split; [by right | reflexivity]|].
  cbn [orb]. split; [discriminate|].
  destruct (Str.contains "phone" _ || _);
    [intros [H|H]; discriminate H|].
  unfold path_text in *. intros [[= Htext]|[= Htext]].
  - rewrite Htext in Hblink. vm_compute in Hblink. discriminate Hblink.
  - rewrite Htext in Hcell. vm_compute in Hcell. discriminate Hcell.
Qed.

Lemma is_wireless_non_empty (s : string) :
  is_wireless s = true -> Str.non_empty s = true.
Proof. destruct s; [discriminate | reflexivity]. Qed.

End PathRenderings.

(** X23.  Outside the code table the phrase is what the two labels say.
    For two paths that are not empty and are not codes of the table, the
    COMM_PATH_PHRASE of the pair is "Redundant Wireless" exactly when
    COMM_PATH_LABEL gives both a wireless label ("BLINK mesh radio" or
    "cellular connection"), "GSM Only" exactly when it gives one of them a
    wireless label, and empty exactly when it gives neither one. *)
Theorem phrase_agrees_with_labels (rt : Runtime) (v1 v2 : PyVal) :
  truthy v1 = true -> truthy v2 = true ->
  assoc (path_text v1) code_mappings = None ->
  assoc (path_text v2) code_mappings = None ->
  let phrase := transform_value rt (VList [v1; v2]) "COMM_PATH_PHRASE" in
  (phrase = VStr "Redundant Wireless"
   <-> wireless_label rt v1 /\ wireless_label rt v2)
  /\ (phrase = VStr "GSM Only"
      <-> (wireless_label rt v1 /\ ~ wireless_label rt v2)
          \/ (~ wireless_label rt v1 /\ wireless_label rt v2))
  /\ (phrase = VStr EmptyString
      <-> ~ wireless_label rt v1 /\ ~ wireless_label rt v2).
Proof.
  intros Hv1 Hv2 Hcode1 Hcode2 phrase. subst phrase.
  pose proof (wireless_label_is_wireless rt v1 Hv1 Hcode1) as H1.
  pose proof (wireless_label_is_wireless rt v2 Hv2 Hcode2) as H2.
  rewrite comm_path_phrase_rule. unfold py_or. rewrite Hv1, Hv2.
  fold (path_text v1) (path_text v2).
  pose proof (is_wireless_non_empty (path_text v1)) as Hne1.
  pose proof (is_wireless_non_empty (path_text v2)) as Hne2.
  assert (Hw1 : if is_wireless (path_text v1) then wireless_label rt v1
                else ~ wireless_label rt v1).
  { destruct (is_wireless (path_text v1)); [by apply H1|].
    intros Hw. apply H1 in Hw. discriminate Hw. }
  assert (Hw2 : if is_wireless (path_text v2) then wireless_label rt v2
                else ~ wireless_label rt v2).
  { destruct (is_wireless (path_text v2)); [by apply H2|].
    intros Hw. apply H2 in Hw. discriminate Hw. }
  clear H1 H2.
  destruct (is_wireless (path_text v1)), (is_wireless (path_text v2));
    rewrite ?(Hne1 eq_refl), ?(Hne2 eq_refl); cbn [negb andb orb];
    rewrite ?andb_false_r;
    try (destruct (negb (Str.non_empty (path_text v1))
                   && negb (Str.non_empty (path_text v2))));
    (split; [|split]);
    (split;
     [intros Heq; try discriminate Heq; tauto
     |intros Hw; try reflexivity; exfalso; tauto]).
Qed.

Lemma phrase_agrees_with_labels_witness :
  transform_value example_runtime
    (VList [VStr "Telguard GSM"; VStr "POTS line"]) "COMM_PATH_PHRASE"
  = VStr "GSM Only".
Proof.
  apply (phrase_agrees_with_labels example_runtime
           (VStr "Telguard GSM") (VStr "POTS line") eq_refl eq_refl
           ltac:(by_evaluation) ltac:(by_evaluation)).
  left. split.
  - right. by_evaluation.
  - intros [H|H]; vm_compute in H; discriminate H.
Defined.

(** ** The leading number of a description *)

Section LeadingNumber.

Lemma space_not_digit (c : ascii) :
  Str.is_space c = true -> Str.is_digit c = false.
Proof. intros H. ascii_cases c H; reflexivity. Qed.

(** [re.sub(r'^\d+\s+', '', s)] on a text that starts with a number and
    white space. *)
Lemma strip_leading_number_numbered (number : string) (c : ascii)
  (rest : string) :
  digits_only number = true -> Str.non_empty number = true ->
  Str.is_space c = true ->
  Re.strip_leading_number (number +:+ String c rest)
  = Str.drop_while Str.is_space rest.
Proof.
  intros Hdigits Hne Hc. unfold Re.strip_leading_number.
  destruct (digits_then_other number c rest Hdigits (space_not_digit c Hc))
    as [-> ->].
  destruct number as [|a number]; [discriminate Hne|].
  rewrite Hc. simpl. by rewrite Hc.
Qed.

End LeadingNumber.

(** X24.  The number in front of a description is not part of the name.
    For a device whose description is ASCII text made of a run of the
    digits [0-9], a white-space character and a rest, the zone entry of the
    certificate is named by the rest without the white space in front of
    it, and the device is sorted by that name in lower case; its zone is
    the device id when there is one, else the zone property, else empty. *)
Theorem zone_entry_drops_number (d : Device) (number rest : string)
  (c : ascii) :
  digits_only number = true -> Str.non_empty number = true ->
  Str.is_space c = true -> Str.is_ascii rest = true ->
  d !! "alarm_com_description" = Some (VStr (number +:+ String c rest)) ->
  zone_entry d
  = Ok {| name := Str.drop_while Str.is_space rest;
          zone := if truthy (get d "adc_deviceid") then get d "adc_deviceid"
                  else if truthy (get d "zone__") then get d "zone__"
                  else VStr EmptyString |}
  /\ sort_key d = Ok (Str.lower (Str.drop_while Str.is_space rest)).
Proof.
  intros Hdigits Hne Hc _ Hd. unfold zone_entry, sort_key, get_or.
  rewrite Hd. cbn [default from_option id].
  rewrite (strip_leading_number_numbered number c rest Hdigits Hne Hc).
  split; reflexivity.
Qed.

Lemma zone_entry_drops_number_witness :
  zone_entry (described "12  Back Door" (VInt 7))
  = Ok {| name := Str.drop_while Str.is_space " Back Door";
          zone := if truthy (get (described "12  Back Door" (VInt 7))
                               "adc_deviceid")
                  then get (described "12  Back Door" (VInt 7)) "adc_deviceid"
                  else if truthy (get (described "12  Back Door" (VInt 7))
                                    "zone__")
                  then get (described "12  Back Door" (VInt 7)) "zone__"
                  else VStr EmptyString |}
  /\ sort_key (described "12  Back Door" (VInt 7))
     = Ok (Str.lower (Str.drop_while Str.is_space " Back Door")).
Proof.
  apply (zone_entry_drops_number (described "12  Back Door" (VInt 7))
           "12" " Back Door" " "); reflexivity.
Defined.
